(** * Avature career-site scraper: detection engine and extraction drivers

    A shallow embedding of [helpers.py] (rate-limited fetching and endpoint
    detection) and [jobs_helper.py] (record normalisation and the paginated
    extraction drivers), with the properties the specification states
    about them.

    Conventions of the embedding.
    - Text is [string]; a character is an [ascii], read as a code point in
      0..255.  On that range Python's [\d] is [0-9] and [\s] is the set
      [is_space] below, and [re.I] only folds the ASCII letters.
    - A Python [int] is a [Z]; a page counter is a [nat].
    - Network calls, [acquire()] and [time.sleep] are events appended to a
      trace; what the network answers is given by a [server] oracle.
    - A response body carries, next to its text, what [response.json()]
      and [BeautifulSoup] make of it (the parsers are external
      capabilities).
    - [urljoin], [str.format], [re.sub] with a run-time pattern and the
      [repr] of floats and containers come from the Python library and are
      the methods of the class [PyLib]. *)

From Stdlib Require Import ZArith String Ascii List Bool Lia.
From Stdlib Require Import Floats.SpecFloat.
From stdpp Require Import base gmap strings list pretty.
From Equations Require Import Equations.

Local Open Scope string_scope.
Local Open Scope list_scope.
Local Open Scope nat_scope.

(** ** Text *)

Module Text.

Definition is_digit (c : ascii) : bool :=
  let n := nat_of_ascii c in (48 <=? n)%nat && (n <=? 57)%nat.

Definition is_upper (c : ascii) : bool :=
  let n := nat_of_ascii c in (65 <=? n)%nat && (n <=? 90)%nat.

Definition is_lower (c : ascii) : bool :=
  let n := nat_of_ascii c in (97 <=? n)%nat && (n <=? 122)%nat.

(** [\s] of [re] on [str], and the characters [str.strip()] removes. *)
Definition is_space (c : ascii) : bool :=
  let n := nat_of_ascii c in
  ((9 <=? n)%nat && (n <=? 13)%nat) || ((28 <=? n)%nat && (n <=? 32)%nat)
  || (n =? 133)%nat || (n =? 160)%nat.

(** The lower case of an ASCII letter; the code only compares lowered
    text with ASCII words. *)
Definition lower (c : ascii) : ascii :=
  if is_upper c then ascii_of_nat (nat_of_ascii c + 32) else c.

Definition eqb_ci (a b : ascii) : bool := Ascii.eqb (lower a) (lower b).

Fixpoint all (p : ascii → bool) (s : string) : bool :=
  match s with
  | EmptyString => true
  | String c s' => p c && all p s'
  end.

Fixpoint filter (p : ascii → bool) (s : string) : string :=
  match s with
  | EmptyString => EmptyString
  | String c s' => if p c then String c (filter p s') else filter p s'
  end.

Fixpoint map (f : ascii → ascii) (s : string) : string :=
  match s with
  | EmptyString => EmptyString
  | String c s' => String (f c) (map f s')
  end.

(** [s[:n]] *)
Fixpoint take (n : nat) (s : string) : string :=
  match n, s with
  | S n', String c s' => String c (take n' s')
  | _, _ => EmptyString
  end.

(** [s.startswith(p)] *)
Fixpoint startswith (p s : string) : bool :=
  match p, s with
  | EmptyString, _ => true
  | String a p', String b s' => Ascii.eqb a b && startswith p' s'
  | String _ _, EmptyString => false
  end.

(** [s.startswith(p)] up to the case of ASCII letters. *)
Fixpoint startswith_ci (p s : string) : bool :=
  match p, s with
  | EmptyString, _ => true
  | String a p', String b s' => eqb_ci a b && startswith_ci p' s'
  | String _ _, EmptyString => false
  end.

(** [s[n:]] *)
Fixpoint drop (n : nat) (s : string) : string :=
  match n, s with
  | S n', String _ s' => drop n' s'
  | _, _ => s
  end.

(** [sub in s] *)
Fixpoint contains (sub s : string) : bool :=
  startswith sub s ||
  match s with
  | EmptyString => false
  | String _ s' => contains sub s'
  end.

(** [s.split(sep)[0]] for a non-empty [sep]: the text before the first
    occurrence of [sep], all of [s] when there is none. *)
Fixpoint before_first (sep s : string) : string :=
  if startswith sep s then EmptyString
  else match s with
       | EmptyString => EmptyString
       | String c s' => String c (before_first sep s')
       end.

(** The text before the last occurrence of the character [c]. *)
Fixpoint before_last (c : ascii) (s : string) : option string :=
  match s with
  | EmptyString => None
  | String a s' =>
      match before_last c s' with
      | Some p => Some (String a p)
      | None => if Ascii.eqb a c then Some EmptyString else None
      end
  end.

(** [s.rsplit(c, 1)[0]] *)
Definition rsplit1_head (c : ascii) (s : string) : string :=
  default s (before_last c s).

(** [s.replace(a, b)] for single characters. *)
Definition replace_char (a b : ascii) (s : string) : string :=
  map (λ c, if Ascii.eqb c a then b else c) s.

(** [sep.join(parts)] *)
Definition join (sep : string) (parts : list string) : string :=
  String.concat sep parts.

(** The characters of [s], each as a one-character text. *)
Fixpoint chars (s : string) : list string :=
  match s with
  | EmptyString => []
  | String c s' => String c EmptyString :: chars s'
  end.

(** [re.sub(r"\s+", " ", s)] *)
Fixpoint collapse_spaces (in_run : bool) (s : string) : string :=
  match s with
  | EmptyString => EmptyString
  | String c s' =>
      if is_space c
      then (if in_run then collapse_spaces true s'
            else String " " (collapse_spaces true s'))
      else String c (collapse_spaces false s')
  end.

Fixpoint lstrip (s : string) : string :=
  match s with
  | String c s' => if is_space c then lstrip s' else s
  | EmptyString => EmptyString
  end.

(** [s.strip()] *)
Definition strip (s : string) : string :=
  String.rev (lstrip (String.rev (lstrip s))).

End Text.

(** ** Regular expressions

    The patterns of the two modules are sequences of literals,
    alternatives of literals and greedy character-class repetitions with
    one capturing group.  [match_here] is a backtracking matcher for that
    fragment with [re]'s preferences: alternatives in order, repetitions
    longest first. *)

Module Re.

Inductive atom :=
| Lit (s : string)                      (* the text [s] *)
| Alt (ci : bool) (alts : list string)  (* [(?:a|b|..)], under [re.I] when [ci] *)
| Rep (cls : ascii → bool) (min : nat)  (* [[cls]{min,}] *)
| Cap (cls : ascii → bool) (min : nat). (* [([cls]{min,})], the group *)

Definition pattern := list atom.

(** The ways of splitting off a prefix of [s] made of [cls] characters,
    longest prefix first. *)
Fixpoint runs (cls : ascii → bool) (s : string) : list (string * string) :=
  match s with
  | EmptyString => [(EmptyString, EmptyString)]
  | String c s' =>
      if cls c
      then List.map (λ tr, (String c tr.1, tr.2)) (runs cls s') ++ [(EmptyString, s)]
      else [(EmptyString, s)]
  end.

(** The first candidate, in order, on which [k] succeeds. *)
Fixpoint first_success {A B} (k : A → option B) (l : list A) : option B :=
  match l with
  | [] => None
  | x :: l' => match k x with Some r => Some r | None => first_success k l' end
  end.

Definition long_enough (min : nat) (tr : string * string) : bool :=
  (min <=? String.length tr.1)%nat.

(** A match of [p] starting at the head of [s]: the group's text ([cap]
    until the group is met) and the text left after the match. *)
Fixpoint match_here (p : pattern) (s : string) (cap : string)
  : option (string * string) :=
  match p with
  | [] => Some (cap, s)
  | Lit l :: p' =>
      if Text.startswith l s
      then match_here p' (Text.drop (String.length l) s) cap else None
  | Alt ci alts :: p' =>
      first_success
        (λ l, if (if ci then Text.startswith_ci l s else Text.startswith l s)
              then match_here p' (Text.drop (String.length l) s) cap
              else None)
        alts
  | Rep cls min :: p' =>
      first_success (λ tr, match_here p' tr.2 cap)
                    (List.filter (long_enough min) (runs cls s))
  | Cap cls min :: p' =>
      first_success (λ tr, match_here p' tr.2 tr.1)
                    (List.filter (long_enough min) (runs cls s))
  end.

(** The leftmost match: [re.search(p, s)], as (group 1, text after the
    match). *)
Fixpoint search_rest (p : pattern) (s : string) : option (string * string) :=
  match match_here p s EmptyString with
  | Some r => Some r
  | None =>
      match s with
      | EmptyString => None
      | String _ s' => search_rest p s'
      end
  end.

(** [re.search(p, s)] followed by [.group(1)]. *)
Definition search (p : pattern) (s : string) : option string :=
  fst <$> search_rest p s.

(** [re.findall(p, s)] for a pattern with one group whose matches are
    never empty: the groups of the successive non-overlapping matches.
    Every match consumes a character, so [String.length s] rounds see
    all of them. *)
Fixpoint findall_from (fuel : nat) (p : pattern) (s : string) : list string :=
  match fuel with
  | O => []
  | S fuel' =>
      match search_rest p s with
      | Some (g, rest) => g :: findall_from fuel' p rest
      | None => []
      end
  end.

Definition findall (p : pattern) (s : string) : list string :=
  findall_from (String.length s) p s.

End Re.


(** ** Values decoded from JSON *)

#[local] Unset Elimination Schemes.
Inductive value :=
| VNone
| VBool (b : bool)
| VInt (n : Z)
| VFloat (f : spec_float)
| VStr (s : string)
| VList (l : list value)
| VDict (d : list (string * value)).
#[local] Set Elimination Schemes.

(** A [dict] is an association list read through [dict_lookup] (first
    binding of a key) and [dict_keys] (the distinct keys, in order of
    first occurrence). *)
Fixpoint dict_lookup (k : string) (d : list (string * value)) : option value :=
  match d with
  | [] => None
  | (k', v) :: d' => if String.eqb k k' then Some v else dict_lookup k d'
  end.

(** [d.get(k)] *)
Definition dict_get (d : list (string * value)) (k : string) : value :=
  default VNone (dict_lookup k d).

(** [k in d] *)
Definition dict_has (d : list (string * value)) (k : string) : bool :=
  bool_decide (is_Some (dict_lookup k d)).

Fixpoint dict_keys (d : list (string * value)) : list string :=
  match d with
  | [] => []
  | (k, _) :: d' => k :: List.filter (λ k', negb (String.eqb k k')) (dict_keys d')
  end.

(** Python's truth value of a decoded value. *)
Definition truthy (v : value) : bool :=
  match v with
  | VNone => false
  | VBool b => b
  | VInt n => negb (n =? 0)%Z
  | VFloat (S754_zero _) => false
  | VFloat _ => true
  | VStr s => negb (String.eqb s "")
  | VList [] => false
  | VList (_ :: _) => true
  | VDict [] => false
  | VDict (_ :: _) => true
  end.

(** [a or b] *)
Definition py_or (a b : value) : value := if truthy a then a else b.
Infix "<or>" := py_or (at level 50, left associativity).

(** The truth value of an optional text ([None] and [""] are false). *)
Definition nonempty (o : option string) : bool :=
  match o with
  | Some s => negb (String.eqb s "")
  | None => false
  end.

(** ** Python library functions the code calls *)

Class PyLib := {
  (** [urllib.parse.urljoin(base, url)]; [None] when it raises
      ([ValueError], on a bracket without its partner in a host). *)
  urljoin : string → string → option string;
  (** [template.format(offset=o, limit=l)]; [None] when it raises. *)
  str_format : string → Z → Z → option string;
  (** [re.sub(f"{name}=\\d+", f"{name}={n}", s)]; [None] when it raises. *)
  re_sub_number : string → Z → string → option string;
  (** [str(v)] for a float, a list or a dict. *)
  repr : value → string
}.

(** [str(v)], which is also what an f-string makes of [v]. *)
Definition py_str `{PyLib} (v : value) : string :=
  match v with
  | VStr s => s
  | VInt n => pretty n
  | VBool true => "True"
  | VBool false => "False"
  | VNone => "None"
  | _ => repr v
  end.

(** ** Job records *)

Module Job.
(** The dict both normalisers build.  [scraped_at], the wall-clock stamp
    of normalisation, is left out: nothing in the drivers reads it. *)
Record t := make {
  tenant : string;
  job_title : value;
  job_url : option string;
  job_id : option string;
  location : option string;
  date_posted : option string;
  job_description : value
}.
End Job.
Abbreviation JobRecord := Job.t.

Definition REQUEST_TIMEOUT : Z := 15.
Definition MAX_PAGES_PER_SITE : nat := 20.

(** [clean_text] *)
Definition clean_text (text : string) : string :=
  if String.eqb text "" then ""
  else Text.strip (Text.collapse_spaces false text).

(** The three patterns of [extract_job_id_from_url], in the order of the
    source: [/(\d{4,})], [jobId=(\d+)], [id=(\d+)]. *)
Definition job_id_patterns : list Re.pattern :=
  [ [Re.Lit "/"; Re.Cap Text.is_digit 4];
    [Re.Lit "jobId="; Re.Cap Text.is_digit 1];
    [Re.Lit "id="; Re.Cap Text.is_digit 1] ].

(** [extract_job_id_from_url] *)
Definition extract_job_id_from_url (url : option string) : option string :=
  match url with
  | None => None
  | Some u =>
      if String.eqb u "" then None
      else Re.first_success (λ pattern, Re.search pattern u) job_id_patterns
  end.
Global Arguments extract_job_id_from_url : simpl never.

(** ** Parsed HTML

    What the drivers observe of a BeautifulSoup [Tag]: its markup (two
    tags are [==] when their markup is the same), the first [<a href>]
    below it as (text, href), its text, and the first string in it that
    names one of the listed places. *)
Record Tag := {
  tag_markup : string;
  tag_link : option (string * string);  (* [find("a", href=True)] *)
  tag_text : string;                    (* [get_text()] *)
  tag_place : option string             (* [find(string=re.compile(..places..))] *)
}.

Global Instance Tag_eq_dec : EqDecision Tag.
Proof. solve_decision. Defined.

(** What the code asks of a parsed document. *)
Record Soup := {
  (** [find_all("a", href=re.compile("JobDetail|job|position", re.I))],
      each link with its
      [find_parent(["li", "div", "article", "tr", "section"])]. *)
  job_links : list (Tag * option Tag);
  (** [find_all("li", {"class": re.compile("job|result|item", re.I)})] *)
  li_items : list Tag;
  (** [find_all("div", {"class": re.compile("job|result|card", re.I)})] *)
  div_items : list Tag;
  (** [find_all("article", {})] *)
  articles : list Tag;
  (** [find_all("tr", {"class": re.compile("job", re.I)})] *)
  tr_items : list Tag;
  (** The [action] of each form of
      [find_all("form", action=re.compile(r"SearchJobs", re.I))]. *)
  search_forms : list string;
  (** The text of [find("h1") or find(class_=re.compile("job.*title", re.I))]. *)
  detail_title : option string;
  (** The text of [find(class_=re.compile("location", re.I))]. *)
  detail_location : option string;
  (** The text of
      [find(class_=re.compile("description|content|summary|details", re.I))]. *)
  detail_description : option string
}.

(** The labelled-location pattern of [parse_job_from_listing]:
    [(?:Location|City|Office)[\s:]+([^|;\n]+)] under [re.I]. *)
Definition location_pattern : Re.pattern :=
  [ Re.Alt true ["Location"; "City"; "Office"];
    Re.Rep (λ c, Text.is_space c || Ascii.eqb c ":") 1;
    Re.Cap (λ c, negb (Ascii.eqb c "|" || Ascii.eqb c ";" || Ascii.eqb c "010")) 1 ].

(** [parse_job_from_listing].  When [urljoin] raises, the [except] of the
    function returns [None]. *)
Definition parse_job_from_listing `{PyLib}
    (job_elem : Tag) (base_url tenant : string) : option JobRecord :=
  match
    match tag_link job_elem with
    | Some (link_text, href) =>
        match urljoin base_url href with
        | Some job_url =>
            Some (VStr (clean_text link_text), Some job_url,
                  extract_job_id_from_url (Some job_url))
        | None => None
        end
    | None => Some (VNone, None, None)
    end
  with
  | None => None
  | Some (job_title, job_url, job_id) =>
      let element_text := tag_text job_elem in
      let location :=
        match Re.search location_pattern element_text with
        | Some g => Some (clean_text g)
        | None =>
            match tag_place job_elem with
            | Some location_elem =>
                if nonempty (Some location_elem)
                then Some (clean_text location_elem) else None
            | None => None
            end
        end in
      if truthy job_title
      then Some (Job.make tenant job_title job_url job_id location None VNone)
      else None
  end.

(** The characters [re.sub(r"[^a-zA-Z0-9-]", "", ..)] keeps. *)
Definition slug_char (c : ascii) : bool :=
  Text.is_lower c || Text.is_upper c || Text.is_digit c || Ascii.eqb c "-".

(** The title slug of [parse_job_from_json]; [None] when
    [job_title.replace] raises (a true title that is not a [str]). *)
Definition title_slug (job_title : value) : option string :=
  let slug s := Text.take 50 (Text.filter slug_char s) in
  if truthy job_title
  then match job_title with
       | VStr s => Some (slug (Text.replace_char " " "-" s))
       | _ => None
       end
  else Some (slug "job").

(** The first true candidate of [url_candidates], resolved; the outer
    [None] when [url.startswith] raises (a true candidate that is not a
    [str]) or [urljoin] does, the inner [None] when no candidate is
    true. *)
Fixpoint resolve_url `{PyLib} (base_url : string) (url_candidates : list value)
  : option (option string) :=
  match url_candidates with
  | [] => Some None
  | url :: rest =>
      if truthy url
      then match url with
           | VStr u =>
               if negb (Text.startswith "http" u)
               then Some <$> urljoin base_url u
               else Some (Some u)
           | _ => None
           end
      else resolve_url base_url rest
  end.

(** [parse_job_from_json].  Whatever raises inside the [try] (a job
    object without [.get], a title without [.replace], a URL without
    [.startswith], a URL that [urljoin] refuses) makes the result
    [None]. *)
Definition parse_job_from_json `{PyLib}
    (job_obj : value) (tenant base_url : string) : option JobRecord :=
  match job_obj with
  | VDict d =>
      let get := dict_get d in
      let job_id :=
        get "id" <or> get "jobId" <or> get "Id" <or> get "requisitionId"
          <or> get "positionId" in
      let job_id_field := if truthy job_id then Some (py_str job_id) else None in
      let job_title :=
        get "title" <or> get "jobTitle" <or> get "positionTitle" <or> get "name" in
      let location_data := get "location" <or> get "primaryLocation" <or> get "city" in
      let location :=
        match location_data with
        | VDict ld =>
            let location_parts :=
              omap (λ key, if truthy (dict_get ld key)
                           then Some (py_str (dict_get ld key)) else None)
                   ["city"; "state"; "country"; "region"] in
            match location_parts with
            | [] => None
            | _ :: _ => Some (Text.join ", " location_parts)
            end
        | _ => if truthy location_data then Some (py_str location_data) else None
        end in
      let job_description :=
        get "description" <or> get "summary" <or> get "jobDescription" in
      let job_url :=
        if truthy job_id
        then
          match title_slug job_title with
          | Some slug =>
              resolve_url base_url
                [ get "url"; get "jobUrl"; get "applyUrl";
                  VStr (base_url +:+ "/JobDetail/" +:+ slug +:+ "/" +:+ py_str job_id);
                  VStr (base_url +:+ "/jobs/JobDetail/" +:+ py_str job_id) ]
          | None => None
          end
        else Some None in
      let date_posted := get "postedDate" <or> get "datePosted" <or> get "createdDate" in
      let date_posted_field :=
        if truthy date_posted then Some (py_str date_posted) else None in
      match job_url with
      | Some job_url =>
          if truthy job_title
          then Some (Job.make tenant job_title job_url job_id_field location
                              date_posted_field job_description)
          else None
      | None => None
      end
  | _ => None
  end.

(** [find_job_elements], method 1: the loop over the job links. *)
Fixpoint collect_link_parents (links : list (Tag * option Tag)) (job_elements : list Tag)
  : list Tag :=
  match links with
  | [] => job_elements
  | (link, parent) :: rest =>
      let job_elements :=
        match parent with
        | Some p =>
            if bool_decide (p ∉ job_elements) then job_elements ++ [p]
            else if bool_decide (link ∉ job_elements) then job_elements ++ [link]
            else job_elements
        | None =>
            if bool_decide (link ∉ job_elements) then job_elements ++ [link]
            else job_elements
        end in
      collect_link_parents rest job_elements
  end.

(** [find_job_elements] *)
Definition find_job_elements (soup : Soup) : list Tag :=
  match collect_link_parents (job_links soup) [] with
  | [] =>
      default []
        (Re.first_success
           (λ found : list Tag, match found with [] => None | _ :: _ => Some found end)
           [li_items soup; div_items soup; articles soup; tr_items soup])
  | job_elements => job_elements
  end.

(** ** The network, the rate limiter and the trace of a run *)

Inductive request :=
| GET (url : string)    (* [requests.get] *)
| HEAD (url : string).  (* [requests.head] *)

Record Body := {
  text : string;            (* [response.text], [response.content] *)
  as_json : option value;   (* [response.json()]; [None] when it raises *)
  as_soup : Soup            (* [BeautifulSoup(.., "html.parser")] *)
}.

Module Response.
Record t := make {
  status_code : Z;
  body : Body;
  url : string            (* [response.url], after redirects *)
}.
End Response.
Abbreviation Response := Response.t.

(** What a call of [requests] does. *)
Inductive outcome :=
| Responded (r : Response)
| Timeout                   (* raises [requests.Timeout] *)
| RequestException.         (* raises another [requests.RequestException] *)

Inductive event :=
| Acquire                   (* [rate_limiter.acquire()] returned *)
| Request (r : request)     (* a call of [requests] *)
| Sleep.                    (* [time.sleep(random.uniform(2.0, 4.0))] *)

Definition trace := list event.

Definition is_request (e : event) : bool :=
  match e with Request _ => true | _ => false end.

(** The number of network calls in a trace. *)
Definition requests_in (w : trace) : nat := length (List.filter is_request w).

(** A server decides the outcome of the [n]-th network call of a run
    from [n] and the request. *)
Definition Server := nat → request → outcome.

(** A computation that extends the trace of the run. *)
Definition Run (A : Type) : Type := trace → A * trace.

Global Instance Run_ret : MRet Run := λ A x w, (x, w).
Global Instance Run_bind : MBind Run :=
  λ A B f m w, let '(x, w') := m w in f x w'.

Definition emit (e : event) : Run unit := λ w, (tt, w ++ [e]).

(** How a call ends: with a value, or by raising out of the function. *)
Inductive completion (A : Type) :=
| Returned (a : A)
| Raised.
Arguments Returned {A} a.
Arguments Raised {A}.

(** ** [helpers.py] *)

Inductive Status := success | partial | failed.
Inductive Strategy := public_report_json | search_jobs_html | html_scrape.
Inductive Confidence := high | medium | low.
Inductive ErrorKind :=
| fetch_failed
| http_ (status_code : Z)
| no_pattern_detected.

(** The dict a probe returns. *)
Record Found := {
  found_type : Strategy;
  found_endpoint : string;
  found_pagination_param : option string;
  found_page_size_param : option string;
  found_default_page_size : option Z;
  found_confidence : Confidence;
  found_test_status : option string;
  found_method : option string;
  found_job_count_estimate : option nat;
  found_sample_job_ids : option (list string);
  found_note : option string
}.

(** The detection result dict, which is also the [config] of the
    extraction drivers.  A key that may be missing is an [option]. *)
Module Config.
Record t := make {
  tenant : string;
  career_url : string;
  is_career_page : bool;
  status : Status;
  type : option Strategy;
  endpoint : option string;
  confidence : option Confidence;
  error : option ErrorKind;
  pagination_param : option string;
  page_size_param : option string;
  default_page_size : option Z;
  test_status : option string;
  method : option string;
  job_count_estimate : option nat;
  sample_job_ids : option (list string);
  note : option string
}.
End Config.
Abbreviation Config := Config.t.

(** [result.update(config); result["status"] = st] *)
Definition update (result : Config) (config : Found) (st : Status) : Config :=
  {| Config.tenant := Config.tenant result;
     Config.career_url := Config.career_url result;
     Config.is_career_page := Config.is_career_page result;
     Config.status := st;
     Config.type := Some (found_type config);
     Config.endpoint := Some (found_endpoint config);
     Config.confidence := Some (found_confidence config);
     Config.error := Config.error result;
     Config.pagination_param := found_pagination_param config;
     Config.page_size_param := found_page_size_param config;
     Config.default_page_size := found_default_page_size config;
     Config.test_status := found_test_status config;
     Config.method := found_method config;
     Config.job_count_estimate := found_job_count_estimate config;
     Config.sample_job_ids := found_sample_job_ids config;
     Config.note := found_note config |}.

(** [result["error"] = e] *)
Definition with_error (result : Config) (e : ErrorKind) : Config :=
  {| Config.tenant := Config.tenant result;
     Config.career_url := Config.career_url result;
     Config.is_career_page := Config.is_career_page result;
     Config.status := Config.status result;
     Config.type := Config.type result;
     Config.endpoint := Config.endpoint result;
     Config.confidence := Config.confidence result;
     Config.error := Some e;
     Config.pagination_param := Config.pagination_param result;
     Config.page_size_param := Config.page_size_param result;
     Config.default_page_size := Config.default_page_size result;
     Config.test_status := Config.test_status result;
     Config.method := Config.method result;
     Config.job_count_estimate := Config.job_count_estimate result;
     Config.sample_job_ids := Config.sample_job_ids result;
     Config.note := Config.note result |}.

(** [r"/PublicReports/(\d+)/json"] *)
Definition report_pattern : Re.pattern :=
  [Re.Lit "/PublicReports/"; Re.Cap Text.is_digit 1; Re.Lit "/json"].

Definition quote_or_space (c : ascii) : bool := Ascii.eqb c "034" || Text.is_space c.

(** The patterns of [detect_job_ids_in_html]: [r"jobId[=:](\d+)"],
    [r'data-job-id["\s]*=["\s]*(\d+)'], [r"/JobDetail/[^/]+/(\d+)"]. *)
Definition html_job_id_patterns : list Re.pattern :=
  [ [Re.Lit "jobId"; Re.Alt false ["="; ":"]; Re.Cap Text.is_digit 1];
    [Re.Lit "data-job-id"; Re.Rep quote_or_space 0; Re.Lit "=";
     Re.Rep quote_or_space 0; Re.Cap Text.is_digit 1];
    [Re.Lit "/JobDetail/"; Re.Rep (λ c, negb (Ascii.eqb c "/")) 1; Re.Lit "/";
     Re.Cap Text.is_digit 1] ].

(** [key in data]; [None] when it raises [TypeError]. *)
Definition py_in (key : string) (data : value) : option bool :=
  match data with
  | VDict d => Some (dict_has d key)
  | VList l => Some (existsb (λ v, match v with VStr s => String.eqb s key | _ => false end) l)
  | VStr s => Some (Text.contains key s)
  | _ => None
  end.

Section Helpers.
Context `{PyLib} (server : Server).

(** [RateLimiter.acquire]: the call blocks until a token is there; the
    run sees that it returned. *)
Definition acquire : Run unit := emit Acquire.

(** A call of [requests.get] or [requests.head]. *)
Definition send (r : request) : Run outcome :=
  λ w, (server (requests_in w) r, w ++ [Request r]).

Definition sleep : Run unit := emit Sleep.

(** The [for attempt in range(max_retries)] loop of [fetch_page]. *)
Fixpoint fetch_attempts (attempts : nat) (url : string)
  : Run (option (Z * Body * string)) :=
  match attempts with
  | O => mret None
  | S attempts' =>
      o ← send (GET url);
      match o with
      | Responded response =>
          mret (Some (Response.status_code response, Response.body response,
                      Response.url response))
      | Timeout => fetch_attempts attempts' url
      | RequestException => mret None
      end
  end.

(** [fetch_page]: one [acquire()], then at most [max_retries] attempts.
    The [timeout] argument only sets when [requests] gives up, which is
    the server's [Timeout] here. *)
Definition fetch_page (url : string) (max_retries : Z)
  : Run (option (Z * Body * string)) :=
  _ ← acquire;
  fetch_attempts (Z.to_nat max_retries) url.

Definition public_report_config (endpoint_url : string) : Found :=
  {| found_type := public_report_json;
     found_endpoint := endpoint_url;
     found_pagination_param := Some "offset";
     found_page_size_param := Some "recordsPerPage";
     found_default_page_size := Some 1000%Z;
     found_confidence := high;
     found_test_status := Some "success";
     found_method := None;
     found_job_count_estimate := None;
     found_sample_job_ids := None;
     found_note := None |}.

(** [test_response.status_code == 200] and
    ["rows" in data or "data" in data], [false] also when the test
    raises. *)
Definition report_test_passes (o : outcome) : bool :=
  match o with
  | Responded test_response =>
      if (Response.status_code test_response =? 200)%Z
      then match as_json (Response.body test_response) with
           | Some data =>
               match py_in "rows" data with
               | Some true => true
               | Some false => default false (py_in "data" data)
               | None => false
               end
           | None => false
           end
      else false
  | _ => false
  end.

(** [detect_public_reports_endpoint] *)
Definition detect_public_reports_endpoint (html : Body) (tenant : string)
  : Run (option Found) :=
  match Re.findall report_pattern (text html) with
  | report_id :: _ =>
      let endpoint_url :=
        "https://" +:+ tenant +:+ "/PublicReports/" +:+ report_id +:+ "/json" in
      _ ← acquire;
      o ← send (GET (endpoint_url +:+ "?offset=0&recordsPerPage=1"));
      mret (if report_test_passes o
            then Some (public_report_config endpoint_url) else None)
  | [] => mret None
  end.

Definition search_jobs_config (endpoint : string) (method : string) : Found :=
  {| found_type := search_jobs_html;
     found_endpoint := endpoint;
     found_pagination_param := Some "jobOffset";
     found_page_size_param := Some "jobRecords";
     found_default_page_size := Some 50%Z;
     found_confidence := medium;
     found_test_status := None;
     found_method := Some method;
     found_job_count_estimate := None;
     found_sample_job_ids := None;
     found_note := None |}.

(** The path-guessing loop of [detect_search_jobs_endpoint]. *)
Fixpoint guess_paths (tenant : string) (common_paths : list string)
  : Run (option Found) :=
  match common_paths with
  | [] => mret None
  | path :: rest =>
      let test_url := "https://" +:+ tenant +:+ path in
      _ ← acquire;
      o ← send (HEAD test_url);
      match o with
      | Responded test_resp =>
          if (Response.status_code test_resp =? 200)%Z
          then mret (Some (search_jobs_config test_url "path_guessing"))
          else guess_paths tenant rest
      | _ => guess_paths tenant rest
      end
  end.

(** [detect_search_jobs_endpoint].  The [urljoin] of the form's action
    stands outside any [try]: when it raises, the function raises. *)
Definition detect_search_jobs_endpoint (html : Body) (soup : Soup) (tenant : string)
  : Run (completion (option Found)) :=
  match search_forms soup with
  | action :: _ =>
      let base_url := "https://" +:+ tenant in
      match urljoin base_url action with
      | Some endpoint =>
          mret (Returned (Some (search_jobs_config endpoint "form_detection")))
      | None => mret Raised
      end
  | [] =>
      if Text.contains "SearchJobs" (text html)
      then config ← guess_paths tenant
                      ["/careers/SearchJobs/"; "/careers/SearchJobs"; "/SearchJobs/"];
           mret (Returned config)
      else mret (Returned None)
  end.

(** [detect_job_ids_in_html].  The order in which [list(all_job_ids)]
    lists the set is not fixed by Python; here it is that of
    [elements]. *)
Definition detect_job_ids_in_html (html : Body) (soup : Soup) (url : string)
  : option Found :=
  let all_job_ids : gset string :=
    foldl (λ acc pattern, acc ∪ list_to_set (Re.findall pattern (text html)))
          ∅ html_job_id_patterns in
  if bool_decide (all_job_ids = ∅) then None
  else Some {| found_type := html_scrape;
               found_endpoint := url;
               found_pagination_param := None;
               found_page_size_param := None;
               found_default_page_size := None;
               found_confidence := low;
               found_test_status := None;
               found_method := None;
               found_job_count_estimate := Some (size all_job_ids);
               found_sample_job_ids := Some (take 5 (elements all_job_ids));
               found_note := Some "Requires detail page crawling" |}.

Definition initial_result (tenant url : string) (is_career_page : bool) : Config :=
  {| Config.tenant := tenant; Config.career_url := url;
     Config.is_career_page := is_career_page;
     Config.status := failed; Config.type := None; Config.endpoint := None;
     Config.confidence := None; Config.error := None;
     Config.pagination_param := None; Config.page_size_param := None;
     Config.default_page_size := None; Config.test_status := None;
     Config.method := None; Config.job_count_estimate := None;
     Config.sample_job_ids := None; Config.note := None |}.

(** [detect_endpoint_for_url].  It has no [try] of its own: what
    [detect_search_jobs_endpoint] raises leaves it too. *)
Definition detect_endpoint_for_url (tenant url : string) (is_career_page : bool)
  : Run (completion Config) :=
  let result := initial_result tenant url is_career_page in
  page_data ← fetch_page url 2;
  match page_data with
  | None => mret (Returned (with_error result fetch_failed))
  | Some (status_code, html, final_url) =>
      if negb (status_code =? 200)%Z
      then mret (Returned (with_error result (http_ status_code)))
      else
        let soup := as_soup html in
        config ← detect_public_reports_endpoint html tenant;
        match config with
        | Some config => mret (Returned (update result config success))
        | None =>
            config ← detect_search_jobs_endpoint html soup tenant;
            match config with
            | Raised => mret Raised
            | Returned (Some config) => mret (Returned (update result config success))
            | Returned None =>
                match detect_job_ids_in_html html soup url with
                | Some config => mret (Returned (update result config partial))
                | None => mret (Returned (with_error result no_pattern_detected))
                end
            end
        end
  end.
End Helpers.

(** ** [jobs_helper.py]: the extraction drivers *)

(** The accounting of one page: the seen set, the new records, and the two
    counters of the source. *)
Record Tally := {
  seen_job_ids : gset string;
  page_jobs : list JobRecord;
  page_duplicates : nat;
  page_new_jobs : nat
}.

(** The body of [for job_obj in jobs_list] (and of [for job_elem in
    job_elements]) once the item is parsed. *)
Definition tally_item (t : Tally) (job_data : option JobRecord) : Tally :=
  match job_data with
  | Some job_data =>
      let job_id := Job.job_id job_data in
      if nonempty job_id && bool_decide (default "" job_id ∈ seen_job_ids t)
      then {| seen_job_ids := seen_job_ids t;
              page_jobs := page_jobs t;
              page_duplicates := S (page_duplicates t);
              page_new_jobs := page_new_jobs t |}
      else {| seen_job_ids :=
                if nonempty job_id then {[default "" job_id]} ∪ seen_job_ids t
                else seen_job_ids t;
              page_jobs := page_jobs t ++ [job_data];
              page_duplicates := page_duplicates t;
              page_new_jobs := S (page_new_jobs t) |}
  | None => t
  end.

Definition tally_page {A} (parse : A → option JobRecord) (seen : gset string)
    (items : list A) : Tally :=
  foldl (λ t item, tally_item t (parse item))
        {| seen_job_ids := seen; page_jobs := []; page_duplicates := 0;
           page_new_jobs := 0 |}
        items.

(** [len(items) > 0 and page_duplicates / len(items) > 0.8].  The float
    quotient is above the float [0.8] exactly when [5 * duplicates >
    4 * len], for every page of fewer than 2^50 items. *)
Definition duplicate_flood (duplicates items : nat) : bool :=
  (0 <? items)%nat && (4 * items <? 5 * duplicates)%nat.

(** What one turn of the [while] loop decides. *)
Inductive turn :=
| Raise                               (* an exception leaves the function *)
| Break
| Next (consecutive_empty : nat) (seen : gset string) (jobs : list JobRecord).

(** The list [scrape_via_json_api] reads the jobs from. *)
Definition jobs_list_of (data : value) : value :=
  match data with
  | VList _ => data
  | VDict d =>
      dict_get d "jobs" <or> dict_get d "items" <or> dict_get d "results"
        <or> dict_get d "data" <or> dict_get d "jobList" <or> VList []
  | _ => VList []
  end.

(** The items [for job_obj in jobs_list] visits ([len(jobs_list)] is their
    number); [None] when iterating raises [TypeError]. *)
Definition iterate (jobs_list : value) : option (list value) :=
  match jobs_list with
  | VList l => Some l
  | VStr s => Some (VStr <$> Text.chars s)
  | VDict d => Some (VStr <$> dict_keys d)
  | _ => None
  end.

(** What [try_json_api] accepts as a JSON API answer. *)
Definition looks_like_jobs (data : value) : bool :=
  match data with
  | VDict d => dict_has d "jobs" || dict_has d "items" || dict_has d "results"
  | VList l => (0 <? length l)%nat
  | _ => false
  end.

Definition probe_accepts (o : outcome) : option value :=
  match o with
  | Responded response =>
      if (Response.status_code response =? 200)%Z
      then match as_json (Response.body response) with
           | Some data => if looks_like_jobs data then Some data else None
           | None => None
           end
      else None
  | _ => None
  end.

(** The [base_url] a page of [scrape_via_json_api] gives the normaliser. *)
Definition json_base_url (api_url : string) : string :=
  if Text.contains "PublicReports" api_url
  then Text.before_first "PublicReports" api_url
  else Text.rsplit1_head "/" api_url.

(** The URL of a page of [scrape_via_html_parsing]. *)
Definition html_page_url (endpoint pagination_param page_size_param : string)
    (offset page_size : Z) : string :=
  let separator := if Text.contains "?" endpoint then "&" else "?" in
  endpoint +:+ separator +:+ pagination_param +:+ "=" +:+ pretty offset
    +:+ "&" +:+ page_size_param +:+ "=" +:+ pretty page_size.

Section Drivers.
Context `{PyLib} (server : Server).

(** The three URLs [try_json_api] tries, in order. *)
Definition api_urls (endpoint : string) (offset limit : Z) : list string :=
  let base_url :=
    if Text.contains "SearchJobs" endpoint
    then Text.before_first "SearchJobs" endpoint
    else Text.rsplit1_head "/" endpoint in
  [ base_url +:+ "/PublicReports?actionPerformed=getJobsForCareerPage&jobOffset="
      +:+ pretty offset +:+ "&jobRecords=" +:+ pretty limit;
    endpoint +:+ "?output=json&jobOffset=" +:+ pretty offset
      +:+ "&jobRecords=" +:+ pretty limit;
    base_url +:+ "/api/jobs?offset=" +:+ pretty offset +:+ "&limit=" +:+ pretty limit ].

(** The [for api_url in api_urls] loop of [try_json_api]. *)
Fixpoint try_urls (urls : list string) : Run (option (string * value)) :=
  match urls with
  | [] => mret None
  | api_url :: rest =>
      o ← send server (GET api_url);
      match probe_accepts o with
      | Some data => mret (Some (api_url, data))
      | None => try_urls rest
      end
  end.

(** [try_json_api] *)
Definition try_json_api (tenant endpoint : string) (offset limit : Z)
  : Run (option (string * value)) :=
  try_urls (api_urls endpoint offset limit).

(** The URL of a page of [scrape_via_json_api]; [None] when building it
    raises. *)
Definition json_page_url (api_url_template pagination_param page_size_param : string)
    (offset page_size : Z) : option string :=
  if Text.contains "{offset}" api_url_template
  then str_format api_url_template offset page_size
  else api_url ← re_sub_number pagination_param offset api_url_template;
       re_sub_number page_size_param page_size api_url.

(** One turn of the loop of [scrape_via_json_api]. *)
Definition json_turn (tenant api_url_template pagination_param page_size_param : string)
    (page_size : Z) (page consecutive_empty : nat) (seen : gset string)
    (jobs : list JobRecord) : Run turn :=
  let offset := (Z.of_nat page * page_size)%Z in
  match json_page_url api_url_template pagination_param page_size_param
                      offset page_size with
  | None => mret Raise
  | Some api_url =>
      o ← send server (GET api_url);
      match o with
      | Responded response =>
          if negb (Response.status_code response =? 200)%Z then mret Break
          else
            match as_json (Response.body response) with
            | None => mret Break
            | Some data =>
                let base_url := json_base_url api_url in
                match iterate (jobs_list_of data) with
                | None => mret Break
                | Some jobs_list =>
                    let t := tally_page
                               (λ job_obj, parse_job_from_json job_obj tenant base_url)
                               seen jobs_list in
                    if duplicate_flood (page_duplicates t) (length jobs_list)
                    then mret Break
                    else if (page_new_jobs t =? 0)%nat
                    then
                      if (2 <=? S consecutive_empty)%nat then mret Break
                      else _ ← sleep;
                           mret (Next (S consecutive_empty) (seen_job_ids t)
                                      (jobs ++ page_jobs t))
                    else _ ← sleep;
                         mret (Next 0 (seen_job_ids t) (jobs ++ page_jobs t))
                end
            end
      | _ => mret Break
      end
  end.

(** The [while page < MAX_PAGES_PER_SITE] loop of
    [scrape_via_json_api]. *)
Equations json_pages
    (tenant api_url_template pagination_param page_size_param : string)
    (page_size : Z) (page consecutive_empty : nat) (seen : gset string)
    (jobs : list JobRecord) (w : trace)
  : completion (list JobRecord) * trace
  by wf (MAX_PAGES_PER_SITE - page) lt :=
  json_pages tenant api_url_template pagination_param page_size_param page_size
             page consecutive_empty seen jobs w
    with decide (page < MAX_PAGES_PER_SITE) := {
    | right _ => (Returned jobs, w)
    | left Hpage
        with json_turn tenant api_url_template pagination_param page_size_param
                       page_size page consecutive_empty seen jobs w := {
        | (Raise, w') => (Raised, w')
        | (Break, w') => (Returned jobs, w')
        | (Next consecutive_empty' seen' jobs', w') =>
            json_pages tenant api_url_template pagination_param page_size_param
                       page_size (S page) consecutive_empty' seen' jobs' w' } }.
Next Obligation. intros. unfold MAX_PAGES_PER_SITE in *. lia. Qed.

(** [scrape_via_json_api] *)
Definition scrape_via_json_api
    (tenant api_url_template pagination_param page_size_param : string)
    (page_size : Z) : Run (completion (list JobRecord)) :=
  json_pages tenant api_url_template pagination_param page_size_param page_size
             0 0 ∅ [].

(** One turn of the loop of [scrape_via_html_parsing]. *)
Definition html_turn (tenant endpoint pagination_param page_size_param : string)
    (page_size : Z) (page consecutive_empty : nat) (seen : gset string)
    (jobs : list JobRecord) : Run turn :=
  let offset := (Z.of_nat page * page_size)%Z in
  let url := html_page_url endpoint pagination_param page_size_param offset page_size in
  o ← send server (GET url);
  match o with
  | Responded response =>
      let soup := as_soup (Response.body response) in
      let job_elements := find_job_elements soup in
      match job_elements with
      | [] =>
          if (2 <=? S consecutive_empty)%nat then mret Break
          else _ ← sleep;
               mret (Next (S consecutive_empty) seen jobs)
      | _ :: _ =>
          let t := tally_page
                     (λ job_elem, parse_job_from_listing job_elem endpoint tenant)
                     seen job_elements in
          if duplicate_flood (page_duplicates t) (length job_elements)
          then mret Break
          else
            match page_jobs t with
            | [] =>
                if (2 <=? S consecutive_empty)%nat then mret Break
                else _ ← sleep;
                     mret (Next (S consecutive_empty) (seen_job_ids t)
                                (jobs ++ page_jobs t))
            | _ :: _ =>
                _ ← sleep;
                mret (Next 0 (seen_job_ids t) (jobs ++ page_jobs t))
            end
      end
  | _ => mret Break
  end.

(** The [while page < MAX_PAGES_PER_SITE] loop of
    [scrape_via_html_parsing]. *)
Equations html_pages
    (tenant endpoint pagination_param page_size_param : string)
    (page_size : Z) (page consecutive_empty : nat) (seen : gset string)
    (jobs : list JobRecord) (w : trace)
  : list JobRecord * trace
  by wf (MAX_PAGES_PER_SITE - page) lt :=
  html_pages tenant endpoint pagination_param page_size_param page_size
             page consecutive_empty seen jobs w
    with decide (page < MAX_PAGES_PER_SITE) := {
    | right _ => (jobs, w)
    | left Hpage
        with html_turn tenant endpoint pagination_param page_size_param
                       page_size page consecutive_empty seen jobs w := {
        | (Next consecutive_empty' seen' jobs', w') =>
            html_pages tenant endpoint pagination_param page_size_param
                       page_size (S page) consecutive_empty' seen' jobs' w'
        | (_, w') => (jobs, w') } }.
Next Obligation. intros. unfold MAX_PAGES_PER_SITE in *. lia. Qed.

(** [scrape_via_html_parsing] *)
Definition scrape_via_html_parsing
    (tenant endpoint pagination_param page_size_param : string)
    (page_size : Z) : Run (list JobRecord) :=
  html_pages tenant endpoint pagination_param page_size_param page_size
             0 0 ∅ [].

(** [scrape_paginated_endpoint].  A config without an endpoint makes
    [try_json_api] raise. *)
Definition scrape_paginated_endpoint (config : Config)
  : Run (completion (list JobRecord)) :=
  let tenant := Config.tenant config in
  match Config.endpoint config with
  | None => mret Raised
  | Some endpoint =>
      let pagination_param := default "jobOffset" (Config.pagination_param config) in
      let page_size_param := default "jobRecords" (Config.page_size_param config) in
      let default_page_size := default 50%Z (Config.default_page_size config) in
      found ← try_json_api tenant endpoint 0 default_page_size;
      match found with
      | Some (api_url, sample_data) =>
          scrape_via_json_api tenant api_url pagination_param page_size_param
                              default_page_size
      | None =>
          jobs ← scrape_via_html_parsing tenant endpoint pagination_param
                                         page_size_param default_page_size;
          mret (Returned jobs)
      end
  end.

Definition text_field (o : option string) : value :=
  match o with
  | Some s => VStr (clean_text s)
  | None => VNone
  end.

(** The [for job_id in sample_job_ids] loop of
    [scrape_partial_endpoint]. *)
Fixpoint detail_pages (tenant career_url : string) (sample_job_ids : list string)
    (jobs : list JobRecord) : Run (list JobRecord) :=
  match sample_job_ids with
  | [] => mret jobs
  | job_id :: rest =>
      let job_url := career_url +:+ "/JobDetail/" +:+ job_id in
      o ← send server (GET job_url);
      match o with
      | Responded response =>
          let final := Text.map Text.lower (Response.url response) in
          if Text.contains "login" final || Text.contains "signin" final
          then detail_pages tenant career_url rest jobs
          else if negb (Response.status_code response =? 200)%Z
          then detail_pages tenant career_url rest jobs
          else
            let soup := as_soup (Response.body response) in
            let job_data :=
              Job.make tenant (text_field (detail_title soup)) (Some job_url)
                       (Some job_id) (clean_text <$> detail_location soup) None
                       (text_field (detail_description soup)) in
            let jobs :=
              if truthy (Job.job_title job_data) then jobs ++ [job_data] else jobs in
            _ ← sleep;
            detail_pages tenant career_url rest jobs
      | _ => detail_pages tenant career_url rest jobs
      end
  end.

(** [scrape_partial_endpoint] *)
Definition scrape_partial_endpoint (config : Config) : Run (list JobRecord) :=
  let tenant := Config.tenant config in
  let career_url := Config.career_url config in
  let sample_job_ids := default [] (Config.sample_job_ids config) in
  detail_pages tenant career_url sample_job_ids [].

(** [scrape_single_config]: whatever the drivers raise becomes an empty
    result. *)
Definition scrape_single_config (config : Config) : Run (list JobRecord) :=
  match Config.status config with
  | success =>
      r ← scrape_paginated_endpoint config;
      mret (match r with Returned jobs => jobs | Raised => [] end)
  | partial => scrape_partial_endpoint config
  | failed => mret []
  end.
End Drivers.

(** ** Notions the properties are stated with *)

(** The identifiers the duplicate check can see: the non-empty [job_id]s
    of a sequence of records, in order. *)
Definition emitted_ids (jobs : list JobRecord) : list string :=
  omap (λ r, if nonempty (Job.job_id r) then Job.job_id r else None) jobs.

(** No two records of the sequence share a non-empty [job_id]. *)
Definition distinct_job_ids (jobs : list JobRecord) : Prop :=
  ∀ (i j : nat) (ri rj : JobRecord),
    jobs !! i = Some ri → jobs !! j = Some rj → i ≠ j →
    nonempty (Job.job_id ri) = true →
    Job.job_id ri ≠ Job.job_id rj.

Global Instance request_eq_dec : EqDecision request.
Proof. solve_decision. Defined.

(** The rate-limiting discipline, read off a trace.  [acquire()] lifts the
    barrier for one page; the requests that follow it up to the next
    [acquire()] must all be for the same page (the attempts of one
    fetch).  A request that meets the barrier down, or lifted for another
    page, was sent without a preceding [acquire()] of its own. *)
Inductive barrier :=
| Shut                   (* nothing acquired yet *)
| Open                   (* acquired, nothing sent since *)
| Serving (r : request). (* acquired, and [r] was sent since *)

Definition barrier_step (g : barrier) (e : event) : option barrier :=
  match e with
  | Acquire => Some Open
  | Sleep => Some g
  | Request r =>
      match g with
      | Shut => None
      | Open => Some (Serving r)
      | Serving r' => if decide (r = r') then Some (Serving r) else None
      end
  end.

Fixpoint barrier_run (g : barrier) (w : trace) : option barrier :=
  match w with
  | [] => Some g
  | e :: w' => barrier_step g e ≫= λ g', barrier_run g' w'
  end.

(** Every request of the trace is behind an [acquire()] for its page. *)
Definition rate_limited (w : trace) : bool :=
  match barrier_run Shut w with Some _ => true | None => false end.

(** A trace made of page blocks: an [acquire()], then the attempts for one
    page. *)
Inductive page_blocks : trace → Prop :=
| page_blocks_nil : page_blocks []
| page_blocks_cons (r : request) (k : nat) (es : trace) :
    page_blocks es → page_blocks (Acquire :: replicate k (Request r) ++ es).

(** The number of [acquire()] calls in a trace. *)
Definition acquires_in (w : trace) : nat :=
  length (List.filter (λ e, match e with Acquire => true | _ => false end) w).

(** [config] with its ["type"] replaced. *)
Definition with_type (config : Config) (t : option Strategy) : Config :=
  {| Config.tenant := Config.tenant config;
     Config.career_url := Config.career_url config;
     Config.is_career_page := Config.is_career_page config;
     Config.status := Config.status config;
     Config.type := t;
     Config.endpoint := Config.endpoint config;
     Config.confidence := Config.confidence config;
     Config.error := Config.error config;
     Config.pagination_param := Config.pagination_param config;
     Config.page_size_param := Config.page_size_param config;
     Config.default_page_size := Config.default_page_size config;
     Config.test_status := Config.test_status config;
     Config.method := Config.method config;
     Config.job_count_estimate := Config.job_count_estimate config;
     Config.sample_job_ids := Config.sample_job_ids config;
     Config.note := Config.note config |}.

(** The job URL as the JSON normaliser stores it: an [http] text as it
    is, anything else joined to the base URL ([None] when the join
    raises). *)
Definition stored_url `{PyLib} (base_url u : string) : option string :=
  if Text.startswith "http" u then Some u else urljoin base_url u.

(** The longest prefix of [s] made of [cls] characters, and the rest. *)
Fixpoint span (cls : ascii → bool) (s : string) : string * string :=
  match s with
  | EmptyString => (EmptyString, EmptyString)
  | String c s' =>
      if cls c then let '(g, rest) := span cls s' in (String c g, rest)
      else (EmptyString, s)
  end.

(** [s] starts with a [cls] character. *)
Definition head_in (cls : ascii → bool) (s : string) : bool :=
  match s with
  | EmptyString => false
  | String c _ => cls c
  end.

(** [prefix(\d{m,})] matches in [url] behind [pre], with group [g]:
    [g] is a run of at least [m] digits standing right behind [prefix],
    and the run ends where [g] ends. *)
Definition digits_behind (prefix : string) (m : nat) (url pre g : string) : Prop :=
  ∃ post, url = pre +:+ prefix +:+ g +:+ post
          ∧ Text.all Text.is_digit g = true
          ∧ m ≤ String.length g
          ∧ head_in Text.is_digit post = false.

(** [g] is the group of the leftmost match of [prefix(\d{m,})] in [url]:
    what [re.search] returns. *)
Definition leftmost_match (prefix : string) (m : nat) (url g : string) : Prop :=
  ∃ pre,
    digits_behind prefix m url pre g
    ∧ ∀ pre1 g1 post1,
        url = pre1 +:+ prefix +:+ g1 +:+ post1 →
        Text.all Text.is_digit g1 = true → m ≤ String.length g1 →
        String.length pre ≤ String.length pre1.

(** [prefix(\d{m,})] matches nowhere in [url]: wherever [prefix] stands,
    fewer than [m] digits follow. *)
Definition digits_absent (prefix : string) (m : nat) (url : string) : Prop :=
  ∀ pre g post,
    url = pre +:+ prefix +:+ g +:+ post →
    Text.all Text.is_digit g = true → String.length g < m.

(** What the duplicate check makes of a record it takes as new. *)
Definition taken_as_new (t : Tally) (r : JobRecord) (seen : gset string) : Tally :=
  {| seen_job_ids := seen;
     page_jobs := page_jobs t ++ [r];
     page_duplicates := page_duplicates t;
     page_new_jobs := S (page_new_jobs t) |}.

(** [parse] makes of [item] a record with the non-empty identifier
    [id]. *)
Definition yields {A} (parse : A → option JobRecord) (item : A) (id : string) : Prop :=
  id ≠ "" ∧ ∃ r, parse item = Some r ∧ Job.job_id r = Some id.

(** The items the JSON driver reads from the answer to a page request;
    [None] when the answer itself ends the loop (a transport error, a
    status other than 200, a body that is not JSON, a jobs list that
    cannot be iterated). *)
Definition json_items (o : outcome) : option (list value) :=
  match o with
  | Responded response =>
      if (Response.status_code response =? 200)%Z
      then as_json (Response.body response) ≫= λ data, iterate (jobs_list_of data)
      else None
  | _ => None
  end.

(** The listing elements the HTML driver reads from the answer to a page
    request; [None] on a transport error. *)
Definition html_elements (o : outcome) : option (list Tag) :=
  match o with
  | Responded response => Some (find_job_elements (as_soup (Response.body response)))
  | _ => None
  end.

(** ** Notions for the further properties *)

(** White space of [s] is made of single [" "] characters: no other
    white-space character occurs and no two spaces are adjacent
    ([prev] tells whether a space stands right before [s]). *)
Fixpoint single_spaced (prev : bool) (s : string) : bool :=
  match s with
  | EmptyString => true
  | String c s' =>
      if Text.is_space c
      then Ascii.eqb c " " && negb prev && single_spaced true s'
      else single_spaced false s'
  end.

Definition not_space (c : ascii) : bool := negb (Text.is_space c).

(** A run of page requests with a pause after each, the last one
    possibly apart. *)
Fixpoint paced (w : trace) : bool :=
  match w with
  | [] => true
  | Request _ :: w' =>
      match w' with
      | [] => true
      | Sleep :: w'' => paced w''
      | _ => false
      end
  | _ => false
  end.

(** The server that answers as [server] does, with every status code
    [c] turned into [f c]. *)
Definition with_status_codes (f : Z → Z) (server : Server) : Server :=
  λ n r,
    match server n r with
    | Responded response =>
        Responded (Response.make (f (Response.status_code response))
                                 (Response.body response) (Response.url response))
    | o => o
    end.

(** A config [scrape_single_config] has nothing to do for: a failed
    detection, a partial one without sample identifiers, a successful
    one without an endpoint. *)
Definition nothing_to_scrape (config : Config) : bool :=
  match Config.status config with
  | failed => true
  | partial =>
      match Config.sample_job_ids config with
      | None | Some [] => true
      | Some (_ :: _) => false
      end
  | success =>
      match Config.endpoint config with
      | None => true
      | Some _ => false
      end
  end.

(** The URL of the detail page of a job. *)
Definition detail_url (career_url job_id : string) : string :=
  career_url +:+ "/JobDetail/" +:+ job_id.

(** The final URL of [response] is that of a login page, as
    [scrape_partial_endpoint] sees it. *)
Definition asks_to_log_in (response : Response) : bool :=
  let final := Text.map Text.lower (Response.url response) in
  Text.contains "login" final || Text.contains "signin" final.

(** A non-empty run of digits. *)
Definition digit_run (g : string) : Prop :=
  Text.all Text.is_digit g = true ∧ 1 ≤ String.length g.

(** The group of the pattern, if it has one, matches digit runs only. *)
Definition captures_digits (p : Re.pattern) : Prop :=
  Forall (λ a, match a with
               | Re.Cap cls min => ∀ g, Text.all cls g = true →
                                        min ≤ String.length g → digit_run g
               | _ => True
               end) p
  ∧ Exists (λ a, match a with Re.Cap _ _ => True | _ => False end) p.

(** The events of checking a list of paths of a tenant: an [acquire()]
    and a [HEAD] request for each. *)
Definition head_checks (tenant : string) (paths : list string) : trace :=
  flat_map (λ path, [Acquire; Request (HEAD ("https://" +:+ tenant +:+ path))]) paths.

(** The paths [detect_search_jobs_endpoint] guesses. *)
Definition common_paths : list string :=
  ["/careers/SearchJobs/"; "/careers/SearchJobs"; "/SearchJobs/"].

(** The answer to a request is a response with status 200. *)
Definition answers_200 (o : outcome) : bool :=
  match o with
  | Responded response => (Response.status_code response =? 200)%Z
  | _ => false
  end.

(** The words of [s]: its maximal runs of characters that are not white
    space, in their order (what [s.split()] returns). *)
Fixpoint words (s : string) : list string :=
  match s with
  | EmptyString => []
  | String c s' =>
      if Text.is_space c then words s'
      else if head_in not_space s'
           then match words s' with
                | w :: ws => String c w :: ws
                | [] => [String c EmptyString]
                end
           else String c EmptyString :: words s'
  end.

(** The pieces of [s] between the occurrences of the character [c]. *)
Fixpoint split_at (c : ascii) (s : string) : list string :=
  match s with
  | EmptyString => [EmptyString]
  | String a s' =>
      if Ascii.eqb a c then EmptyString :: split_at c s'
      else match split_at c s' with
           | piece :: pieces => String a piece :: pieces
           | [] => [String a EmptyString]
           end
  end.

(** The path of an absolute URL: what stands behind the host, up to the
    query. *)
Definition url_path (url : string) : string :=
  let scheme := Text.before_first "://" url in
  let behind_scheme := Text.drop (String.length scheme + 3) url in
  let host := Text.before_first "/" behind_scheme in
  Text.before_first "?" (Text.drop (String.length host) behind_scheme).

(** The first pattern of the job identifier as the specification words
    it: the first segment of the URL's path that is made of four or more
    digits. *)
Definition digit_path_segment (url : string) : option string :=
  List.find (λ segment, Text.all Text.is_digit segment
                        && (4 <=? String.length segment))
            (split_at "/" (url_path url)).

(** ** Sample data

    A stand-in for the Python library and a few servers, to run the model
    on.  The properties below hold for every [PyLib]; [Demo.lib] only
    serves to evaluate examples. *)

Module Demo.

(** [s.replace(old, new)] for a non-empty [old]; [skip] counts the
    characters of a match still to be dropped. *)
Fixpoint replace_from (old new : string) (skip : nat) (s : string) : string :=
  match s with
  | EmptyString => EmptyString
  | String c s' =>
      match skip with
      | S k => replace_from old new k s'
      | O =>
          if Text.startswith old s
          then new +:+ replace_from old new (String.length old - 1) s'
          else String c (replace_from old new 0 s')
      end
  end.

Definition format (template : string) (offset limit : Z) : option string :=
  Some (replace_from "{limit}" (pretty limit) 0
          (replace_from "{offset}" (pretty offset) 0 template)).

(** Replaces every [name=<digits>] by [name=n]. *)
Fixpoint sub_number_from (name n : string) (skip : nat) (s : string) : string :=
  match s with
  | EmptyString => EmptyString
  | String c s' =>
      match skip with
      | S k => sub_number_from name n k s'
      | O =>
          match Re.match_here [Re.Lit (name +:+ "="); Re.Cap Text.is_digit 1] s "" with
          | Some (digits, _) =>
              name +:+ "=" +:+ n
                +:+ sub_number_from name n (String.length name + String.length digits) s'
          | None => String c (sub_number_from name n 0 s')
          end
      end
  end.

Definition sub_number (name : string) (n : Z) (s : string) : option string :=
  Some (sub_number_from name (pretty n) 0 s).

(** A bracket without its partner, on which [urljoin] raises. *)
Definition unbalanced (s : string) : bool :=
  xorb (Text.contains "[" s) (Text.contains "]" s).

(** A simplified [urljoin]: it raises on a bracket without its partner;
    an absolute URL stands, a path from the root is put behind the
    origin of the base, anything else replaces the last segment of the
    base. *)
Definition join (base url : string) : option string :=
  if unbalanced base || unbalanced url then None
  else if Text.startswith "http" url then Some url
  else if Text.startswith "/" url
  then let scheme := Text.before_first "://" base in
       let rest := Text.drop (String.length scheme + 3) base in
       Some (scheme +:+ "://" +:+ Text.before_first "/" rest +:+ url)
  else Some (Text.rsplit1_head "/" base +:+ "/" +:+ url).

Definition lib : PyLib :=
  {| urljoin := join;
     str_format := format;
     re_sub_number := sub_number;
     repr := λ _, "<repr>" |}.

Definition no_soup : Soup :=
  {| job_links := []; li_items := []; div_items := []; articles := [];
     tr_items := []; search_forms := []; detail_title := None;
     detail_location := None; detail_description := None |}.

(** A body that is JSON. *)
Definition json_body (data : value) : Body :=
  {| text := "<json>"; as_json := Some data; as_soup := no_soup |}.

(** A body that is an HTML page with these listing elements, each the
    parent of one job link. *)
Definition listing_body (elems : list Tag) : Body :=
  {| text := "<html>";
     as_json := None;
     as_soup :=
       {| job_links := (λ e, (e, Some e)) <$> elems;
          li_items := []; div_items := []; articles := []; tr_items := [];
          search_forms := []; detail_title := None; detail_location := None;
          detail_description := None |} |}.

Definition ok (b : Body) : outcome := Responded (Response.make 200 b "https://acme.avature.net/").

(** The raw job [{"id": i, "title": "Job <i>"}]. *)
Definition job_obj (i : Z) : value :=
  VDict [("id", VInt i); ("title", VStr ("Job " +:+ pretty i))].

(** The listing element of job [i]. *)
Definition job_elem (i : Z) : Tag :=
  {| tag_markup := "<li><a href=/careers/JobDetail/" +:+ pretty i +:+ ">Job</a></li>";
     tag_link := Some ("Job " +:+ pretty i, "/careers/JobDetail/" +:+ pretty i);
     tag_text := "Job " +:+ pretty i;
     tag_place := None |}.

(** A raw job with an identifier and a [jobUrl], and its record. *)
Definition site_engineer : value :=
  VDict [("jobId", VInt 7); ("title", VStr "Site Engineer");
         ("jobUrl", VStr "/careers/JobDetail/7")].

Definition site_engineer_record : JobRecord :=
  {| Job.tenant := "acme.avature.net";
     Job.job_title := VStr "Site Engineer";
     Job.job_url := Some "https://acme.avature.net/careers/JobDetail/7";
     Job.job_id := Some "7";
     Job.location := None;
     Job.date_posted := None;
     Job.job_description := VNone |}.

(** The record of the listing element of job 1001. *)
Definition listed_record : JobRecord :=
  {| Job.tenant := "acme.avature.net";
     Job.job_title := VStr "Job 1001";
     Job.job_url := Some "https://acme.avature.net/careers/JobDetail/1001";
     Job.job_id := Some "1001";
     Job.location := None;
     Job.date_posted := None;
     Job.job_description := VNone |}.

Definition ten : list Z := [1001; 1002; 1003; 1004; 1005; 1006; 1007; 1008; 1009; 1010]%Z.
Definition five : list Z := [2001; 2002; 2003; 2004; 2005]%Z.

(** Answers every request with the same page of ten jobs. *)
Definition same_json_page : Server := λ _ _, ok (json_body (VList (job_obj <$> ten))).
Definition same_html_page : Server := λ _ _, ok (listing_body (job_elem <$> ten)).

(** Five jobs on the first page, empty pages afterwards. *)
Definition five_then_empty_json : Server :=
  λ n _, ok (json_body (VList (if n is O then job_obj <$> five else []))).
Definition five_then_empty_html : Server :=
  λ n _, ok (listing_body (if n is O then job_elem <$> five else [])).

(** Two jobs never seen before on every page, without end. *)
Definition endless_json : Server :=
  λ n _, ok (json_body (VList (job_obj <$> [3000 + 2 * Z.of_nat n; 3001 + 2 * Z.of_nat n]%Z))).
Definition endless_html : Server :=
  λ n _, ok (listing_body (job_elem <$> [3000 + 2 * Z.of_nat n; 3001 + 2 * Z.of_nat n]%Z)).

(** A career page with a [SearchJobs] form, no JSON API behind it, and a
    listing that repeats its ten jobs on every page. *)
Definition career_page : Body :=
  {| text := "<html><form action=/careers/SearchJobs></form></html>";
     as_json := None;
     as_soup :=
       {| job_links := []; li_items := []; div_items := []; articles := [];
          tr_items := []; search_forms := ["/careers/SearchJobs"];
          detail_title := None; detail_location := None;
          detail_description := None |} |}.

Definition not_found : outcome :=
  Responded (Response.make 404 (json_body VNone) "https://acme.avature.net/").

Definition search_form_site : Server :=
  λ n _, match n with
         | 0 => ok career_page
         | 1 | 2 | 3 => not_found
         | _ => ok (listing_body (job_elem <$> ten))
         end.

(** A career page that shows both a report endpoint and a [SearchJobs]
    form. *)
Definition both_page : Body :=
  {| text := "<html><a href=/PublicReports/4711/json>feed</a>"
             +:+ "<form action=/careers/SearchJobs></form></html>";
     as_json := None;
     as_soup :=
       {| job_links := []; li_items := []; div_items := []; articles := [];
          tr_items := []; search_forms := ["/careers/SearchJobs"];
          detail_title := None; detail_location := None;
          detail_description := None |} |}.

(** The report endpoint of [both_page] answers the test request ... *)
Definition report_site : Server :=
  λ n _, match n with
         | 0 => ok both_page
         | _ => ok (json_body (VDict [("rows", VList [job_obj 1; job_obj 2])]))
         end.


(** A career page with a [SearchJobs] form whose endpoint also answers
    [?output=json], always with the same two jobs. *)
Definition json_behind_form_site : Server :=
  λ n _, match n with
         | 0 => ok career_page
         | 1 => not_found
         | _ => ok (json_body (VDict [("jobs", VList [job_obj 1; job_obj 2])]))
         end.

(** A career page whose [SearchJobs] form has an action that [urljoin]
    refuses, and a site that serves it. *)
Definition bad_form_page : Body :=
  {| text := "<html><form action=//[::1/careers/SearchJobs></form></html>";
     as_json := None;
     as_soup :=
       {| job_links := []; li_items := []; div_items := []; articles := [];
          tr_items := []; search_forms := ["//[::1/careers/SearchJobs"];
          detail_title := None; detail_location := None;
          detail_description := None |} |}.

Definition bad_form_site : Server := λ _ _, ok bad_form_page.

Definition api_template : string := "https://acme.avature.net/api/jobs?offset=0&limit=10".
Definition listing_endpoint : string := "https://acme.avature.net/careers/SearchJobs".

End Demo.

(** * Properties *)

(** ** Text *)

Lemma string_app_cons (x : ascii) (a b : string) :
  String x a +:+ b = String x (a +:+ b).
Proof. reflexivity. Qed.

Lemma string_app_nil_l (a : string) : "" +:+ a = a.
Proof. reflexivity. Qed.

Lemma string_app_assoc (a b c : string) : (a +:+ b) +:+ c = a +:+ (b +:+ c).
Proof.
  induction a as [|x a IH]; [done|]. rewrite !string_app_cons. by f_equal.
Qed.

Lemma string_app_nil_r (a : string) : a +:+ "" = a.
Proof. induction a as [|x a IH]; [done|]. rewrite string_app_cons. by f_equal. Qed.

Lemma string_length_app (a b : string) :
  String.length (a +:+ b) = String.length a + String.length b.
Proof.
  induction a as [|x a IH]; [done|]. rewrite string_app_cons. simpl. by f_equal.
Qed.

Lemma string_app_nonempty (a b : string) : b ≠ "" → a +:+ b ≠ "".
Proof. destruct a; [done|]. rewrite string_app_cons. discriminate. Qed.

Lemma take_length_le (n : nat) (s : string) : String.length (Text.take n s) ≤ n.
Proof.
  revert s. induction n as [|n IH]; intros [|c s]; simpl; try lia.
  specialize (IH s). lia.
Qed.

Lemma all_take (p : ascii → bool) (n : nat) (s : string) :
  Text.all p s = true → Text.all p (Text.take n s) = true.
Proof.
  revert s. induction n as [|n IH]; intros [|c s]; simpl; try done.
  intros [Hc Hs]%andb_true_iff. rewrite Hc. simpl. by apply IH.
Qed.

Lemma all_filter (p : ascii → bool) (s : string) :
  Text.all p (Text.filter p s) = true.
Proof.
  induction s as [|c s IH]; [done|]. simpl.
  destruct (p c) eqn:Hc; [|done]. simpl. by rewrite Hc.
Qed.

Lemma startswith_app (l s : string) :
  Text.startswith l s = true → s = l +:+ Text.drop (String.length l) s.
Proof.
  revert s. induction l as [|a l IH]; intros s Hs; [done|].
  destruct s as [|b s]; [done|]. simpl in *.
  apply andb_true_iff in Hs as [Hab Hs].
  apply Ascii.eqb_eq in Hab as ->. rewrite string_app_cons. f_equal. by apply IH.
Qed.

Lemma startswith_prefix (l x : string) : Text.startswith l (l +:+ x) = true.
Proof.
  induction l as [|a l IH]; [done|]. rewrite string_app_cons. simpl.
  rewrite Ascii.eqb_refl. by apply IH.
Qed.

Lemma drop_prefix (l x : string) : Text.drop (String.length l) (l +:+ x) = x.
Proof. induction l as [|a l IH]; [by destruct x|]. by rewrite string_app_cons. Qed.

(** ** The matcher on [prefix(\d{m,})] *)

Lemma span_spec (cls : ascii → bool) (s : string) :
  s = (span cls s).1 +:+ (span cls s).2
  ∧ Text.all cls (span cls s).1 = true
  ∧ head_in cls (span cls s).2 = false.
Proof.
  induction s as [|c s (IH1 & IH2 & IH3)]; [done|]. simpl.
  destruct (cls c) eqn:Hc; [|by rewrite <- Hc].
  destruct (span cls s) as [g rest]. simpl in *.
  rewrite string_app_cons, <- IH1, Hc. done.
Qed.

(** No run of [cls] characters at the head of [s] is longer than the
    span. *)
Lemma span_longest (cls : ascii → bool) (g post : string) :
  Text.all cls g = true →
  String.length g ≤ String.length (span cls (g +:+ post)).1.
Proof.
  induction g as [|c g IH]; [simpl; lia|]. simpl.
  intros [Hc Hg]%andb_true_iff. rewrite ?string_app_cons. simpl. rewrite Hc.
  destruct (span cls (g +:+ post)) as [g' rest] eqn:Hspan. simpl in *.
  specialize (IH Hg). lia.
Qed.

(** A run that ends before a character outside [cls] is the span. *)
Lemma span_unique (cls : ascii → bool) (g post : string) :
  Text.all cls g = true → head_in cls post = false →
  span cls (g +:+ post) = (g, post).
Proof.
  induction g as [|c g IH]; simpl.
  - intros _ Hpost. destruct post as [|c post]; [done|]. simpl in *. by rewrite Hpost.
  - intros [Hc Hg]%andb_true_iff Hpost. rewrite ?string_app_cons. simpl.
    by rewrite Hc, IH.
Qed.

(** The candidates of a repetition start with the span; the others are
    strictly shorter. *)
Lemma runs_span (cls : ascii → bool) (s : string) :
  ∃ shorter,
    Re.runs cls s = span cls s :: shorter
    ∧ Forall (λ tr, String.length tr.1 < String.length (span cls s).1) shorter.
Proof.
  induction s as [|c s (shorter & Hruns & Hshorter)]; [by exists []|]. simpl.
  destruct (cls c); [|by exists []].
  rewrite Hruns. destruct (span cls s) as [g rest]. simpl in *.
  eexists. split; [reflexivity|].
  apply Forall_app. split.
  - apply Forall_fmap. eapply Forall_impl; [done|]. simpl. intros tr Htr. lia.
  - constructor; [simpl; lia|constructor].
Qed.

Lemma first_success_long_enough {B} (f : string * string → B)
    (cls : ascii → bool) (m : nat) (s : string) :
  Re.first_success (λ tr, Some (f tr))
                   (List.filter (Re.long_enough m) (Re.runs cls s))
  = if (m <=? String.length (span cls s).1) then Some (f (span cls s)) else None.
Proof.
  destruct (runs_span cls s) as (shorter & -> & Hshorter). simpl.
  unfold Re.long_enough at 1.
  destruct (m <=? String.length (span cls s).1) eqn:Hm; [done|].
  apply Nat.leb_gt in Hm.
  induction Hshorter as [|tr shorter Htr _ IH]; [done|]. simpl.
  unfold Re.long_enough at 1.
  destruct (m <=? String.length tr.1) eqn:Htr'; [|done].
  apply Nat.leb_le in Htr'. lia.
Qed.

(** [prefix(\d{m,})] at the head of [s]. *)
Lemma match_here_prefix_digits (prefix : string) (cls : ascii → bool) (m : nat)
    (s cap : string) :
  Re.match_here [Re.Lit prefix; Re.Cap cls m] s cap
  = if Text.startswith prefix s
    then let tail := span cls (Text.drop (String.length prefix) s) in
         if (m <=? String.length tail.1) then Some tail else None
    else None.
Proof.
  cbn [Re.match_here]. destruct (Text.startswith prefix s); [|done].
  rewrite (first_success_long_enough (λ tr, (tr.1, tr.2))).
  simpl. by destruct (span cls _).
Qed.

(** Where the leftmost match is. *)
Lemma search_rest_Some (p : Re.pattern) (s g rest : string) :
  Re.search_rest p s = Some (g, rest) →
  ∃ pre s',
    s = pre +:+ s'
    ∧ Re.match_here p s' "" = Some (g, rest)
    ∧ ∀ pre1 s1, s = pre1 +:+ s1 → String.length pre1 < String.length pre →
                 Re.match_here p s1 "" = None.
Proof.
  induction s as [|c s IH]; simpl.
  - destruct (Re.match_here p "" "") as [r|] eqn:Hm; [|done].
    intros [= ->]. exists "", "". split; [done|]. split; [done|]. simpl. lia.
  - destruct (Re.match_here p (String c s) "") as [r|] eqn:Hm.
    + intros [= ->]. exists "", (String c s). split; [done|]. split; [done|].
      simpl. lia.
    + intros Hs. destruct (IH Hs) as (pre & s' & -> & Hmatch & Hleft).
      exists (String c pre), s'. split; [done|]. split; [done|].
      intros [|c1 pre1] s1 Heq Hlen.
      * rewrite string_app_nil_l in Heq. by subst s1.
      * rewrite !string_app_cons in Heq. injection Heq as -> Heq.
        apply (Hleft pre1 s1 Heq). simpl in Hlen. lia.
Qed.

Lemma search_rest_None (p : Re.pattern) (s : string) :
  Re.search_rest p s = None →
  ∀ pre s', s = pre +:+ s' → Re.match_here p s' "" = None.
Proof.
  induction s as [|c s IH]; simpl.
  - destruct (Re.match_here p "" "") eqn:Hm; [done|].
    intros _ [|? ?] s'; [|done]. rewrite string_app_nil_l. by intros <-.
  - destruct (Re.match_here p (String c s) "") eqn:Hm; [done|].
    intros Hs [|c1 pre] s' Heq.
    + rewrite string_app_nil_l in Heq. by subst s'.
    + rewrite string_app_cons in Heq. injection Heq as -> Heq. by apply (IH Hs pre).
Qed.

(** [re.search] on [prefix(\d{m,})]: the group of a match is a run of at
    least [m] digits right behind an occurrence of the prefix, it takes
    all the digits there are, and no occurrence of the prefix further
    left has [m] digits behind it. *)
Lemma search_prefix_digits_Some (prefix : string) (m : nat) (url g : string) :
  Re.search [Re.Lit prefix; Re.Cap Text.is_digit m] url = Some g →
  leftmost_match prefix m url g.
Proof.
  unfold Re.search, leftmost_match. destruct (Re.search_rest _ url) as [[g' rest]|] eqn:Hs; [|done].
  simpl. intros [= ->].
  apply search_rest_Some in Hs as (pre & s' & -> & Hmatch & Hleft).
  rewrite match_here_prefix_digits in Hmatch.
  destruct (Text.startswith prefix s') eqn:Hprefix; [|done].
  apply startswith_app in Hprefix.
  destruct (span_spec Text.is_digit (Text.drop (String.length prefix) s'))
    as (Hsplit & Hdigits & Hend).
  simpl in Hmatch.
  destruct (m <=? _) eqn:Hm; [|done]. apply Nat.leb_le in Hm.
  injection Hmatch as Hspan. rewrite Hspan in Hsplit, Hdigits, Hend, Hm.
  simpl in Hsplit, Hdigits, Hend, Hm.
  exists pre. split.
  - exists rest. rewrite Hprefix at 1. rewrite Hsplit at 1. done.
  - intros pre1 g1 post1 Heq Hg1 Hm1.
    destruct (decide (String.length pre ≤ String.length pre1)) as [|Hlt]; [done|].
    exfalso. apply Nat.nle_gt in Hlt.
    specialize (Hleft pre1 (prefix +:+ g1 +:+ post1) Heq Hlt).
    rewrite match_here_prefix_digits, startswith_prefix, drop_prefix in Hleft.
    simpl in Hleft.
    pose proof (span_longest Text.is_digit g1 post1 Hg1) as Hlong.
    destruct (m <=? _) eqn:Hm'; [done|]. apply Nat.leb_gt in Hm'. lia.
Qed.

Lemma search_prefix_digits_None (prefix : string) (m : nat) (url : string) :
  Re.search [Re.Lit prefix; Re.Cap Text.is_digit m] url = None →
  ∀ pre g post,
    url = pre +:+ prefix +:+ g +:+ post →
    Text.all Text.is_digit g = true → String.length g < m.
Proof.
  unfold Re.search. destruct (Re.search_rest _ url) as [r|] eqn:Hs; [done|].
  intros _ pre g post Heq Hg.
  pose proof (search_rest_None _ _ Hs pre _ Heq) as Hmatch.
  rewrite match_here_prefix_digits, startswith_prefix, drop_prefix in Hmatch.
  simpl in Hmatch.
  pose proof (span_longest Text.is_digit g post Hg) as Hlong.
  destruct (m <=? _) eqn:Hm; [done|]. apply Nat.leb_gt in Hm. lia.
Qed.


(** ** Traces *)

Lemma requests_in_app (w1 w2 : trace) :
  requests_in (w1 ++ w2) = requests_in w1 + requests_in w2.
Proof. unfold requests_in. by rewrite List.filter_app, length_app. Qed.

Lemma requests_in_replicate_request (r : request) (k : nat) :
  requests_in (replicate k (Request r)) = k.
Proof. induction k as [|k IH]; [done|]. unfold requests_in in *. simpl. by rewrite IH. Qed.

(** Unfolds the sequencing of [Run]. *)
Ltac run_unfold :=
  unfold mbind, Run_bind, mret, Run_ret, acquire, sleep, send, emit in *.

Section FetchPage.
Context `{PyLib} (server : Server).

(** The attempts of [fetch_page]: [k] calls for the same URL, all but
    the last timed out, and the last decides the result. *)
Lemma fetch_attempts_spec (attempts : nat) (url : string) (w : trace) :
  ∃ k : nat,
    k ≤ attempts
    ∧ (fetch_attempts server attempts url w).2 = w ++ replicate k (Request (GET url))
    ∧ (∀ i, S i < k → server (requests_in w + i) (GET url) = Timeout)
    ∧ match (fetch_attempts server attempts url w).1 with
      | Some page_data =>
          ∃ response, 0 < k
            ∧ server (requests_in w + (k - 1)) (GET url) = Responded response
            ∧ page_data = (Response.status_code response, Response.body response,
                           Response.url response)
      | None =>
          (k = attempts ∧ ∀ i, i < k → server (requests_in w + i) (GET url) = Timeout)
          ∨ (0 < k ∧ server (requests_in w + (k - 1)) (GET url) = RequestException)
      end.
Proof.
  revert w. induction attempts as [|n IH]; intros w.
  - exists 0. simpl. rewrite app_nil_r.
    split; [lia|]. split; [done|]. split; [intros; lia|].
    left. split; [done|intros; lia].
  - simpl. run_unfold.
    destruct (server (requests_in w) (GET url)) as [response| |] eqn:Hout.
    + exists 1. simpl. split; [lia|]. split; [done|]. split; [intros; lia|].
      exists response. rewrite Nat.add_0_r. split; [lia|]. by split.
    + destruct (IH (w ++ [Request (GET url)])) as (k & Hk & Htr & Hbefore & Hres).
      assert (Hreq : requests_in (w ++ [Request (GET url)]) = S (requests_in w)).
      { rewrite requests_in_app. unfold requests_in. simpl. lia. }
      rewrite Hreq in *.
      exists (S k). split; [lia|]. split.
      { rewrite Htr, <- app_assoc. done. }
      split.
      { intros [|i] Hi; [by rewrite Nat.add_0_r|].
        replace (requests_in w + S i) with (S (requests_in w) + i) by lia.
        apply Hbefore. lia. }
      destruct (fetch_attempts server n url (w ++ [Request (GET url)])).1
        as [page_data|].
      * destruct Hres as (response & Hpos & Hlast & Hdata).
        exists response. split; [lia|]. split; [|done].
        replace (requests_in w + (S k - 1)) with (S (requests_in w) + (k - 1)) by lia.
        done.
      * destruct Hres as [[-> Hall]|[Hpos Hlast]].
        -- left. split; [done|]. intros [|i] Hi; [by rewrite Nat.add_0_r|].
           replace (requests_in w + S i) with (S (requests_in w) + i) by lia.
           apply Hall. lia.
        -- right. split; [lia|].
           replace (requests_in w + (S k - 1)) with (S (requests_in w) + (k - 1)) by lia.
           done.
    + exists 1. simpl. split; [lia|]. split; [done|]. split; [intros; lia|].
      right. rewrite Nat.add_0_r. split; [lia|done].
Qed.

End FetchPage.

(** ** The pagination loops, one turn at a time *)

Section Loops.
Context `{PyLib} (server : Server).

Lemma json_pages_unroll tenant template pagination_param page_size_param page_size
    page consecutive_empty seen jobs w :
  json_pages server tenant template pagination_param page_size_param page_size
             page consecutive_empty seen jobs w
  = if decide (page < MAX_PAGES_PER_SITE)
    then match json_turn server tenant template pagination_param page_size_param
                         page_size page consecutive_empty seen jobs w with
         | (Raise, w') => (Raised, w')
         | (Break, w') => (Returned jobs, w')
         | (Next consecutive_empty' seen' jobs', w') =>
             json_pages server tenant template pagination_param page_size_param
                        page_size (S page) consecutive_empty' seen' jobs' w'
         end
    else (Returned jobs, w).
Proof.
  rewrite json_pages_equation_1.
  destruct (decide (page < MAX_PAGES_PER_SITE)); simpl; [|done].
  by destruct (json_turn _ _ _ _ _ _ _ _ _ _ _) as [[| |] w'].
Qed.

Lemma html_pages_unroll tenant endpoint pagination_param page_size_param page_size
    page consecutive_empty seen jobs w :
  html_pages server tenant endpoint pagination_param page_size_param page_size
             page consecutive_empty seen jobs w
  = if decide (page < MAX_PAGES_PER_SITE)
    then match html_turn server tenant endpoint pagination_param page_size_param
                         page_size page consecutive_empty seen jobs w with
         | (Next consecutive_empty' seen' jobs', w') =>
             html_pages server tenant endpoint pagination_param page_size_param
                        page_size (S page) consecutive_empty' seen' jobs' w'
         | (_, w') => (jobs, w')
         end
    else (jobs, w).
Proof.
  rewrite html_pages_equation_1.
  destruct (decide (page < MAX_PAGES_PER_SITE)); simpl; [|done].
  by destruct (html_turn _ _ _ _ _ _ _ _ _ _ _) as [[| |] w'].
Qed.

(** What a turn adds to the trace: nothing when building the URL
    raises, else the page request, followed by the pause when the loop
    goes on. *)
Lemma json_turn_trace tenant template pagination_param page_size_param page_size
    page consecutive_empty seen jobs w t w' :
  json_turn server tenant template pagination_param page_size_param page_size
            page consecutive_empty seen jobs w = (t, w') →
  (t = Raise ∧ w' = w)
  ∨ (∃ u, t = Break ∧ w' = w ++ [Request (GET u)])
  ∨ (∃ u consecutive_empty' seen' jobs',
       t = Next consecutive_empty' seen' jobs' ∧ w' = w ++ [Request (GET u); Sleep]).
Proof.
  unfold json_turn. intros Hturn.
  destruct (json_page_url _ _ _ _ _) as [api_url|];
    [|injection Hturn as <- <-; by left].
  right. run_unfold.
  assert (Hbreak : ∀ x, (Break, w ++ [Request (GET api_url)]) = (t, w') →
    x = (t, w') → (∃ u, t = Break ∧ w' = w ++ [Request (GET u)])
    ∨ (∃ u consecutive_empty' seen' jobs',
         t = Next consecutive_empty' seen' jobs'
         ∧ w' = w ++ [Request (GET u); Sleep])).
  { intros _ Hb _. injection Hb as <- <-. left. by exists api_url. }
  assert (Hnext : ∀ ce' s' j',
    (Next ce' s' j', (w ++ [Request (GET api_url)]) ++ [Sleep]) = (t, w') →
    (∃ u, t = Break ∧ w' = w ++ [Request (GET u)])
    ∨ (∃ u consecutive_empty' seen' jobs',
         t = Next consecutive_empty' seen' jobs'
         ∧ w' = w ++ [Request (GET u); Sleep])).
  { intros ce' s' j' Hn. injection Hn as <- <-. right.
    exists api_url, ce', s', j'. by rewrite <- app_assoc. }
  destruct (server _ _) as [response| |]; [|by eapply Hbreak..].
  destruct (negb _); [by eapply Hbreak|].
  destruct (as_json _) as [data|]; [|by eapply Hbreak].
  destruct (iterate _) as [jobs_list|]; [|by eapply Hbreak].
  destruct (duplicate_flood _ _); [by eapply Hbreak|].
  destruct (_ =? 0); [destruct (2 <=? _); [by eapply Hbreak|]|]; by eapply Hnext.
Qed.

Lemma html_turn_trace tenant endpoint pagination_param page_size_param page_size
    page consecutive_empty seen jobs w t w' :
  html_turn server tenant endpoint pagination_param page_size_param page_size
            page consecutive_empty seen jobs w = (t, w') →
  (∃ u, t = Break ∧ w' = w ++ [Request (GET u)])
  ∨ (∃ u consecutive_empty' seen' jobs',
       t = Next consecutive_empty' seen' jobs' ∧ w' = w ++ [Request (GET u); Sleep]).
Proof.
  unfold html_turn. intros Hturn. run_unfold.
  match type of Hturn with context [Request (GET ?u)] => set (url := u) in * end.
  assert (Hbreak : (Break, w ++ [Request (GET url)]) = (t, w') →
    (∃ u, t = Break ∧ w' = w ++ [Request (GET u)])
    ∨ (∃ u consecutive_empty' seen' jobs',
         t = Next consecutive_empty' seen' jobs'
         ∧ w' = w ++ [Request (GET u); Sleep])).
  { intros Hb. injection Hb as <- <-. left. by exists url. }
  assert (Hnext : ∀ ce' s' j',
    (Next ce' s' j', (w ++ [Request (GET url)]) ++ [Sleep]) = (t, w') →
    (∃ u, t = Break ∧ w' = w ++ [Request (GET u)])
    ∨ (∃ u consecutive_empty' seen' jobs',
         t = Next consecutive_empty' seen' jobs'
         ∧ w' = w ++ [Request (GET u); Sleep])).
  { intros ce' s' j' Hn. injection Hn as <- <-. right.
    exists url, ce', s', j'. by rewrite <- app_assoc. }
  destruct (server _ _) as [response| |]; [|by apply Hbreak..].
  destruct (find_job_elements _) as [|job_elem job_elements].
  - destruct (2 <=? _); [by apply Hbreak|by eapply Hnext].
  - destruct (duplicate_flood _ _); [by apply Hbreak|].
    destruct (page_jobs _); [destruct (2 <=? _); [by apply Hbreak|]|];
      by eapply Hnext.
Qed.

(** The events a run of the JSON loop adds: at most one request, and at
    most two events, for each page index left below the cap, and no
    [acquire()]. *)
Lemma json_pages_trace tenant template pagination_param page_size_param page_size
    page consecutive_empty seen jobs w :
  ∃ es, (json_pages server tenant template pagination_param page_size_param
                    page_size page consecutive_empty seen jobs w).2 = w ++ es
        ∧ requests_in es ≤ MAX_PAGES_PER_SITE - page
        ∧ length es ≤ 2 * (MAX_PAGES_PER_SITE - page)
        ∧ acquires_in es = 0.
Proof.
  funelim (json_pages server tenant template pagination_param page_size_param
                      page_size page consecutive_empty seen jobs w); simpl.
  - exists []. rewrite app_nil_r. split; [done|].
    unfold requests_in, acquires_in. simpl. lia.
  - match goal with Ht : json_turn _ _ _ _ _ _ _ _ _ _ _ = _ |- _ =>
      apply json_turn_trace in Ht as [[_ ->]|[(u & ? & ->)|(u & ? & ? & ? & ? & _)]];
        [|done..] end.
    exists []. rewrite app_nil_r. split; [done|].
    unfold requests_in, acquires_in. simpl. lia.
  - match goal with Ht : json_turn _ _ _ _ _ _ _ _ _ _ _ = _ |- _ =>
      apply json_turn_trace in Ht as [[? _]|[(u & _ & ->)|(u & ? & ? & ? & ? & _)]];
        [done| |done] end.
    exists [Request (GET u)]. split; [done|].
    unfold requests_in, acquires_in. simpl. lia.
  - match goal with Ht : json_turn _ _ _ _ _ _ _ _ _ _ _ = _ |- _ =>
      apply json_turn_trace in Ht as [[? _]|[(u & ? & _)|(u & ? & ? & ? & _ & ->)]];
        [done..|] end.
    match goal with IH : ∃ _, _ |- _ =>
      destruct IH as (es & -> & Hreq & Hlen & Hacq) end.
    exists (Request (GET u) :: Sleep :: es). split; [by rewrite <- app_assoc|].
    unfold requests_in, acquires_in in *. simpl. lia.
Qed.

Lemma html_pages_trace tenant endpoint pagination_param page_size_param page_size
    page consecutive_empty seen jobs w :
  ∃ es, (html_pages server tenant endpoint pagination_param page_size_param
                    page_size page consecutive_empty seen jobs w).2 = w ++ es
        ∧ requests_in es ≤ MAX_PAGES_PER_SITE - page
        ∧ length es ≤ 2 * (MAX_PAGES_PER_SITE - page)
        ∧ acquires_in es = 0.
Proof.
  funelim (html_pages server tenant endpoint pagination_param page_size_param
                      page_size page consecutive_empty seen jobs w); simpl.
  - exists []. rewrite app_nil_r. split; [done|].
    unfold requests_in, acquires_in. simpl. lia.
  - match goal with Ht : html_turn _ _ _ _ _ _ _ _ _ _ _ = _ |- _ =>
      apply html_turn_trace in Ht as [(u & ? & _)|(u & ? & ? & ? & ? & _)];
        done end.
  - match goal with Ht : html_turn _ _ _ _ _ _ _ _ _ _ _ = _ |- _ =>
      apply html_turn_trace in Ht as [(u & _ & ->)|(u & ? & ? & ? & ? & _)];
        [|done] end.
    exists [Request (GET u)]. split; [done|].
    unfold requests_in, acquires_in. simpl. lia.
  - match goal with Ht : html_turn _ _ _ _ _ _ _ _ _ _ _ = _ |- _ =>
      apply html_turn_trace in Ht as [(u & ? & _)|(u & ? & ? & ? & _ & ->)];
        [done|] end.
    match goal with IH : ∃ _, _ |- _ =>
      destruct IH as (es & -> & Hreq & Hlen & Hacq) end.
    exists (Request (GET u) :: Sleep :: es). split; [by rewrite <- app_assoc|].
    unfold requests_in, acquires_in in *. simpl. lia.
Qed.
End Loops.

(** ** Deduplication *)

Lemma emitted_ids_app (l1 l2 : list JobRecord) :
  emitted_ids (l1 ++ l2) = emitted_ids l1 ++ emitted_ids l2.
Proof. unfold emitted_ids. apply omap_app. Qed.

Lemma nonempty_Some (o : option string) :
  nonempty o = true → ∃ s, o = Some s ∧ s ≠ "".
Proof.
  destruct o as [s|]; [|done]. simpl. intros Hs. exists s. split; [done|].
  intros ->. done.
Qed.

(** The seen set covers the identifiers emitted so far, and these are
    pairwise distinct. *)
Definition dedup_inv (seen : gset string) (jobs : list JobRecord) : Prop :=
  NoDup (emitted_ids jobs) ∧ ∀ s, s ∈ emitted_ids jobs → s ∈ seen.

Lemma dedup_inv_empty : dedup_inv ∅ [].
Proof. split; [constructor|]. intros s Hs. by apply elem_of_nil in Hs. Qed.

Lemma tally_item_inv (jobs : list JobRecord) (t : Tally) (job_data : option JobRecord) :
  dedup_inv (seen_job_ids t) (jobs ++ page_jobs t) →
  dedup_inv (seen_job_ids (tally_item t job_data))
            (jobs ++ page_jobs (tally_item t job_data)).
Proof.
  intros [Hnd Hsub]. destruct job_data as [r|]; [|done].
  unfold tally_item, dedup_inv.
  destruct (nonempty (Job.job_id r)) eqn:Hne; simpl.
  - destruct (nonempty_Some _ Hne) as (s & Hs & _). rewrite Hs. simpl.
    case_bool_decide as Hin; simpl; [done|].
    rewrite app_assoc, emitted_ids_app. unfold emitted_ids at 2 4. simpl.
    rewrite Hs in Hne. rewrite Hs, Hne. simpl. split.
    + apply NoDup_app. split; [done|]. split; [|apply NoDup_singleton].
      intros x Hx Hx'. apply list_elem_of_singleton in Hx' as ->. auto.
    + intros x Hx. apply elem_of_app in Hx as [Hx|Hx]; [set_solver|].
      apply list_elem_of_singleton in Hx as ->. set_solver.
  - rewrite app_assoc, emitted_ids_app. unfold emitted_ids at 2 4. simpl.
    rewrite Hne. simpl. rewrite !app_nil_r. done.
Qed.

Lemma tally_fold_inv {A} (parse : A → option JobRecord) (jobs : list JobRecord)
    (items : list A) (t : Tally) :
  dedup_inv (seen_job_ids t) (jobs ++ page_jobs t) →
  let t' := foldl (λ t item, tally_item t (parse item)) t items in
  dedup_inv (seen_job_ids t') (jobs ++ page_jobs t').
Proof.
  revert t. induction items as [|item items IH]; intros t Hinv; [done|].
  simpl. apply IH. by apply tally_item_inv.
Qed.

Lemma tally_page_inv {A} (parse : A → option JobRecord) (seen : gset string)
    (jobs : list JobRecord) (items : list A) :
  dedup_inv seen jobs →
  dedup_inv (seen_job_ids (tally_page parse seen items))
            (jobs ++ page_jobs (tally_page parse seen items)).
Proof.
  intros Hinv. unfold tally_page. apply (tally_fold_inv parse jobs items).
  simpl. by rewrite app_nil_r.
Qed.

Section DedupDrivers.
Context `{PyLib} (server : Server).

Lemma json_turn_inv tenant template pagination_param page_size_param page_size
    page consecutive_empty seen jobs w consecutive_empty' seen' jobs' w' :
  json_turn server tenant template pagination_param page_size_param page_size
            page consecutive_empty seen jobs w
    = (Next consecutive_empty' seen' jobs', w') →
  dedup_inv seen jobs → dedup_inv seen' jobs'.
Proof.
  unfold json_turn. intros Hturn Hinv.
  destruct (json_page_url _ _ _ _ _) as [api_url|]; [|done].
  run_unfold. destruct (server _ _) as [response| |]; [|done..].
  destruct (negb _); [done|].
  destruct (as_json _) as [data|]; [|done].
  destruct (iterate _) as [jobs_list|]; [|done].
  destruct (duplicate_flood _ _); [done|].
  destruct (_ =? 0).
  - destruct (2 <=? _); [done|]. injection Hturn as <- <- <- <-.
    by apply tally_page_inv.
  - injection Hturn as <- <- <- <-. by apply tally_page_inv.
Qed.

Lemma json_pages_inv tenant template pagination_param page_size_param page_size
    page consecutive_empty seen jobs w :
  dedup_inv seen jobs →
  match (json_pages server tenant template pagination_param page_size_param
                    page_size page consecutive_empty seen jobs w).1 with
  | Returned jobs' => NoDup (emitted_ids jobs')
  | Raised => True
  end.
Proof.
  funelim (json_pages server tenant template pagination_param page_size_param
                      page_size page consecutive_empty seen jobs w);
    intros Hinv; simpl; try done; try apply Hinv.
  match goal with IH : dedup_inv _ _ → _ |- _ => apply IH end.
  eapply json_turn_inv; eauto.
Qed.

Lemma html_turn_inv tenant endpoint pagination_param page_size_param page_size
    page consecutive_empty seen jobs w consecutive_empty' seen' jobs' w' :
  html_turn server tenant endpoint pagination_param page_size_param page_size
            page consecutive_empty seen jobs w
    = (Next consecutive_empty' seen' jobs', w') →
  dedup_inv seen jobs → dedup_inv seen' jobs'.
Proof.
  unfold html_turn. intros Hturn Hinv.
  run_unfold. destruct (server _ _) as [response| |]; [|done..].
  destruct (find_job_elements _) as [|job_elem job_elements] eqn:Helems.
  - destruct (2 <=? _); [done|]. by injection Hturn as <- <- <- <-.
  - destruct (duplicate_flood _ _); [done|].
    destruct (page_jobs _) eqn:Hjobs.
    + destruct (2 <=? _); [done|]. injection Hturn as <- <- <- <-.
      rewrite <- Hjobs. by apply tally_page_inv.
    + injection Hturn as <- <- <- <-. rewrite <- Hjobs. by apply tally_page_inv.
Qed.

Lemma html_pages_inv tenant endpoint pagination_param page_size_param page_size
    page consecutive_empty seen jobs w :
  dedup_inv seen jobs →
  NoDup (emitted_ids (html_pages server tenant endpoint pagination_param
                                 page_size_param page_size page
                                 consecutive_empty seen jobs w).1).
Proof.
  funelim (html_pages server tenant endpoint pagination_param page_size_param
                      page_size page consecutive_empty seen jobs w);
    intros Hinv; simpl; try apply Hinv.
  match goal with IH : dedup_inv _ _ → _ |- _ => apply IH end.
  eapply html_turn_inv; eauto.
Qed.

Lemma NoDup_emitted_ids_distinct (jobs : list JobRecord) (i j : nat)
    (ri rj : JobRecord) :
  NoDup (emitted_ids jobs) →
  jobs !! i = Some ri → jobs !! j = Some rj → i ≠ j →
  nonempty (Job.job_id ri) = true →
  Job.job_id ri ≠ Job.job_id rj.
Proof.
  revert i j. induction jobs as [|r jobs IH]; intros i j Hnd Hi Hj Hij Hne; [done|].
  assert (Hin : ∀ k rk s, jobs !! k = Some rk → Job.job_id rk = Some s →
                          nonempty (Some s) = true → s ∈ emitted_ids jobs).
  { intros k rk s Hk Hid Hs. unfold emitted_ids. apply list_elem_of_omap.
    exists rk. split; [by eapply list_elem_of_lookup_2|]. by rewrite Hid, Hs. }
  destruct (nonempty_Some _ Hne) as (s & Hs & Hs').
  unfold emitted_ids in Hnd. simpl in Hnd. fold (emitted_ids jobs) in Hnd.
  destruct i as [|i], j as [|j]; simpl in Hi, Hj; [done| | |].
  - injection Hi as ->. rewrite Hne, Hs in Hnd. simpl in Hnd.
    apply NoDup_cons in Hnd as [Hnotin _]. intros Heq. apply Hnotin.
    eapply Hin; [done|by rewrite <- Heq|by rewrite <- Hs].
  - injection Hj as ->. intros Heq.
    assert (Hr : nonempty (Job.job_id rj) = true) by (by rewrite <- Heq).
    rewrite Hr, <- Heq, Hs in Hnd. simpl in Hnd.
    apply NoDup_cons in Hnd as [Hnotin _]. apply Hnotin.
    eapply Hin; [done..|by rewrite <- Hs].
  - eapply IH; eauto.
    destruct (if nonempty (Job.job_id r) then Job.job_id r else None);
      [by apply NoDup_cons in Hnd as [_ ?]|done].
Qed.
End DedupDrivers.

Section NoDuplicateIds.
Context `{PyLib} (server : Server).

(** What the duplicate check does with one parsed record: it is skipped
    exactly when its identifier is non-empty and already seen, and else
    appended; either way a non-empty identifier is in the seen set that
    the next item is checked against. *)
Lemma tally_item_mechanism (t : Tally) (r : JobRecord) :
  let id := Job.job_id r in
  page_jobs (tally_item t (Some r))
    = (if nonempty id && bool_decide (default "" id ∈ seen_job_ids t)
       then page_jobs t else page_jobs t ++ [r])
  ∧ seen_job_ids (tally_item t (Some r))
    = (if nonempty id then {[default "" id]} ∪ seen_job_ids t else seen_job_ids t).
Proof.
  simpl. unfold tally_item.
  destruct (nonempty (Job.job_id r)) eqn:Hne; simpl; [|done].
  case_bool_decide as Hin; simpl; [|done]. split; [done|].
  symmetry. apply subseteq_union_1_L. by apply singleton_subseteq_l.
Qed.

(** C1.  Whatever the server answers, the records [scrape_via_json_api]
    returns and the records [scrape_via_html_parsing] returns contain no
    two elements with the same non-empty [job_id].  The check behind it:
    a record whose non-empty identifier is in the seen set is skipped,
    any other record is emitted, and the identifier of an emitted record
    is in the seen set before the next item is looked at. *)
Theorem emitted_job_ids_are_distinct
    (tenant api_url_template endpoint pagination_param page_size_param : string)
    (page_size : Z) (w : trace) :
  match (scrape_via_json_api server tenant api_url_template pagination_param
                             page_size_param page_size w).1 with
  | Returned jobs => distinct_job_ids jobs
  | Raised => True
  end
  ∧ distinct_job_ids (scrape_via_html_parsing server tenant endpoint pagination_param
                                              page_size_param page_size w).1
  ∧ ∀ (t : Tally) (r : JobRecord),
      let id := Job.job_id r in
      page_jobs (tally_item t (Some r))
        = (if nonempty id && bool_decide (default "" id ∈ seen_job_ids t)
           then page_jobs t else page_jobs t ++ [r])
      ∧ seen_job_ids (tally_item t (Some r))
        = (if nonempty id then {[default "" id]} ∪ seen_job_ids t
           else seen_job_ids t).
Proof.
  split; [|split; [|apply tally_item_mechanism]].
  - unfold scrape_via_json_api.
    pose proof (json_pages_inv server tenant api_url_template pagination_param
                  page_size_param page_size 0 0 ∅ [] w dedup_inv_empty) as Hinv.
    destruct (json_pages _ _ _ _ _ _ _ _ _ _ _).1 as [jobs|]; [|done].
    intros i j ri rj. by apply NoDup_emitted_ids_distinct.
  - unfold scrape_via_html_parsing.
    pose proof (html_pages_inv server tenant endpoint pagination_param
                  page_size_param page_size 0 0 ∅ [] w dedup_inv_empty) as Hinv.
    intros i j ri rj. by apply NoDup_emitted_ids_distinct.
Qed.
End NoDuplicateIds.

(** ** The accounting of a page *)

Lemma tally_fold_counts {A} (parse : A → option JobRecord) (items : list A) (t : Tally) :
  let t' := foldl (λ t item, tally_item t (parse item)) t items in
  page_new_jobs t' + length (page_jobs t) = page_new_jobs t + length (page_jobs t')
  ∧ page_duplicates t' + page_new_jobs t'
    ≤ page_duplicates t + page_new_jobs t + length items.
Proof.
  revert t. induction items as [|item items IH]; intros t; simpl; [lia|].
  destruct (IH (tally_item t (parse item))) as [IH1 IH2].
  assert (Hitem :
    page_new_jobs (tally_item t (parse item)) + length (page_jobs t)
    = page_new_jobs t + length (page_jobs (tally_item t (parse item)))
    ∧ page_duplicates (tally_item t (parse item))
      + page_new_jobs (tally_item t (parse item))
      ≤ page_duplicates t + page_new_jobs t + 1).
  { unfold tally_item. destruct (parse item) as [r|]; [|lia].
    destruct (_ && _); simpl; rewrite ?length_app; simpl; lia. }
  lia.
Qed.

(** The counter of new jobs is the number of records of the page, and
    duplicates and new jobs together are at most the items. *)
Lemma tally_page_counts {A} (parse : A → option JobRecord) (seen : gset string)
    (items : list A) :
  page_new_jobs (tally_page parse seen items)
  = length (page_jobs (tally_page parse seen items))
  ∧ page_duplicates (tally_page parse seen items)
    + page_new_jobs (tally_page parse seen items) ≤ length items.
Proof.
  unfold tally_page.
  pose proof (tally_fold_counts parse items
                {| seen_job_ids := seen; page_jobs := []; page_duplicates := 0;
                   page_new_jobs := 0 |}) as [H1 H2].
  simpl in *. lia.
Qed.

Lemma yields_nonempty {A} (parse : A → option JobRecord) (item : A) (id : string)
    (r : JobRecord) :
  yields parse item id → parse item = Some r →
  Job.job_id r = Some id ∧ nonempty (Job.job_id r) = true.
Proof.
  intros [Hid (r' & Hr' & Hjob)] Hr. rewrite Hr in Hr'. injection Hr' as <-.
  split; [done|]. rewrite Hjob. simpl. by apply negb_true_iff, String.eqb_neq.
Qed.

(** A page of items never seen before, with pairwise distinct
    identifiers: every record is taken. *)
Lemma tally_fold_all_new {A} (parse : A → option JobRecord) (items : list A)
    (ids : list string) (t : Tally) :
  Forall2 (yields parse) items ids → NoDup ids →
  (∀ id, id ∈ ids → id ∉ seen_job_ids t) →
  foldl (λ t item, tally_item t (parse item)) t items
  = {| seen_job_ids := list_to_set ids ∪ seen_job_ids t;
       page_jobs := page_jobs t ++ omap parse items;
       page_duplicates := page_duplicates t;
       page_new_jobs := page_new_jobs t + length items |}.
Proof.
  intros Hyields. revert t.
  induction Hyields as [|item id items ids Hitem _ IH]; intros t Hnd Hfresh.
  - simpl. destruct t. simpl.
    f_equal; [by rewrite ?list_to_set_nil, (left_id_L ∅ (∪))|by rewrite app_nil_r|lia].
  - apply NoDup_cons in Hnd as [Hid Hnd]. simpl.
    destruct Hitem as [Hne (r & Hr & Hjob)].
    destruct (yields_nonempty parse item id r (conj Hne (ex_intro _ r (conj Hr Hjob))) Hr)
      as [_ Hnonempty].
    rewrite Hr. unfold tally_item at 2. rewrite Hnonempty, Hjob. simpl.
    rewrite bool_decide_eq_false_2 by (apply Hfresh; left).
    simpl. rewrite IH; [|done|].
    + simpl. f_equal; [|by rewrite <- app_assoc|lia].
      rewrite ?list_to_set_cons, (assoc_L (∪)), (comm_L (∪) (list_to_set ids)). done.
    + simpl. intros id' Hid'. apply not_elem_of_union. split.
      * apply not_elem_of_singleton. by intros ->.
      * apply Hfresh. by right.
Qed.

(** A page of items that were all seen: every record is a duplicate. *)
Lemma tally_fold_all_duplicates {A} (parse : A → option JobRecord) (items : list A)
    (ids : list string) (t : Tally) :
  Forall2 (yields parse) items ids →
  (∀ id, id ∈ ids → id ∈ seen_job_ids t) →
  foldl (λ t item, tally_item t (parse item)) t items
  = {| seen_job_ids := seen_job_ids t;
       page_jobs := page_jobs t;
       page_duplicates := page_duplicates t + length items;
       page_new_jobs := page_new_jobs t |}.
Proof.
  intros Hyields. revert t.
  induction Hyields as [|item id items ids Hitem _ IH]; intros t Hseen.
  - simpl. destruct t. simpl. f_equal. lia.
  - simpl. destruct Hitem as [Hne (r & Hr & Hjob)].
    destruct (yields_nonempty parse item id r (conj Hne (ex_intro _ r (conj Hr Hjob))) Hr)
      as [_ Hnonempty].
    rewrite Hr. unfold tally_item at 2. rewrite Hnonempty, Hjob. simpl.
    rewrite bool_decide_eq_true_2 by (apply Hseen; left).
    simpl. rewrite IH; [|intros id' Hid'; apply Hseen; by right].
    simpl. f_equal. lia.
Qed.

Lemma omap_yields_length {A} (parse : A → option JobRecord) (items : list A)
    (ids : list string) :
  Forall2 (yields parse) items ids → length (omap parse items) = length items.
Proof.
  induction 1 as [|item id items ids [_ (r & Hr & _)] _ IH]; [done|].
  simpl. rewrite Hr. simpl. f_equal. exact IH.
Qed.

(** ** The page cap *)

Section PageCap.
Context `{PyLib} (server : Server).

(** C2.  For every configuration and every server, both drivers are
    total functions of the run, and the events either of them adds to
    the trace contain at most [MAX_PAGES_PER_SITE] = 20 page requests
    (and at most 40 events in all: a request and a pause for each page).
    This holds for a server that keeps answering with new records,
    too: the bound does not depend on the answers. *)
Theorem pagination_stops_within_page_cap
    (tenant api_url_template endpoint pagination_param page_size_param : string)
    (page_size : Z) (w : trace) :
  MAX_PAGES_PER_SITE = 20
  ∧ (∃ es, (scrape_via_json_api server tenant api_url_template pagination_param
                                 page_size_param page_size w).2 = w ++ es
           ∧ requests_in es ≤ MAX_PAGES_PER_SITE
           ∧ length es ≤ 2 * MAX_PAGES_PER_SITE)
  ∧ (∃ es, (scrape_via_html_parsing server tenant endpoint pagination_param
                                     page_size_param page_size w).2 = w ++ es
           ∧ requests_in es ≤ MAX_PAGES_PER_SITE
           ∧ length es ≤ 2 * MAX_PAGES_PER_SITE).
Proof.
  split; [done|]. split.
  - destruct (json_pages_trace server tenant api_url_template pagination_param
                page_size_param page_size 0 0 ∅ [] w) as (es & Hes & Hreq & Hlen & _).
    exists es. rewrite Nat.sub_0_r in *. done.
  - destruct (html_pages_trace server tenant endpoint pagination_param
                page_size_param page_size 0 0 ∅ [] w) as (es & Hes & Hreq & Hlen & _).
    exists es. rewrite Nat.sub_0_r in *. done.
Qed.
End PageCap.

(** The cap is reached: against a server with two new jobs on every page,
    without end, each driver fetches exactly 20 pages and returns the 40
    records of these pages. *)
Example endless_server_is_cut_at_the_cap :
  let json := scrape_via_json_api (H := Demo.lib) Demo.endless_json "acme.avature.net"
                Demo.api_template "offset" "limit" 2 [] in
  let html := scrape_via_html_parsing (H := Demo.lib) Demo.endless_html "acme.avature.net"
                Demo.listing_endpoint "jobOffset" "jobRecords" 2 [] in
  (match json.1 with Returned jobs => Some (length jobs) | Raised => None end,
   requests_in json.2) = (Some 40, 20)
  ∧ (length html.1, requests_in html.2) = (40, 20).
Proof. vm_compute. done. Qed.

(** ** Rate limiting *)

Lemma page_blocks_app (es1 es2 : trace) :
  page_blocks es1 → page_blocks es2 → page_blocks (es1 ++ es2).
Proof.
  induction 1 as [|r k es _ IH]; intros Hes2; [done|].
  simpl. rewrite <- app_assoc. constructor. by apply IH.
Qed.

Lemma page_blocks_single (r : request) (k : nat) :
  page_blocks (Acquire :: replicate k (Request r)).
Proof.
  rewrite <- (app_nil_r (replicate k (Request r))). constructor. constructor.
Qed.

Lemma barrier_run_attempts (r : request) (k : nat) (es : trace) (g : barrier) :
  g = Open ∨ g = Serving r →
  barrier_run g (replicate k (Request r) ++ es) = None →
  ∃ g', (g' = Open ∨ g' = Serving r) ∧ barrier_run g' es = None.
Proof.
  revert g. induction k as [|k IH]; intros g Hg Hrun; [by exists g|].
  simpl in Hrun. apply (IH (Serving r)); [by right|].
  destruct Hg as [-> | ->]; simpl in Hrun; [done|].
  by destruct (decide (r = r)).
Qed.

(** A trace of page blocks passes the barrier, from whatever state. *)
Lemma page_blocks_pass (es : trace) (g : barrier) :
  page_blocks es → is_Some (barrier_run g es).
Proof.
  intros Hes. revert g. induction Hes as [|r k es _ IH]; intros g; [by eexists|].
  simpl. destruct (barrier_run Open (replicate k (Request r) ++ es)) eqn:Hrun;
    [by eexists|].
  apply barrier_run_attempts in Hrun as (g' & _ & Hrun); [|by left].
  destruct (IH g') as [g'' Hg'']. congruence.
Qed.

Lemma page_blocks_rate_limited (es : trace) :
  page_blocks es → rate_limited es = true.
Proof.
  intros Hes. unfold rate_limited.
  by destruct (page_blocks_pass es Shut Hes) as [g ->].
Qed.

Section RateLimiting.
Context `{PyLib} (server : Server).

Lemma fetch_page_blocks (url : string) (max_retries : Z) (w : trace) :
  ∃ k, (fetch_page server url max_retries w).2
       = w ++ Acquire :: replicate k (Request (GET url)).
Proof.
  unfold fetch_page. run_unfold.
  destruct (fetch_attempts_spec server (Z.to_nat max_retries) url (w ++ [Acquire]))
    as (k & _ & Htr & _).
  exists k. by rewrite Htr, <- app_assoc.
Qed.

Lemma detect_public_reports_endpoint_blocks (html : Body) (tenant : string)
    (w : trace) :
  ∃ es, (detect_public_reports_endpoint server html tenant w).2 = w ++ es
        ∧ page_blocks es.
Proof.
  unfold detect_public_reports_endpoint.
  destruct (Re.findall _ _) as [|report_id ?].
  - exists []. rewrite app_nil_r. split; [done|constructor].
  - run_unfold. eexists [Acquire; Request (GET _)].
    rewrite <- app_assoc. split; [done|]. apply (page_blocks_single _ 1).
Qed.

Lemma guess_paths_blocks (tenant : string) (common_paths : list string) (w : trace) :
  ∃ es, (guess_paths server tenant common_paths w).2 = w ++ es ∧ page_blocks es.
Proof.
  revert w. induction common_paths as [|path rest IH]; intros w.
  - exists []. rewrite app_nil_r. split; [done|constructor].
  - simpl. run_unfold.
    set (test_url := "https://" +:+ tenant +:+ path).
    set (w1 := (w ++ [Acquire]) ++ [Request (HEAD test_url)]).
    assert (Hstop : ∃ es, w1 = w ++ es ∧ page_blocks es).
    { exists [Acquire; Request (HEAD test_url)]. unfold w1.
      rewrite <- app_assoc. split; [done|]. apply (page_blocks_single _ 1). }
    assert (Hgo : ∃ es, (guess_paths server tenant rest w1).2 = w ++ es
                        ∧ page_blocks es).
    { destruct (IH w1) as (es & -> & Hes).
      exists ([Acquire; Request (HEAD test_url)] ++ es). unfold w1.
      rewrite <- !app_assoc. split; [done|].
      apply page_blocks_app; [apply (page_blocks_single _ 1)|done]. }
    destruct (server _ _) as [test_resp| |]; [|done..].
    by destruct (_ =? _)%Z.
Qed.

Lemma detect_search_jobs_endpoint_blocks (html : Body) (soup : Soup)
    (tenant : string) (w : trace) :
  ∃ es, (detect_search_jobs_endpoint server html soup tenant w).2 = w ++ es
        ∧ page_blocks es.
Proof.
  unfold detect_search_jobs_endpoint.
  destruct (search_forms soup) as [|action ?].
  - destruct (Text.contains _ _).
    + unfold mbind, Run_bind.
      match goal with |- context [guess_paths _ _ ?paths w] =>
        destruct (guess_paths_blocks tenant paths w) as (es & Hes & Hblocks);
        destruct (guess_paths server tenant paths w) as [config w'] end.
      by exists es.
    + exists []. rewrite app_nil_r. split; [done|constructor].
  - destruct (urljoin _ _); exists []; rewrite app_nil_r; (split; [done|constructor]).
Qed.

Lemma detect_endpoint_for_url_blocks (tenant url : string) (is_career_page : bool)
    (w : trace) :
  ∃ es, (detect_endpoint_for_url server tenant url is_career_page w).2 = w ++ es
        ∧ page_blocks es.
Proof.
  unfold detect_endpoint_for_url.
  unfold mbind at 1. unfold Run_bind at 1.
  destruct (fetch_page_blocks url 2 w) as (k & Hfetch).
  destruct (fetch_page server url 2 w) as [page_data w1]. simpl in Hfetch. subst w1.
  assert (Hpage : page_blocks (Acquire :: replicate k (Request (GET url))))
    by apply page_blocks_single.
  destruct page_data as [[[status_code html] final_url]|]; [|by eexists].
  destruct (negb _); [by eexists|].
  unfold mbind at 1. unfold Run_bind at 1.
  destruct (detect_public_reports_endpoint_blocks html tenant
              (w ++ Acquire :: replicate k (Request (GET url)))) as (es1 & Hes1 & Hb1).
  destruct (detect_public_reports_endpoint _ _ _ _) as [config w2].
  simpl in Hes1. subst w2.
  assert (Hpage1 : page_blocks ((Acquire :: replicate k (Request (GET url))) ++ es1))
    by by apply page_blocks_app.
  destruct config as [config|].
  { eexists. rewrite <- app_assoc. by split. }
  unfold mbind at 1. unfold Run_bind at 1.
  destruct (detect_search_jobs_endpoint_blocks html (as_soup html) tenant
              ((w ++ Acquire :: replicate k (Request (GET url))) ++ es1))
    as (es2 & Hes2 & Hb2).
  destruct (detect_search_jobs_endpoint _ _ _ _ _) as [config w3].
  simpl in Hes2. subst w3.
  exists (((Acquire :: replicate k (Request (GET url))) ++ es1) ++ es2).
  split; [|by apply page_blocks_app].
  rewrite <- !app_assoc.
  destruct config as [[config|]|]; [done| |done].
  by destruct (detect_job_ids_in_html _ _ _).
Qed.

Lemma acquires_in_app (w1 w2 : trace) :
  acquires_in (w1 ++ w2) = acquires_in w1 + acquires_in w2.
Proof. unfold acquires_in. by rewrite List.filter_app, length_app. Qed.

Lemma try_urls_no_acquire (urls : list string) (w : trace) :
  ∃ es, (try_urls server urls w).2 = w ++ es ∧ acquires_in es = 0.
Proof.
  revert w. induction urls as [|api_url rest IH]; intros w.
  - exists []. by rewrite app_nil_r.
  - simpl. run_unfold. destruct (probe_accepts _).
    + by exists [Request (GET api_url)].
    + destruct (IH (w ++ [Request (GET api_url)])) as (es & -> & Hes).
      exists (Request (GET api_url) :: es). by rewrite <- app_assoc.
Qed.

Lemma detail_pages_no_acquire (tenant career_url : string)
    (sample_job_ids : list string) (jobs : list JobRecord) (w : trace) :
  ∃ es, (detail_pages server tenant career_url sample_job_ids jobs w).2 = w ++ es
        ∧ acquires_in es = 0.
Proof.
  revert jobs w. induction sample_job_ids as [|job_id rest IH]; intros jobs w.
  - exists []. by rewrite app_nil_r.
  - simpl. run_unfold.
    set (job_url := career_url +:+ "/JobDetail/" +:+ job_id).
    assert (Hskip : ∀ jobs', ∃ es,
      (detail_pages server tenant career_url rest jobs' (w ++ [Request (GET job_url)])).2
      = w ++ es ∧ acquires_in es = 0).
    { intros jobs'. destruct (IH jobs' (w ++ [Request (GET job_url)])) as (es & -> & Hes).
      exists (Request (GET job_url) :: es). by rewrite <- app_assoc. }
    destruct (server _ _) as [response| |]; [|apply Hskip..].
    destruct (_ || _); [apply Hskip|].
    destruct (negb _); [apply Hskip|].
    match goal with |- context [detail_pages _ _ _ _ ?j ?w'] =>
      destruct (IH j w') as (es & -> & Hes) end.
    exists (Request (GET job_url) :: Sleep :: es). by rewrite <- !app_assoc.
Qed.

(** The extraction side never calls [acquire()]. *)
Lemma scrape_single_config_no_acquire (config : Config) (w : trace) :
  ∃ es, (scrape_single_config server config w).2 = w ++ es ∧ acquires_in es = 0.
Proof.
  unfold scrape_single_config. destruct (Config.status config).
  - unfold scrape_paginated_endpoint.
    destruct (Config.endpoint config) as [endpoint|];
      [|exists []; by rewrite app_nil_r].
    unfold try_json_api. run_unfold.
    match goal with |- context [try_urls _ ?urls w] =>
      destruct (try_urls_no_acquire urls w) as (es1 & Hes1 & Hacq1);
      destruct (try_urls server urls w) as [found w1] end.
    simpl in Hes1. subst w1. destruct found as [[api_url sample_data]|].
    + unfold scrape_via_json_api.
      match goal with |- context [json_pages _ ?a ?b ?c ?d ?e 0 0 ∅ [] ?w'] =>
        destruct (json_pages_trace server a b c d e 0 0 ∅ [] w')
          as (es2 & Hes2 & _ & _ & Hacq2);
        destruct (json_pages server a b c d e 0 0 ∅ [] w') as [r w2] end.
      simpl in Hes2. subst w2. exists (es1 ++ es2).
      rewrite acquires_in_app, app_assoc. simpl. split; [done|lia].
    + unfold scrape_via_html_parsing.
      match goal with |- context [html_pages _ ?a ?b ?c ?d ?e 0 0 ∅ [] ?w'] =>
        destruct (html_pages_trace server a b c d e 0 0 ∅ [] w')
          as (es2 & Hes2 & _ & _ & Hacq2);
        destruct (html_pages server a b c d e 0 0 ∅ [] w') as [r w2] end.
      simpl in Hes2. subst w2. exists (es1 ++ es2).
      rewrite acquires_in_app, app_assoc. simpl. split; [done|lia].
  - apply detail_pages_no_acquire.
  - exists []. by rewrite app_nil_r.
Qed.

(** C3, as the code has it.  Every network request detection makes for a
    tenant (the attempts of the career-page fetch, the test request of the
    report probe, the existence checks of the search probe) comes behind
    an [acquire()] for its page: the events [detect_endpoint_for_url]
    adds to the trace follow the rate-limiting discipline.  The same holds
    for every single [fetch_page].  The extraction side is outside the
    discipline: whatever [scrape_single_config] runs (the JSON probe, the
    two pagination drivers, the detail-page driver), it adds no
    [acquire()] to the trace. *)
Theorem detection_requests_are_rate_limited
    (tenant url : string) (is_career_page : bool) (max_retries : Z)
    (config : Config) (w : trace) :
  (∃ es, (detect_endpoint_for_url server tenant url is_career_page w).2 = w ++ es
         ∧ rate_limited es = true)
  ∧ (∃ es, (fetch_page server url max_retries w).2 = w ++ es
           ∧ rate_limited es = true)
  ∧ (∃ es, (scrape_single_config server config w).2 = w ++ es
           ∧ acquires_in es = 0).
Proof.
  split; [|split].
  - destruct (detect_endpoint_for_url_blocks tenant url is_career_page w)
      as (es & Hes & Hblocks).
    exists es. split; [done|]. by apply page_blocks_rate_limited.
  - destruct (fetch_page_blocks url max_retries w) as (k & Hk).
    eexists. split; [done|]. apply page_blocks_rate_limited, page_blocks_single.
  - apply scrape_single_config_no_acquire.
Qed.
End RateLimiting.

(** C3, as stated, fails on the extraction side.  Detection of the sample
    site succeeds behind one [acquire()]; the extraction that follows
    sends five requests (three probes of [try_json_api], then two listing
    pages) and never calls [acquire()]: the trace of the run breaks the
    discipline, and its only [acquire()] is that of detection. *)
Lemma extraction_requests_skip_the_rate_limiter :
  let detection :=
    detect_endpoint_for_url (H := Demo.lib) Demo.search_form_site
      "acme.avature.net" "https://acme.avature.net/careers" true [] in
  ∃ config,
    detection.1 = Returned config
    ∧ let extraction :=
        scrape_single_config (H := Demo.lib) Demo.search_form_site
          config detection.2 in
      Config.status config = success
      ∧ rate_limited detection.2 = true
      ∧ requests_in extraction.2 = requests_in detection.2 + 5
      ∧ acquires_in extraction.2 = acquires_in detection.2
      ∧ rate_limited extraction.2 = false.
Proof. intros detection. eexists. split; [reflexivity|]. vm_compute. done. Qed.

(** ** Detection priority *)

Section Priority.
Context `{PyLib} (server : Server).

(** The report probe succeeds exactly when the page shows a report
    endpoint and the test request to it passes. *)
Lemma detect_public_reports_endpoint_result (html : Body) (tenant : string)
    (w : trace) :
  (detect_public_reports_endpoint server html tenant w).1
  = match Re.findall report_pattern (text html) with
    | report_id :: _ =>
        let endpoint_url :=
          "https://" +:+ tenant +:+ "/PublicReports/" +:+ report_id +:+ "/json" in
        if report_test_passes
             (server (requests_in w) (GET (endpoint_url +:+ "?offset=0&recordsPerPage=1")))
        then Some (public_report_config endpoint_url) else None
    | [] => None
    end.
Proof.
  unfold detect_public_reports_endpoint.
  destruct (Re.findall _ _) as [|report_id ?]; [done|].
  run_unfold. rewrite requests_in_app. unfold requests_in at 2. simpl.
  by rewrite Nat.add_0_r.
Qed.

End Priority.



(** A form whose action cannot be joined to the tenant's origin makes
    detection raise, after the fetch of the career page. *)
Example detection_raises_on_a_form_action_that_cannot_be_joined :
  detect_endpoint_for_url (H := Demo.lib) Demo.bad_form_site "acme.avature.net"
    "https://acme.avature.net/careers" true []
  = (Raised, [Acquire; Request (GET "https://acme.avature.net/careers")]).
Proof. vm_compute. done. Qed.

(** ** Driver selection *)

Section Selection.
Context `{PyLib} (server : Server).

(** [try_urls] makes one request per URL until an answer is accepted. *)
Lemma try_urls_three (u1 u2 u3 : string) (w : trace) :
  let n := requests_in w in
  (try_urls server [u1; u2; u3] w).1
  = match probe_accepts (server n (GET u1)) with
    | Some data => Some (u1, data)
    | None =>
        match probe_accepts (server (n + 1) (GET u2)) with
        | Some data => Some (u2, data)
        | None =>
            match probe_accepts (server (n + 2) (GET u3)) with
            | Some data => Some (u3, data)
            | None => None
            end
        end
    end.
Proof.
  assert (Hreq : ∀ w' u, requests_in (w' ++ [Request (GET u)]) = requests_in w' + 1).
  { intros w' u. by rewrite requests_in_app. }
  simpl. run_unfold.
  destruct (probe_accepts (server (requests_in w) (GET u1))); simpl; [done|].
  rewrite Hreq.
  destruct (probe_accepts (server (requests_in w + 1) (GET u2))); simpl; [done|].
  rewrite !Hreq. replace (requests_in w + 1 + 1) with (requests_in w + 2) by lia.
  by destruct (probe_accepts (server (requests_in w + 2) (GET u3))).
Qed.

(** C4, as the code has it.  [scrape_paginated_endpoint] selects the
    driver by probing, not by the detected strategy type: it runs
    [try_json_api], and continues with [scrape_via_json_api] on the probe
    URL that answered when there is one, and with
    [scrape_via_html_parsing] on the endpoint when there is none.  The
    probe asks three URLs in order and takes the first that answers 200
    with a JSON object holding [jobs], [items] or [results], or with a
    non-empty JSON array.  The ["type"] of the config is never read:
    replacing it changes nothing. *)
Theorem driver_is_selected_by_json_probe
    (config : Config) (endpoint : string) (w : trace) :
  Config.endpoint config = Some endpoint →
  let tenant := Config.tenant config in
  let pagination_param := default "jobOffset" (Config.pagination_param config) in
  let page_size_param := default "jobRecords" (Config.page_size_param config) in
  let page_size := default 50%Z (Config.default_page_size config) in
  let probe := try_json_api server tenant endpoint 0 page_size w in
  scrape_paginated_endpoint server config w
  = match probe.1 with
    | Some (api_url, _) =>
        scrape_via_json_api server tenant api_url pagination_param page_size_param
                            page_size probe.2
    | None =>
        let html := scrape_via_html_parsing server tenant endpoint pagination_param
                                            page_size_param page_size probe.2 in
        (Returned html.1, html.2)
    end
  ∧ (∃ u1 u2 u3,
       api_urls endpoint 0 page_size = [u1; u2; u3]
       ∧ probe.1
         = match probe_accepts (server (requests_in w) (GET u1)) with
           | Some data => Some (u1, data)
           | None =>
               match probe_accepts (server (requests_in w + 1) (GET u2)) with
               | Some data => Some (u2, data)
               | None =>
                   match probe_accepts (server (requests_in w + 2) (GET u3)) with
                   | Some data => Some (u3, data)
                   | None => None
                   end
               end
           end)
  ∧ ∀ t, scrape_paginated_endpoint server (with_type config t) w
         = scrape_paginated_endpoint server config w.
Proof.
  intros Hendpoint tenant pagination_param page_size_param page_size probe.
  split; [|split].
  - unfold scrape_paginated_endpoint. rewrite Hendpoint.
    unfold mbind at 1. unfold Run_bind at 1. fold tenant page_size probe.
    destruct probe as [[[api_url sample_data]|] w1]; simpl; [done|].
    run_unfold. by destruct (scrape_via_html_parsing _ _ _ _ _ _ _).
  - eexists _, _, _. split; [reflexivity|].
    unfold probe, try_json_api, api_urls. apply try_urls_three.
  - intros t. unfold scrape_paginated_endpoint, with_type. simpl. done.
Qed.
End Selection.

(** C4 at the detection result of the sample site with a [SearchJobs]
    form: relabelled as [public_report_json], it is scraped exactly as
    before. *)
Lemma driver_is_selected_by_json_probe_instance :
  let detection :=
    detect_endpoint_for_url (H := Demo.lib) Demo.search_form_site
      "acme.avature.net" "https://acme.avature.net/careers" true [] in
  ∃ config,
    detection.1 = Returned config
    ∧ scrape_paginated_endpoint (H := Demo.lib) Demo.search_form_site
        (with_type config (Some public_report_json)) detection.2
      = scrape_paginated_endpoint (H := Demo.lib) Demo.search_form_site
          config detection.2.
Proof.
  intros detection. eexists. split; [reflexivity|].
  match goal with |- context [with_type ?config _] =>
    exact (proj2 (proj2
      (@driver_is_selected_by_json_probe Demo.lib Demo.search_form_site config
         "https://acme.avature.net/careers/SearchJobs" detection.2 eq_refl))
      (Some public_report_json))
  end.
Defined.

(** C4, as stated, fails in both directions.  On a site detected as
    [search_jobs_html] whose endpoint answers [?output=json], the JSON
    driver runs (and returns the two jobs of the JSON answer).  On a site
    detected as [public_report_json] whose report answers with [rows], the
    probe accepts nothing and the HTML driver runs (and finds no job in
    the JSON body). *)
Lemma driver_does_not_follow_strategy_type :
  let tenant := "acme.avature.net" in
  let form := detect_endpoint_for_url (H := Demo.lib) Demo.json_behind_form_site
                tenant "https://acme.avature.net/careers" true [] in
  let report := detect_endpoint_for_url (H := Demo.lib) Demo.report_site
                  tenant "https://acme.avature.net/careers" true [] in
  (∃ config,
     form.1 = Returned config
     ∧ Config.status config = success
     ∧ Config.type config = Some search_jobs_html
     ∧ scrape_paginated_endpoint (H := Demo.lib) Demo.json_behind_form_site config form.2
       = scrape_via_json_api (H := Demo.lib) Demo.json_behind_form_site tenant
           "https://acme.avature.net/careers/SearchJobs?output=json&jobOffset=0&jobRecords=50"
           "jobOffset" "jobRecords" 50
           (form.2 ++ [Request (GET "https://acme.avature.net/careers//PublicReports?actionPerformed=getJobsForCareerPage&jobOffset=0&jobRecords=50");
                       Request (GET "https://acme.avature.net/careers/SearchJobs?output=json&jobOffset=0&jobRecords=50")])
     ∧ match (scrape_paginated_endpoint (H := Demo.lib) Demo.json_behind_form_site
                config form.2).1 with
       | Returned jobs => Job.job_id <$> jobs = [Some "1"; Some "2"]
       | Raised => False
       end)
  ∧ (∃ config,
       report.1 = Returned config
       ∧ Config.status config = success
       ∧ Config.type config = Some public_report_json
       ∧ try_json_api Demo.report_site tenant
           "https://acme.avature.net/PublicReports/4711/json" 0 1000 report.2
         = (None,
            report.2 ++ ((λ u, Request (GET u)) <$>
              api_urls "https://acme.avature.net/PublicReports/4711/json" 0 1000))
       ∧ (scrape_paginated_endpoint (H := Demo.lib) Demo.report_site config report.2).1
         = Returned
             (scrape_via_html_parsing (H := Demo.lib) Demo.report_site tenant
                "https://acme.avature.net/PublicReports/4711/json" "offset"
                "recordsPerPage" 1000
                (report.2 ++ ((λ u, Request (GET u)) <$>
                   api_urls "https://acme.avature.net/PublicReports/4711/json" 0 1000))).1).
Proof.
  intros tenant form report.
  split; (eexists; split; [reflexivity|]); vm_compute; done.
Qed.

(** ** The job URL of the JSON normaliser *)

Lemma py_or_chain_find (a : value) (l : list value) :
  List.find truthy (a :: l)
  = if truthy (foldl py_or a l) then Some (foldl py_or a l) else None.
Proof.
  revert a. induction l as [|b l IH]; intros a.
  - simpl. by destruct (truthy a).
  - change (foldl py_or a (b :: l)) with (foldl py_or (a <or> b) l).
    rewrite <- IH. simpl. unfold py_or.
    destruct (truthy a) eqn:Ha; simpl; [by rewrite Ha|done].
Qed.

Section JsonUrl.
Context `{PyLib}.

Lemma resolve_url_find (base_url : string) (url_candidates : list value) :
  resolve_url base_url url_candidates
  = match List.find truthy url_candidates with
    | Some (VStr u) => Some <$> stored_url base_url u
    | Some _ => None
    | None => Some None
    end.
Proof.
  induction url_candidates as [|url rest IH]; [done|].
  cbn [resolve_url List.find].
  destruct (truthy url) eqn:Hurl; [|done].
  destruct url; try done. unfold stored_url. by destruct (Text.startswith "http" _).
Qed.

Lemma title_slug_Some (job_title : value) (slug : string) :
  truthy job_title = true → title_slug job_title = Some slug →
  ∃ title, job_title = VStr title
           ∧ slug = Text.take 50 (Text.filter slug_char (Text.replace_char " " "-" title)).
Proof.
  unfold title_slug. intros ->. destruct job_title; try done.
  intros [= <-]. by eexists.
Qed.

(** C9, as the code has it.  A raw job object that yields a record is a
    dict.  When none of its identifier aliases holds a true value, the
    record has no job URL, whatever the URL aliases hold.  When one does:
    the job URL comes from the first of [url], [jobUrl], [applyUrl] that
    holds a true (present, non-empty) value, which is then a text, stored
    as it is when it starts with [http] and joined to the base URL
    otherwise; and when none of the three holds one, the URL is
    [<base>/JobDetail/<slug>/<id>], stored the same way, where the slug
    is the title with spaces turned into hyphens, every character other
    than a letter, a digit or a hyphen dropped, cut to 50 characters. *)
Theorem json_job_url_resolution
    (job_obj : value) (tenant base_url : string) (r : JobRecord) :
  parse_job_from_json job_obj tenant base_url = Some r →
  ∃ d, job_obj = VDict d
    ∧ match List.find truthy
              (dict_get d <$> ["id"; "jobId"; "Id"; "requisitionId"; "positionId"]) with
      | None => Job.job_url r = None
      | Some job_id =>
          match List.find truthy (dict_get d <$> ["url"; "jobUrl"; "applyUrl"]) with
          | Some url =>
              ∃ u, url = VStr u
                   ∧ is_Some (Job.job_url r)
                   ∧ Job.job_url r = stored_url base_url u
          | None =>
              ∃ title slug,
                Job.job_title r = VStr title
                ∧ slug = Text.take 50
                           (Text.filter slug_char (Text.replace_char " " "-" title))
                ∧ String.length slug ≤ 50
                ∧ Text.all slug_char slug = true
                ∧ is_Some (Job.job_url r)
                ∧ Job.job_url r
                  = stored_url base_url
                      (base_url +:+ "/JobDetail/" +:+ slug +:+ "/"
                         +:+ py_str job_id)
          end
      end.
Proof.
  intros Hparse. destruct job_obj as [| | | | | |d]; try done.
  exists d. split; [done|]. unfold parse_job_from_json in Hparse.
  change (fmap (dict_get d) ["id"; "jobId"; "Id"; "requisitionId"; "positionId"])
    with (dict_get d "id"
            :: [dict_get d "jobId"; dict_get d "Id"; dict_get d "requisitionId";
                dict_get d "positionId"]).
  rewrite py_or_chain_find. simpl foldl.
  set (job_id := dict_get d "id" <or> dict_get d "jobId" <or> dict_get d "Id"
                   <or> dict_get d "requisitionId" <or> dict_get d "positionId") in *.
  set (job_title := dict_get d "title" <or> dict_get d "jobTitle"
                      <or> dict_get d "positionTitle" <or> dict_get d "name") in *.
  destruct (truthy job_id) eqn:Hid.
  - destruct (title_slug job_title) as [slug|] eqn:Hslug; [|done].
    rewrite resolve_url_find in Hparse.
    set (synth := base_url +:+ "/JobDetail/" +:+ slug +:+ "/" +:+ py_str job_id) in *.
    assert (Hsynth : truthy (VStr synth) = true).
    { simpl. apply negb_true_iff, String.eqb_neq.
      unfold synth. by apply string_app_nonempty. }
    change (fmap (dict_get d) ["url"; "jobUrl"; "applyUrl"])
      with [dict_get d "url"; dict_get d "jobUrl"; dict_get d "applyUrl"].
    cbn [List.find] in *.
    destruct (truthy (dict_get d "url")) eqn:Hu1;
      [|destruct (truthy (dict_get d "jobUrl")) eqn:Hu2;
        [|destruct (truthy (dict_get d "applyUrl")) eqn:Hu3]].
    + destruct (dict_get d "url") as [| | | |u| |]; try done.
      destruct (stored_url base_url u) as [job_url|] eqn:Hstored; [|done].
      cbn in Hparse.
      destruct (truthy job_title); [|done]. injection Hparse as <-.
      exists u. rewrite Hstored. cbn. by eauto.
    + destruct (dict_get d "jobUrl") as [| | | |u| |]; try done.
      destruct (stored_url base_url u) as [job_url|] eqn:Hstored; [|done].
      cbn in Hparse.
      destruct (truthy job_title); [|done]. injection Hparse as <-.
      exists u. rewrite Hstored. cbn. by eauto.
    + destruct (dict_get d "applyUrl") as [| | | |u| |]; try done.
      destruct (stored_url base_url u) as [job_url|] eqn:Hstored; [|done].
      cbn in Hparse.
      destruct (truthy job_title); [|done]. injection Hparse as <-.
      exists u. rewrite Hstored. cbn. by eauto.
    + rewrite Hsynth in Hparse.
      destruct (stored_url base_url synth) as [job_url|] eqn:Hstored; [|done].
      cbn in Hparse.
      destruct (truthy job_title) eqn:Htitle; [|done]. injection Hparse as <-.
      destruct (title_slug_Some job_title slug Htitle Hslug) as (title & Ht & Hs).
      exists title, slug. simpl. split; [done|]. split; [done|].
      split; [rewrite Hs; apply take_length_le|].
      split; [rewrite Hs; apply all_take, all_filter|].
      fold synth. rewrite Hstored. by eauto.
  - destruct (truthy job_title); [|done]. by injection Hparse as <-.
Qed.
End JsonUrl.

(** C9 at a job with an identifier and a [jobUrl]. *)
Lemma json_job_url_resolution_instance :
  ∃ d, Demo.site_engineer = VDict d
    ∧ match List.find truthy
              (dict_get d <$> ["id"; "jobId"; "Id"; "requisitionId"; "positionId"]) with
      | None => Job.job_url Demo.site_engineer_record = None
      | Some job_id =>
          match List.find truthy (dict_get d <$> ["url"; "jobUrl"; "applyUrl"]) with
          | Some url =>
              ∃ u, url = VStr u
                   ∧ is_Some (Job.job_url Demo.site_engineer_record)
                   ∧ Job.job_url Demo.site_engineer_record
                     = stored_url (H := Demo.lib)
                         "https://acme.avature.net/careers" u
          | None =>
              ∃ title slug,
                Job.job_title Demo.site_engineer_record = VStr title
                ∧ slug = Text.take 50
                           (Text.filter slug_char (Text.replace_char " " "-" title))
                ∧ String.length slug ≤ 50
                ∧ Text.all slug_char slug = true
                ∧ is_Some (Job.job_url Demo.site_engineer_record)
                ∧ Job.job_url Demo.site_engineer_record
                  = stored_url (H := Demo.lib) "https://acme.avature.net/careers"
                      ("https://acme.avature.net/careers" +:+ "/JobDetail/"
                         +:+ slug +:+ "/" +:+ py_str (H := Demo.lib) job_id)
          end
      end.
Proof.
  exact (@json_job_url_resolution Demo.lib Demo.site_engineer "acme.avature.net"
           "https://acme.avature.net/careers" Demo.site_engineer_record eq_refl).
Defined.

(** C9, as stated, fails twice.  A raw job with a title and a [url] but
    no identifier yields a record, and the record has no job URL: the
    aliases are only read for a job with an identifier.  And the slug of
    a synthesised URL keeps the hyphens that stand for the spaces of the
    title (and those of the title itself): it is not stripped down to
    letters and digits. *)
Lemma url_alias_is_ignored_without_identifier :
  let without_id :=
    VDict [("title", VStr "Site Engineer");
           ("url", VStr "https://acme.avature.net/careers/JobDetail/Site-Engineer/7")] in
  let with_id := VDict [("title", VStr "Site Engineer - R&D"); ("id", VInt 7)] in
  (List.find truthy
     (match without_id with
      | VDict d => dict_get d <$> ["url"; "jobUrl"; "applyUrl"]
      | _ => []
      end)
   = Some (VStr "https://acme.avature.net/careers/JobDetail/Site-Engineer/7")
   ∧ ∃ r, parse_job_from_json (H := Demo.lib) without_id "acme.avature.net"
            "https://acme.avature.net/careers" = Some r
          ∧ Job.job_url r = None)
  ∧ ∃ r, parse_job_from_json (H := Demo.lib) with_id "acme.avature.net"
           "https://acme.avature.net/careers" = Some r
         ∧ Job.job_url r
           = Some "https://acme.avature.net/careers/JobDetail/Site-Engineer---RD/7".
Proof. vm_compute. split; [split; [done|]|]; by eexists. Qed.

(** ** The job identifier of the HTML normaliser *)

(** The three patterns are tried in order; the first that matches gives
    the identifier. *)
Lemma extract_job_id_from_url_order (url : string) :
  extract_job_id_from_url (Some url)
  = match Re.search [Re.Lit "/"; Re.Cap Text.is_digit 4] url with
    | Some g => Some g
    | None =>
        match Re.search [Re.Lit "jobId="; Re.Cap Text.is_digit 1] url with
        | Some g => Some g
        | None => Re.search [Re.Lit "id="; Re.Cap Text.is_digit 1] url
        end
    end.
Proof.
  unfold extract_job_id_from_url, job_id_patterns.
  destruct (String.eqb_spec url "") as [->|_]; [done|].
  cbn [Re.first_success].
  destruct (Re.search [Re.Lit "/"; _] url); [done|].
  destruct (Re.search [Re.Lit "jobId="; _] url); [done|].
  by destruct (Re.search [Re.Lit "id="; _] url).
Qed.

Section Listing.
Context `{PyLib}.

(** C10, as the code has it.  A listing element yields a record only
    when it has an anchor.  The record's [job_id] is read off its job URL
    (the anchor's [href] joined to the base URL) and off nothing else, by
    the first pattern that matches, in this order: a slash followed by
    four or more digits, [jobId=] followed by digits, [id=] followed by
    digits; each is searched in the whole URL, host name and query
    included, and the identifier is the whole run of digits of the
    leftmost match.  When none of the three matches, [job_id] is [None],
    and the duplicate check takes the record as new whatever the seen
    set holds: it is appended to the page's records and not counted as a
    duplicate. *)
Theorem listing_job_id_is_read_off_the_url
    (job_elem : Tag) (base_url tenant : string) (r : JobRecord) :
  parse_job_from_listing job_elem base_url tenant = Some r →
  ∃ link_text href url,
    tag_link job_elem = Some (link_text, href)
    ∧ urljoin base_url href = Some url
    ∧ Job.job_url r = Some url
    ∧ Job.job_id r = extract_job_id_from_url (Job.job_url r)
    ∧ match Job.job_id r with
      | Some g =>
          leftmost_match "/" 4 url g
          ∨ (digits_absent "/" 4 url ∧ leftmost_match "jobId=" 1 url g)
          ∨ (digits_absent "/" 4 url ∧ digits_absent "jobId=" 1 url
             ∧ leftmost_match "id=" 1 url g)
      | None =>
          digits_absent "/" 4 url ∧ digits_absent "jobId=" 1 url
          ∧ digits_absent "id=" 1 url
          ∧ ∀ t, tally_item t (Some r) = taken_as_new t r (seen_job_ids t)
      end.
Proof.
  unfold parse_job_from_listing. intros Hparse.
  destruct (tag_link job_elem) as [[link_text href]|]; [|done].
  destruct (urljoin base_url href) as [url|] eqn:Hjoin; [|done].
  destruct (truthy (VStr (clean_text link_text))); [|done].
  injection Hparse as <-. cbn [Job.job_url Job.job_id].
  exists link_text, href, url. do 4 (split; [done|]).
  rewrite extract_job_id_from_url_order.
  destruct (Re.search [Re.Lit "/"; _] url) as [g|] eqn:H1.
  { left. by apply search_prefix_digits_Some. }
  pose proof (search_prefix_digits_None _ _ _ H1) as Habs1.
  destruct (Re.search [Re.Lit "jobId="; _] url) as [g|] eqn:H2.
  { right. left. split; [done|]. by apply search_prefix_digits_Some. }
  pose proof (search_prefix_digits_None _ _ _ H2) as Habs2.
  destruct (Re.search [Re.Lit "id="; _] url) as [g|] eqn:H3.
  { right. right. do 2 (split; [done|]). by apply search_prefix_digits_Some. }
  pose proof (search_prefix_digits_None _ _ _ H3) as Habs3.
  do 3 (split; [done|]). intros t. unfold tally_item.
  cbn [Job.job_url Job.job_id]. done.
Qed.
End Listing.

(** C10 at the listing element of job 1001. *)
Lemma listing_job_id_is_read_off_the_url_instance :
  ∃ link_text href url,
    tag_link (Demo.job_elem 1001) = Some (link_text, href)
    ∧ urljoin (PyLib := Demo.lib) Demo.listing_endpoint href = Some url
    ∧ Job.job_url Demo.listed_record = Some url
    ∧ Job.job_id Demo.listed_record
      = extract_job_id_from_url (Job.job_url Demo.listed_record)
    ∧ match Job.job_id Demo.listed_record with
      | Some g =>
          leftmost_match "/" 4 url g
          ∨ (digits_absent "/" 4 url ∧ leftmost_match "jobId=" 1 url g)
          ∨ (digits_absent "/" 4 url ∧ digits_absent "jobId=" 1 url
             ∧ leftmost_match "id=" 1 url g)
      | None =>
          digits_absent "/" 4 url ∧ digits_absent "jobId=" 1 url
          ∧ digits_absent "id=" 1 url
          ∧ ∀ t, tally_item t (Some Demo.listed_record)
                 = taken_as_new t Demo.listed_record (seen_job_ids t)
      end.
Proof.
  exact (@listing_job_id_is_read_off_the_url Demo.lib (Demo.job_elem 1001)
           Demo.listing_endpoint "acme.avature.net" Demo.listed_record eq_refl).
Defined.

(** The order of the patterns at work: digits behind a slash win over
    [jobId=]; without them [jobId=] wins over [id=]; a URL with none of
    them has no identifier. *)
Example extract_job_id_from_url_examples :
  extract_job_id_from_url (Some "https://acme.avature.net/careers/JobDetail/Engineer/12345?jobId=77")
  = Some "12345"
  ∧ extract_job_id_from_url (Some "https://acme.avature.net/careers/JobDetail/123?jobId=77&id=5")
    = Some "77"
  ∧ extract_job_id_from_url (Some "https://acme.avature.net/careers/apply?pid=5")
    = Some "5"
  ∧ extract_job_id_from_url (Some "https://acme.avature.net/careers/about") = None
  ∧ extract_job_id_from_url (Some "") = None
  ∧ extract_job_id_from_url None = None.
Proof. vm_compute. done. Qed.

(** C10, as stated, fails for the first pattern: the code does not look
    for a path segment of digits but for a slash followed by four or
    more digits anywhere in the URL, and the two slashes in front of the
    host name come first.  On the tenant [1800flowers.avature.net] the
    listing elements of the jobs 1001 and 1002 both get the identifier
    [1800], which does not stand in the path of their URLs at all; and
    on a host that starts with five digits the host wins over a [jobId=]
    in the query, where the path has no segment of digits. *)
Lemma job_id_can_come_from_the_host_name :
  let base_url := "https://1800flowers.avature.net/careers/SearchJobs" in
  let job_elem i :=
    {| tag_markup := "<li><a href=/careers/JobDetail/" +:+ i +:+ ">Florist</a></li>";
       tag_link := Some ("Florist", "/careers/JobDetail/" +:+ i);
       tag_text := "Florist";
       tag_place := None |} in
  let url i := "https://1800flowers.avature.net/careers/JobDetail/" +:+ i in
  (∃ r1 r2,
     parse_job_from_listing (H := Demo.lib) (job_elem "1001") base_url
                            "1800flowers.avature.net" = Some r1
     ∧ parse_job_from_listing (H := Demo.lib) (job_elem "1002") base_url
                              "1800flowers.avature.net" = Some r2
     ∧ Job.job_url r1 = Some (url "1001")
     ∧ Job.job_url r2 = Some (url "1002")
     ∧ url_path (url "1001") = "/careers/JobDetail/1001"
     ∧ digit_path_segment (url "1001") = Some "1001"
     ∧ digit_path_segment (url "1002") = Some "1002"
     ∧ Text.contains "1800" (url_path (url "1001")) = false
     ∧ Job.job_id r1 = Some "1800"
     ∧ Job.job_id r2 = Some "1800")
  ∧ digit_path_segment "https://12345.example.com/careers/apply?jobId=77" = None
  ∧ extract_job_id_from_url (Some "https://12345.example.com/careers/apply?jobId=77")
    = Some "12345".
Proof. vm_compute. split; [|done]. eexists _, _. by repeat split. Qed.

(** ** What a turn does with a page *)

Section Turns.
Context `{PyLib} (server : Server).

(** A turn of the JSON loop on a page that could be read. *)
Lemma json_turn_on_page tenant template pagination_param page_size_param page_size
    page consecutive_empty seen jobs w api_url items :
  json_page_url template pagination_param page_size_param
                (Z.of_nat page * page_size)%Z page_size = Some api_url →
  json_items (server (requests_in w) (GET api_url)) = Some items →
  json_turn server tenant template pagination_param page_size_param page_size
            page consecutive_empty seen jobs w
  = let t := tally_page (λ job_obj, parse_job_from_json job_obj tenant
                                      (json_base_url api_url)) seen items in
    if duplicate_flood (page_duplicates t) (length items)
    then (Break, w ++ [Request (GET api_url)])
    else if page_new_jobs t =? 0
    then if 2 <=? S consecutive_empty
         then (Break, w ++ [Request (GET api_url)])
         else (Next (S consecutive_empty) (seen_job_ids t) (jobs ++ page_jobs t),
               w ++ [Request (GET api_url); Sleep])
    else (Next 0 (seen_job_ids t) (jobs ++ page_jobs t),
          w ++ [Request (GET api_url); Sleep]).
Proof.
  intros Hurl Hitems. unfold json_turn. rewrite Hurl. run_unfold.
  unfold json_items in Hitems.
  destruct (server (requests_in w) (GET api_url)) as [response| |]; [|done..].
  destruct (Response.status_code response =? 200)%Z; [|done].
  destruct (as_json (Response.body response)) as [data|]; [|done].
  simpl in Hitems. rewrite Hitems. cbn [negb]. cbv beta iota zeta.
  destruct (duplicate_flood _ _); [done|].
  destruct (_ =? 0); [destruct (2 <=? S consecutive_empty); [done|]|];
    cbv beta; by rewrite <- app_assoc.
Qed.

(** A turn of the JSON loop on an answer that could not be read. *)
Lemma json_turn_on_failure tenant template pagination_param page_size_param page_size
    page consecutive_empty seen jobs w api_url :
  json_page_url template pagination_param page_size_param
                (Z.of_nat page * page_size)%Z page_size = Some api_url →
  json_items (server (requests_in w) (GET api_url)) = None →
  json_turn server tenant template pagination_param page_size_param page_size
            page consecutive_empty seen jobs w
  = (Break, w ++ [Request (GET api_url)]).
Proof.
  intros Hurl Hitems. unfold json_turn. rewrite Hurl. run_unfold.
  unfold json_items in Hitems.
  destruct (server (requests_in w) (GET api_url)) as [response| |]; [|done..].
  destruct (Response.status_code response =? 200)%Z; [|done].
  destruct (as_json (Response.body response)) as [data|]; [|done].
  simpl in Hitems. by rewrite Hitems.
Qed.

(** A turn of the HTML loop on a page that was received. *)
Lemma html_turn_on_page tenant endpoint pagination_param page_size_param page_size
    page consecutive_empty seen jobs w elems :
  let url := html_page_url endpoint pagination_param page_size_param
                           (Z.of_nat page * page_size)%Z page_size in
  html_elements (server (requests_in w) (GET url)) = Some elems →
  html_turn server tenant endpoint pagination_param page_size_param page_size
            page consecutive_empty seen jobs w
  = let t := tally_page (λ job_elem, parse_job_from_listing job_elem endpoint tenant)
                        seen elems in
    match elems with
    | [] =>
        if 2 <=? S consecutive_empty
        then (Break, w ++ [Request (GET url)])
        else (Next (S consecutive_empty) seen jobs, w ++ [Request (GET url); Sleep])
    | _ :: _ =>
        if duplicate_flood (page_duplicates t) (length elems)
        then (Break, w ++ [Request (GET url)])
        else if page_new_jobs t =? 0
        then if 2 <=? S consecutive_empty
             then (Break, w ++ [Request (GET url)])
             else (Next (S consecutive_empty) (seen_job_ids t) (jobs ++ page_jobs t),
                   w ++ [Request (GET url); Sleep])
        else (Next 0 (seen_job_ids t) (jobs ++ page_jobs t),
              w ++ [Request (GET url); Sleep])
    end.
Proof.
  intros url Helems. unfold html_turn. fold url. run_unfold.
  unfold html_elements in Helems.
  destruct (server (requests_in w) (GET url)) as [response| |]; [|done..].
  injection Helems as Helems. rewrite Helems. cbv beta iota zeta.
  destruct elems as [|job_elem elems].
  - destruct (2 <=? S consecutive_empty); [done|]. cbv beta.
    by rewrite <- app_assoc.
  - destruct (duplicate_flood _ _); [done|].
    pose proof (tally_page_counts
                  (λ job_elem, parse_job_from_listing job_elem endpoint tenant)
                  seen (job_elem :: elems)) as [Hnew _].
    rewrite Hnew.
    destruct (page_jobs _) as [|r page_jobs]; cbn [length Nat.eqb].
    + destruct (2 <=? S consecutive_empty); [done|]. cbv beta.
      by rewrite <- app_assoc.
    + cbv beta. by rewrite <- app_assoc.
Qed.
End Turns.

(** ** Duplicate-flood termination *)

Section DuplicateFlood.
Context `{PyLib} (server : Server).

Lemma flood_of_ratio {A} (parse : A → option JobRecord) (seen : gset string)
    (items : list A) :
  4 * length items < 5 * page_duplicates (tally_page parse seen items) →
  duplicate_flood (page_duplicates (tally_page parse seen items)) (length items) = true.
Proof.
  intros Hratio. pose proof (tally_page_counts parse seen items) as [_ Hcount].
  unfold duplicate_flood. apply andb_true_iff. split.
  - apply Nat.ltb_lt. lia.
  - by apply Nat.ltb_lt.
Qed.

Lemma json_flood_stops tenant template pagination_param page_size_param page_size
    page consecutive_empty seen jobs w api_url items :
  page < MAX_PAGES_PER_SITE →
  json_page_url template pagination_param page_size_param
                (Z.of_nat page * page_size)%Z page_size = Some api_url →
  json_items (server (requests_in w) (GET api_url)) = Some items →
  4 * length items
    < 5 * page_duplicates
            (tally_page (λ job_obj, parse_job_from_json job_obj tenant
                                      (json_base_url api_url)) seen items) →
  json_pages server tenant template pagination_param page_size_param page_size
             page consecutive_empty seen jobs w
  = (Returned jobs, w ++ [Request (GET api_url)]).
Proof.
  intros Hpage Hurl Hitems Hratio. rewrite json_pages_unroll.
  destruct (decide (page < MAX_PAGES_PER_SITE)); [|done].
  rewrite (json_turn_on_page server _ _ _ _ _ _ _ _ _ _ api_url items Hurl Hitems).
  cbv zeta. by rewrite flood_of_ratio.
Qed.

Lemma html_flood_stops tenant endpoint pagination_param page_size_param page_size
    page consecutive_empty seen jobs w elems :
  let url := html_page_url endpoint pagination_param page_size_param
                           (Z.of_nat page * page_size)%Z page_size in
  page < MAX_PAGES_PER_SITE →
  html_elements (server (requests_in w) (GET url)) = Some elems →
  4 * length elems
    < 5 * page_duplicates
            (tally_page (λ job_elem, parse_job_from_listing job_elem endpoint tenant)
                        seen elems) →
  html_pages server tenant endpoint pagination_param page_size_param page_size
             page consecutive_empty seen jobs w
  = (jobs, w ++ [Request (GET url)]).
Proof.
  intros url Hpage Helems Hratio. rewrite html_pages_unroll.
  destruct (decide (page < MAX_PAGES_PER_SITE)); [|done].
  rewrite (html_turn_on_page server _ _ _ _ _ _ _ _ _ _ elems Helems).
  cbv zeta. rewrite flood_of_ratio by done.
  destruct elems; [|done]. simpl in Hratio. lia.
Qed.

(** The accounting of a first page of items with distinct identifiers,
    and of the same page served again. *)
Lemma tally_first_page {A} (parse : A → option JobRecord) (items : list A)
    (ids : list string) :
  Forall2 (yields parse) items ids → NoDup ids →
  tally_page parse ∅ items
  = {| seen_job_ids := list_to_set ids ∪ ∅;
       page_jobs := omap parse items;
       page_duplicates := 0;
       page_new_jobs := length items |}.
Proof.
  intros Hyields Hnd. unfold tally_page.
  rewrite (tally_fold_all_new parse items ids); [done..|].
  intros id _. apply not_elem_of_empty.
Qed.

Lemma tally_same_page_again {A} (parse : A → option JobRecord) (items : list A)
    (ids : list string) :
  Forall2 (yields parse) items ids →
  tally_page parse (list_to_set ids ∪ ∅) items
  = {| seen_job_ids := list_to_set ids ∪ ∅;
       page_jobs := [];
       page_duplicates := length items;
       page_new_jobs := 0 |}.
Proof.
  intros Hyields. unfold tally_page.
  rewrite (tally_fold_all_duplicates parse items ids); [done..|].
  intros id Hid. simpl. apply elem_of_union. left. by apply elem_of_list_to_set.
Qed.

Lemma json_same_page_stops_after_second tenant template pagination_param
    page_size_param page_size w o items ids u0 u1 :
  (∀ n r, server n r = o) →
  json_items o = Some items → length items = 10 →
  Forall2 (yields (λ job_obj, parse_job_from_json job_obj tenant (json_base_url u0)))
          items ids →
  Forall2 (yields (λ job_obj, parse_job_from_json job_obj tenant (json_base_url u1)))
          items ids →
  NoDup ids →
  json_page_url template pagination_param page_size_param 0 page_size = Some u0 →
  json_page_url template pagination_param page_size_param (1 * page_size) page_size
    = Some u1 →
  let page0 := omap (λ job_obj, parse_job_from_json job_obj tenant (json_base_url u0))
                    items in
  length page0 = 10
  ∧ scrape_via_json_api server tenant template pagination_param page_size_param
                        page_size w
    = (Returned page0, w ++ [Request (GET u0); Sleep; Request (GET u1)]).
Proof.
  intros Hserver Hitems Hlen Hyields Hyields1 Hnd Hu0 Hu1 page0.
  split; [unfold page0; by rewrite (omap_yields_length _ _ ids)|].
  unfold scrape_via_json_api. rewrite json_pages_unroll.
  destruct (decide (0 < MAX_PAGES_PER_SITE)) as [_|Hcap];
    [|exfalso; apply Hcap; unfold MAX_PAGES_PER_SITE; lia].
  rewrite (json_turn_on_page server _ _ _ _ _ _ _ _ _ _ u0 items);
    [|exact Hu0|by rewrite Hserver].
  cbv zeta. rewrite (tally_first_page _ items ids) by done.
  cbn [page_duplicates page_new_jobs seen_job_ids page_jobs]. rewrite Hlen.
  cbn [duplicate_flood Nat.ltb Nat.leb Nat.mul Nat.add andb Nat.eqb].
  rewrite json_pages_unroll.
  destruct (decide (1 < MAX_PAGES_PER_SITE)) as [_|Hcap];
    [|exfalso; apply Hcap; unfold MAX_PAGES_PER_SITE; lia].
  rewrite (json_turn_on_page server _ _ _ _ _ _ _ _ _ _ u1 items);
    [|exact Hu1|by rewrite Hserver].
  cbv zeta.
  rewrite (tally_same_page_again _ items ids) by done.
  cbn [page_duplicates page_new_jobs seen_job_ids page_jobs]. rewrite Hlen.
  cbn [duplicate_flood Nat.ltb Nat.leb Nat.mul Nat.add andb Nat.eqb].
  fold page0. by rewrite <- app_assoc.
Qed.

Lemma html_same_page_stops_after_second tenant endpoint pagination_param
    page_size_param page_size w o elems ids :
  (∀ n r, server n r = o) →
  html_elements o = Some elems → length elems = 10 →
  Forall2 (yields (λ job_elem, parse_job_from_listing job_elem endpoint tenant))
          elems ids →
  NoDup ids →
  let page0 := omap (λ job_elem, parse_job_from_listing job_elem endpoint tenant)
                    elems in
  let url k := html_page_url endpoint pagination_param page_size_param
                             (Z.of_nat k * page_size)%Z page_size in
  length page0 = 10
  ∧ scrape_via_html_parsing server tenant endpoint pagination_param page_size_param
                            page_size w
    = (page0, w ++ [Request (GET (url 0)); Sleep; Request (GET (url 1))]).
Proof.
  intros Hserver Helems Hlen Hyields Hnd page0 url.
  split; [unfold page0; by rewrite (omap_yields_length _ _ ids)|].
  assert (Hcons : ∃ e es, elems = e :: es).
  { destruct elems as [|e es]; [done|by exists e, es]. }
  unfold scrape_via_html_parsing. rewrite html_pages_unroll.
  destruct (decide (0 < MAX_PAGES_PER_SITE)) as [_|Hcap];
    [|exfalso; apply Hcap; unfold MAX_PAGES_PER_SITE; lia].
  rewrite (html_turn_on_page server _ _ _ _ _ _ _ _ _ _ elems) by (by rewrite Hserver).
  cbv zeta. rewrite (tally_first_page _ elems ids) by done.
  cbn [page_duplicates page_new_jobs seen_job_ids page_jobs]. rewrite Hlen.
  cbn [duplicate_flood Nat.ltb Nat.leb Nat.mul Nat.add andb Nat.eqb].
  destruct Hcons as (e & es & Hcons). rewrite Hcons at 1.
  rewrite html_pages_unroll.
  destruct (decide (1 < MAX_PAGES_PER_SITE)) as [_|Hcap];
    [|exfalso; apply Hcap; unfold MAX_PAGES_PER_SITE; lia].
  rewrite (html_turn_on_page server _ _ _ _ _ _ _ _ _ _ elems) by (by rewrite Hserver).
  cbv zeta. rewrite (tally_same_page_again _ elems ids) by done.
  cbn [page_duplicates page_new_jobs seen_job_ids page_jobs]. rewrite Hlen.
  cbn [duplicate_flood Nat.ltb Nat.leb Nat.mul Nat.add andb Nat.eqb].
  rewrite Hcons at 1. fold page0. by rewrite <- app_assoc.
Qed.

(** C6.  In both drivers, a page on which the duplicates are more than 0.8
    of the items read ([4 * items < 5 * duplicates]) ends the extraction
    at that page: the loop returns the records gathered before it and
    sends no further request.  In particular, against a source that
    answers every request with the same page of ten items, each yielding
    a record with an identifier of its own (on page 0 and again on
    page 1), each driver stops after the second request (page 1, all ten
    duplicates) and returns exactly the ten records of page 0. *)
Theorem duplicate_flood_stops_extraction :
  (∀ tenant template pagination_param page_size_param page_size
     page consecutive_empty seen jobs w api_url items,
     page < MAX_PAGES_PER_SITE →
     json_page_url template pagination_param page_size_param
                   (Z.of_nat page * page_size)%Z page_size = Some api_url →
     json_items (server (requests_in w) (GET api_url)) = Some items →
     4 * length items
       < 5 * page_duplicates
               (tally_page (λ job_obj, parse_job_from_json job_obj tenant
                                         (json_base_url api_url)) seen items) →
     json_pages server tenant template pagination_param page_size_param page_size
                page consecutive_empty seen jobs w
     = (Returned jobs, w ++ [Request (GET api_url)]))
  ∧ (∀ tenant endpoint pagination_param page_size_param page_size
       page consecutive_empty seen jobs w elems,
       let url := html_page_url endpoint pagination_param page_size_param
                                (Z.of_nat page * page_size)%Z page_size in
       page < MAX_PAGES_PER_SITE →
       html_elements (server (requests_in w) (GET url)) = Some elems →
       4 * length elems
         < 5 * page_duplicates
                 (tally_page (λ job_elem, parse_job_from_listing job_elem endpoint tenant)
                             seen elems) →
       html_pages server tenant endpoint pagination_param page_size_param page_size
                  page consecutive_empty seen jobs w
       = (jobs, w ++ [Request (GET url)]))
  ∧ (∀ tenant template pagination_param page_size_param page_size w o items ids u0 u1,
       (∀ n r, server n r = o) →
       json_items o = Some items → length items = 10 →
       Forall2 (yields (λ job_obj, parse_job_from_json job_obj tenant (json_base_url u0)))
               items ids →
       Forall2 (yields (λ job_obj, parse_job_from_json job_obj tenant (json_base_url u1)))
               items ids →
       NoDup ids →
       json_page_url template pagination_param page_size_param 0 page_size = Some u0 →
       json_page_url template pagination_param page_size_param (1 * page_size) page_size
         = Some u1 →
       let page0 := omap (λ job_obj, parse_job_from_json job_obj tenant
                                       (json_base_url u0)) items in
       length page0 = 10
       ∧ scrape_via_json_api server tenant template pagination_param page_size_param
                             page_size w
         = (Returned page0, w ++ [Request (GET u0); Sleep; Request (GET u1)]))
  ∧ (∀ tenant endpoint pagination_param page_size_param page_size w o elems ids,
       (∀ n r, server n r = o) →
       html_elements o = Some elems → length elems = 10 →
       Forall2 (yields (λ job_elem, parse_job_from_listing job_elem endpoint tenant))
               elems ids →
       NoDup ids →
       let page0 := omap (λ job_elem, parse_job_from_listing job_elem endpoint tenant)
                         elems in
       let url k := html_page_url endpoint pagination_param page_size_param
                                  (Z.of_nat k * page_size)%Z page_size in
       length page0 = 10
       ∧ scrape_via_html_parsing server tenant endpoint pagination_param
                                 page_size_param page_size w
         = (page0, w ++ [Request (GET (url 0)); Sleep; Request (GET (url 1))])).
Proof.
  split; [|split; [|split]].
  - intros. eapply json_flood_stops; eassumption.
  - intros. eapply html_flood_stops; eassumption.
  - intros. eapply json_same_page_stops_after_second; eassumption.
  - intros. eapply html_same_page_stops_after_second; eassumption.
Qed.
End DuplicateFlood.

(** C6 at the two sample sources that serve the same ten jobs at every
    offset. *)
Lemma duplicate_flood_stops_extraction_instance :
  (let page0 := omap (λ job_obj, parse_job_from_json (H := Demo.lib) job_obj
                                   "acme.avature.net"
                                   (json_base_url "https://acme.avature.net/api/jobs?offset=0&limit=10"))
                     (Demo.job_obj <$> Demo.ten) in
   length page0 = 10
   ∧ scrape_via_json_api (H := Demo.lib) Demo.same_json_page "acme.avature.net"
       Demo.api_template "offset" "limit" 10 []
     = (Returned page0,
        [] ++ [Request (GET "https://acme.avature.net/api/jobs?offset=0&limit=10"); Sleep;
               Request (GET "https://acme.avature.net/api/jobs?offset=10&limit=10")]))
  ∧ (let page0 := omap (λ job_elem, parse_job_from_listing (H := Demo.lib) job_elem
                                      Demo.listing_endpoint "acme.avature.net")
                       (Demo.job_elem <$> Demo.ten) in
     let url k := html_page_url Demo.listing_endpoint "jobOffset" "jobRecords"
                                (Z.of_nat k * 10)%Z 10 in
     length page0 = 10
     ∧ scrape_via_html_parsing (H := Demo.lib) Demo.same_html_page "acme.avature.net"
         Demo.listing_endpoint "jobOffset" "jobRecords" 10 []
       = (page0, [] ++ [Request (GET (url 0)); Sleep; Request (GET (url 1))])).
Proof.
  assert (Hnd : NoDup (pretty <$> Demo.ten)).
  { apply (bool_decide_unpack _). vm_compute. exact I. }
  split.
  - apply (proj1 (proj2 (proj2
      (@duplicate_flood_stops_extraction Demo.lib Demo.same_json_page)))
      "acme.avature.net" Demo.api_template "offset" "limit" 10%Z []
      (Demo.ok (Demo.json_body (VList (Demo.job_obj <$> Demo.ten))))
      (Demo.job_obj <$> Demo.ten) (pretty <$> Demo.ten)
      "https://acme.avature.net/api/jobs?offset=0&limit=10"
      "https://acme.avature.net/api/jobs?offset=10&limit=10");
      [done|done|done| | |done|done|done];
      repeat (constructor; [split; [done|by eexists]|]); constructor.
  - apply (proj2 (proj2 (proj2
      (@duplicate_flood_stops_extraction Demo.lib Demo.same_html_page)))
      "acme.avature.net" Demo.listing_endpoint "jobOffset" "jobRecords" 10%Z []
      (Demo.ok (Demo.listing_body (Demo.job_elem <$> Demo.ten)))
      (Demo.job_elem <$> Demo.ten) (pretty <$> Demo.ten));
      [done|done|done| |done].
    repeat (constructor; [split; [done|by eexists]|]). constructor.
Defined.

(** ** Emptiness termination *)

Lemma requests_in_page (w : trace) (r : request) :
  requests_in (w ++ [Request r; Sleep]) = requests_in w + 1.
Proof. by rewrite requests_in_app. Qed.

Lemma tally_page_nil {A} (parse : A → option JobRecord) (seen : gset string) :
  tally_page parse seen []
  = {| seen_job_ids := seen; page_jobs := []; page_duplicates := 0;
       page_new_jobs := 0 |}.
Proof. done. Qed.

Lemma no_new_jobs_no_records {A} (parse : A → option JobRecord) (seen : gset string)
    (items : list A) :
  page_new_jobs (tally_page parse seen items) = 0 →
  page_jobs (tally_page parse seen items) = [].
Proof.
  intros Hnew. pose proof (tally_page_counts parse seen items) as [Hlen _].
  rewrite Hnew in Hlen. by destruct (page_jobs _).
Qed.

Lemma all_new_no_flood {A} (parse : A → option JobRecord) (seen : gset string)
    (items : list A) :
  page_new_jobs (tally_page parse seen items) = length items →
  duplicate_flood (page_duplicates (tally_page parse seen items)) (length items) = false.
Proof.
  intros Hnew. pose proof (tally_page_counts parse seen items) as [_ Hcount].
  unfold duplicate_flood. apply andb_false_iff. right. apply Nat.ltb_ge. lia.
Qed.

Section Emptiness.
Context `{PyLib} (server : Server).

Lemma json_counter_step tenant template pagination_param page_size_param page_size
    page consecutive_empty seen jobs w api_url items :
  let t := tally_page (λ job_obj, parse_job_from_json job_obj tenant
                                    (json_base_url api_url)) seen items in
  page < MAX_PAGES_PER_SITE →
  json_page_url template pagination_param page_size_param
                (Z.of_nat page * page_size)%Z page_size = Some api_url →
  json_items (server (requests_in w) (GET api_url)) = Some items →
  duplicate_flood (page_duplicates t) (length items) = false →
  json_pages server tenant template pagination_param page_size_param page_size
             page consecutive_empty seen jobs w
  = if page_new_jobs t =? 0
    then if 2 <=? S consecutive_empty
         then (Returned jobs, w ++ [Request (GET api_url)])
         else json_pages server tenant template pagination_param page_size_param
                         page_size (S page) (S consecutive_empty) (seen_job_ids t)
                         jobs (w ++ [Request (GET api_url); Sleep])
    else json_pages server tenant template pagination_param page_size_param
                    page_size (S page) 0 (seen_job_ids t) (jobs ++ page_jobs t)
                    (w ++ [Request (GET api_url); Sleep]).
Proof.
  intros t Hpage Hurl Hitems Hflood. rewrite json_pages_unroll.
  destruct (decide (page < MAX_PAGES_PER_SITE)); [|done].
  rewrite (json_turn_on_page server _ _ _ _ _ _ _ _ _ _ api_url items Hurl Hitems).
  cbv zeta. fold t. rewrite Hflood.
  destruct (page_new_jobs t =? 0) eqn:Hnew; [|done].
  destruct (2 <=? S consecutive_empty); [done|].
  apply Nat.eqb_eq in Hnew. unfold t. rewrite no_new_jobs_no_records by done.
  by rewrite app_nil_r.
Qed.

Lemma html_counter_step tenant endpoint pagination_param page_size_param page_size
    page consecutive_empty seen jobs w elems :
  let url := html_page_url endpoint pagination_param page_size_param
                           (Z.of_nat page * page_size)%Z page_size in
  let t := tally_page (λ job_elem, parse_job_from_listing job_elem endpoint tenant)
                      seen elems in
  page < MAX_PAGES_PER_SITE →
  html_elements (server (requests_in w) (GET url)) = Some elems →
  duplicate_flood (page_duplicates t) (length elems) = false →
  html_pages server tenant endpoint pagination_param page_size_param page_size
             page consecutive_empty seen jobs w
  = if page_new_jobs t =? 0
    then if 2 <=? S consecutive_empty
         then (jobs, w ++ [Request (GET url)])
         else html_pages server tenant endpoint pagination_param page_size_param
                         page_size (S page) (S consecutive_empty) (seen_job_ids t)
                         jobs (w ++ [Request (GET url); Sleep])
    else html_pages server tenant endpoint pagination_param page_size_param
                    page_size (S page) 0 (seen_job_ids t) (jobs ++ page_jobs t)
                    (w ++ [Request (GET url); Sleep]).
Proof.
  intros url t Hpage Helems Hflood. rewrite html_pages_unroll.
  destruct (decide (page < MAX_PAGES_PER_SITE)); [|done].
  rewrite (html_turn_on_page server _ _ _ _ _ _ _ _ _ _ elems Helems).
  cbv zeta. fold url t.
  destruct elems as [|job_elem elems].
  - unfold t. rewrite tally_page_nil. simpl.
    by destruct consecutive_empty as [|[|?]].
  - rewrite Hflood.
    destruct (page_new_jobs t =? 0) eqn:Hnew; [|done].
    destruct (2 <=? S consecutive_empty); [done|].
    apply Nat.eqb_eq in Hnew. unfold t. rewrite no_new_jobs_no_records by done.
    by rewrite app_nil_r.
Qed.

Lemma json_five_then_empty tenant template pagination_param page_size_param
    page_size w items u0 u1 u2 :
  let parse := λ job_obj, parse_job_from_json job_obj tenant (json_base_url u0) in
  json_page_url template pagination_param page_size_param 0 page_size = Some u0 →
  json_page_url template pagination_param page_size_param (1 * page_size) page_size
    = Some u1 →
  json_page_url template pagination_param page_size_param (2 * page_size) page_size
    = Some u2 →
  json_items (server (requests_in w) (GET u0)) = Some items →
  length items = 5 →
  page_new_jobs (tally_page parse ∅ items) = 5 →
  json_items (server (requests_in w + 1) (GET u1)) = Some [] →
  json_items (server (requests_in w + 2) (GET u2)) = Some [] →
  length (page_jobs (tally_page parse ∅ items)) = 5
  ∧ scrape_via_json_api server tenant template pagination_param page_size_param
                        page_size w
    = (Returned (page_jobs (tally_page parse ∅ items)),
       w ++ [Request (GET u0); Sleep; Request (GET u1); Sleep; Request (GET u2)]).
Proof.
  intros parse Hu0 Hu1 Hu2 Hpage0 Hlen Hnew Hpage1 Hpage2.
  split.
  { pose proof (tally_page_counts parse ∅ items) as [Hcount _]. lia. }
  assert (Hcap : ∀ k, k < 3 → k < MAX_PAGES_PER_SITE).
  { intros k Hk. unfold MAX_PAGES_PER_SITE. lia. }
  unfold scrape_via_json_api.
  rewrite (json_counter_step _ _ _ _ _ 0 _ _ _ _ u0 items);
    [|apply Hcap; lia|exact Hu0|exact Hpage0|apply all_new_no_flood; fold parse; lia].
  fold parse. rewrite Hnew. cbn [Nat.eqb app].
  rewrite (json_counter_step _ _ _ _ _ 1 _ _ _ _ u1 []);
    [|apply Hcap; lia|exact Hu1|by rewrite requests_in_page|done].
  rewrite tally_page_nil. cbn [page_new_jobs seen_job_ids Nat.eqb Nat.leb].
  rewrite (json_counter_step _ _ _ _ _ 2 _ _ _ _ u2 []);
    [|apply Hcap; lia|exact Hu2| |done].
  - rewrite tally_page_nil. cbn [page_new_jobs seen_job_ids Nat.eqb Nat.leb].
    by rewrite <- !app_assoc.
  - rewrite !requests_in_page. by rewrite <- Nat.add_assoc.
Qed.

Lemma html_five_then_empty tenant endpoint pagination_param page_size_param
    page_size w elems :
  let parse := λ job_elem, parse_job_from_listing job_elem endpoint tenant in
  let url k := html_page_url endpoint pagination_param page_size_param
                             (Z.of_nat k * page_size)%Z page_size in
  html_elements (server (requests_in w) (GET (url 0))) = Some elems →
  length elems = 5 →
  page_new_jobs (tally_page parse ∅ elems) = 5 →
  html_elements (server (requests_in w + 1) (GET (url 1))) = Some [] →
  html_elements (server (requests_in w + 2) (GET (url 2))) = Some [] →
  length (page_jobs (tally_page parse ∅ elems)) = 5
  ∧ scrape_via_html_parsing server tenant endpoint pagination_param page_size_param
                            page_size w
    = (page_jobs (tally_page parse ∅ elems),
       w ++ [Request (GET (url 0)); Sleep; Request (GET (url 1)); Sleep;
             Request (GET (url 2))]).
Proof.
  intros parse url Hpage0 Hlen Hnew Hpage1 Hpage2.
  split.
  { pose proof (tally_page_counts parse ∅ elems) as [Hcount _]. lia. }
  assert (Hcap : ∀ k, k < 3 → k < MAX_PAGES_PER_SITE).
  { intros k Hk. unfold MAX_PAGES_PER_SITE. lia. }
  unfold scrape_via_html_parsing.
  rewrite (html_counter_step _ _ _ _ _ 0 _ _ _ _ elems);
    [|apply Hcap; lia|exact Hpage0|apply all_new_no_flood; fold parse; lia].
  fold parse. rewrite Hnew. cbn [Nat.eqb app].
  rewrite (html_counter_step _ _ _ _ _ 1 _ _ _ _ []);
    [|apply Hcap; lia|by rewrite requests_in_page|done].
  rewrite tally_page_nil. cbn [page_new_jobs seen_job_ids Nat.eqb Nat.leb].
  rewrite (html_counter_step _ _ _ _ _ 2 _ _ _ _ []);
    [|apply Hcap; lia| |done].
  - rewrite tally_page_nil. cbn [page_new_jobs seen_job_ids Nat.eqb Nat.leb].
    by rewrite <- !app_assoc.
  - rewrite !requests_in_page. by rewrite <- Nat.add_assoc.
Qed.

(** C7.  In both drivers, on a page that is not cut by the duplicate
    flood, the loop goes on as follows.  A page with zero new records
    raises the consecutive-empty counter by one; when the counter reaches
    2 the extraction stops there, with the records gathered before;
    otherwise the next page is fetched with the raised counter.  A page
    with at least one new record fetches the next page with the counter
    back at 0 and the new records appended.  In particular, against a
    source with five new items on page 0 and empty pages 1 and 2, each
    driver stops after page 2 (three requests) with exactly the five
    records of page 0. *)
Theorem empty_pages_stop_extraction :
  (∀ tenant template pagination_param page_size_param page_size
     page consecutive_empty seen jobs w api_url items,
     let t := tally_page (λ job_obj, parse_job_from_json job_obj tenant
                                       (json_base_url api_url)) seen items in
     page < MAX_PAGES_PER_SITE →
     json_page_url template pagination_param page_size_param
                   (Z.of_nat page * page_size)%Z page_size = Some api_url →
     json_items (server (requests_in w) (GET api_url)) = Some items →
     duplicate_flood (page_duplicates t) (length items) = false →
     json_pages server tenant template pagination_param page_size_param page_size
                page consecutive_empty seen jobs w
     = if page_new_jobs t =? 0
       then if 2 <=? S consecutive_empty
            then (Returned jobs, w ++ [Request (GET api_url)])
            else json_pages server tenant template pagination_param page_size_param
                            page_size (S page) (S consecutive_empty) (seen_job_ids t)
                            jobs (w ++ [Request (GET api_url); Sleep])
       else json_pages server tenant template pagination_param page_size_param
                       page_size (S page) 0 (seen_job_ids t) (jobs ++ page_jobs t)
                       (w ++ [Request (GET api_url); Sleep]))
  ∧ (∀ tenant endpoint pagination_param page_size_param page_size
       page consecutive_empty seen jobs w elems,
       let url := html_page_url endpoint pagination_param page_size_param
                                (Z.of_nat page * page_size)%Z page_size in
       let t := tally_page (λ job_elem, parse_job_from_listing job_elem endpoint tenant)
                           seen elems in
       page < MAX_PAGES_PER_SITE →
       html_elements (server (requests_in w) (GET url)) = Some elems →
       duplicate_flood (page_duplicates t) (length elems) = false →
       html_pages server tenant endpoint pagination_param page_size_param page_size
                  page consecutive_empty seen jobs w
       = if page_new_jobs t =? 0
         then if 2 <=? S consecutive_empty
              then (jobs, w ++ [Request (GET url)])
              else html_pages server tenant endpoint pagination_param page_size_param
                              page_size (S page) (S consecutive_empty) (seen_job_ids t)
                              jobs (w ++ [Request (GET url); Sleep])
         else html_pages server tenant endpoint pagination_param page_size_param
                         page_size (S page) 0 (seen_job_ids t) (jobs ++ page_jobs t)
                         (w ++ [Request (GET url); Sleep]))
  ∧ (∀ tenant template pagination_param page_size_param page_size w items u0 u1 u2,
       let parse := λ job_obj, parse_job_from_json job_obj tenant (json_base_url u0) in
       json_page_url template pagination_param page_size_param 0 page_size = Some u0 →
       json_page_url template pagination_param page_size_param (1 * page_size) page_size
         = Some u1 →
       json_page_url template pagination_param page_size_param (2 * page_size) page_size
         = Some u2 →
       json_items (server (requests_in w) (GET u0)) = Some items →
       length items = 5 →
       page_new_jobs (tally_page parse ∅ items) = 5 →
       json_items (server (requests_in w + 1) (GET u1)) = Some [] →
       json_items (server (requests_in w + 2) (GET u2)) = Some [] →
       length (page_jobs (tally_page parse ∅ items)) = 5
       ∧ scrape_via_json_api server tenant template pagination_param page_size_param
                             page_size w
         = (Returned (page_jobs (tally_page parse ∅ items)),
            w ++ [Request (GET u0); Sleep; Request (GET u1); Sleep;
                  Request (GET u2)]))
  ∧ (∀ tenant endpoint pagination_param page_size_param page_size w elems,
       let parse := λ job_elem, parse_job_from_listing job_elem endpoint tenant in
       let url k := html_page_url endpoint pagination_param page_size_param
                                  (Z.of_nat k * page_size)%Z page_size in
       html_elements (server (requests_in w) (GET (url 0))) = Some elems →
       length elems = 5 →
       page_new_jobs (tally_page parse ∅ elems) = 5 →
       html_elements (server (requests_in w + 1) (GET (url 1))) = Some [] →
       html_elements (server (requests_in w + 2) (GET (url 2))) = Some [] →
       length (page_jobs (tally_page parse ∅ elems)) = 5
       ∧ scrape_via_html_parsing server tenant endpoint pagination_param
                                 page_size_param page_size w
         = (page_jobs (tally_page parse ∅ elems),
            w ++ [Request (GET (url 0)); Sleep; Request (GET (url 1)); Sleep;
                  Request (GET (url 2))])).
Proof.
  split; [|split; [|split]].
  - intros. eapply json_counter_step; eassumption.
  - intros. eapply html_counter_step; eassumption.
  - intros. eapply json_five_then_empty; eassumption.
  - intros. eapply html_five_then_empty; eassumption.
Qed.
End Emptiness.

(** C7 at the two sample sources with five jobs on the first page and
    nothing afterwards. *)
Lemma empty_pages_stop_extraction_instance :
  (let parse := λ job_obj, parse_job_from_json (H := Demo.lib) job_obj
                             "acme.avature.net"
                             (json_base_url "https://acme.avature.net/api/jobs?offset=0&limit=10") in
   length (page_jobs (tally_page parse ∅ (Demo.job_obj <$> Demo.five))) = 5
   ∧ scrape_via_json_api (H := Demo.lib) Demo.five_then_empty_json "acme.avature.net"
       Demo.api_template "offset" "limit" 10 []
     = (Returned (page_jobs (tally_page parse ∅ (Demo.job_obj <$> Demo.five))),
        [] ++ [Request (GET "https://acme.avature.net/api/jobs?offset=0&limit=10"); Sleep;
               Request (GET "https://acme.avature.net/api/jobs?offset=10&limit=10"); Sleep;
               Request (GET "https://acme.avature.net/api/jobs?offset=20&limit=10")]))
  ∧ (let parse := λ job_elem, parse_job_from_listing (H := Demo.lib) job_elem
                                Demo.listing_endpoint "acme.avature.net" in
     let url k := html_page_url Demo.listing_endpoint "jobOffset" "jobRecords"
                                (Z.of_nat k * 10)%Z 10 in
     length (page_jobs (tally_page parse ∅ (Demo.job_elem <$> Demo.five))) = 5
     ∧ scrape_via_html_parsing (H := Demo.lib) Demo.five_then_empty_html
         "acme.avature.net" Demo.listing_endpoint "jobOffset" "jobRecords" 10 []
       = (page_jobs (tally_page parse ∅ (Demo.job_elem <$> Demo.five)),
          [] ++ [Request (GET (url 0)); Sleep; Request (GET (url 1)); Sleep;
                 Request (GET (url 2))])).
Proof.
  split.
  - apply (proj1 (proj2 (proj2
      (@empty_pages_stop_extraction Demo.lib Demo.five_then_empty_json)))
      "acme.avature.net" Demo.api_template "offset" "limit" 10%Z []
      (Demo.job_obj <$> Demo.five)
      "https://acme.avature.net/api/jobs?offset=0&limit=10"
      "https://acme.avature.net/api/jobs?offset=10&limit=10"
      "https://acme.avature.net/api/jobs?offset=20&limit=10");
      by vm_compute.
  - apply (proj2 (proj2 (proj2
      (@empty_pages_stop_extraction Demo.lib Demo.five_then_empty_html)))
      "acme.avature.net" Demo.listing_endpoint "jobOffset" "jobRecords" 10%Z []
      (Demo.job_elem <$> Demo.five));
      by vm_compute.
Defined.

(** * Further properties of the code *)

(** ** [clean_text] *)

Lemma string_rev_app_acc (s t : string) : String.rev_app s t = String.rev s +:+ t.
Proof.
  unfold String.rev. revert t.
  induction s as [|c s IH]; intros t; cbn [String.rev_app].
  - by rewrite string_app_nil_l.
  - rewrite (IH (String c "")), IH, string_app_assoc.
    by rewrite string_app_cons, string_app_nil_l.
Qed.

Lemma string_rev_cons (c : ascii) (s : string) :
  String.rev (String c s) = String.rev s +:+ String c "".
Proof. unfold String.rev at 1. cbn [String.rev_app]. apply string_rev_app_acc. Qed.

Lemma string_rev_app (a b : string) :
  String.rev (a +:+ b) = String.rev b +:+ String.rev a.
Proof.
  induction a as [|c a IH].
  - by rewrite string_app_nil_l, string_app_nil_r.
  - by rewrite string_app_cons, !string_rev_cons, IH, string_app_assoc.
Qed.

Lemma string_rev_involutive (s : string) : String.rev (String.rev s) = s.
Proof.
  induction s as [|c s IH]; [done|].
  rewrite string_rev_cons, string_rev_app, IH.
  change (String.rev (String c "")) with (String c "").
  by rewrite string_app_cons, string_app_nil_l.
Qed.

Lemma lstrip_split (s : string) :
  ∃ p, s = p +:+ Text.lstrip s ∧ Text.all Text.is_space p = true.
Proof.
  induction s as [|c s [p [IH1 IH2]]].
  - by exists "".
  - cbn [Text.lstrip]. destruct (Text.is_space c) eqn:Hc.
    + exists (String c p). rewrite string_app_cons, <- IH1.
      split; [done|]. cbn [Text.all]. by rewrite Hc, IH2.
    + exists "". by rewrite string_app_nil_l.
Qed.

Lemma lstrip_head (s : string) : head_in Text.is_space (Text.lstrip s) = false.
Proof.
  induction s as [|c s IH]; [done|].
  cbn [Text.lstrip]. destruct (Text.is_space c) eqn:Hc; [done|].
  cbn [head_in]. done.
Qed.

Lemma lstrip_fixed (s : string) :
  head_in Text.is_space s = false → Text.lstrip s = s.
Proof. destruct s as [|c s]; [done|]. cbn [head_in Text.lstrip]. by intros ->. Qed.

Lemma text_all_app (p : ascii → bool) (a b : string) :
  Text.all p (a +:+ b) = Text.all p a && Text.all p b.
Proof.
  induction a as [|c a IH]; [by rewrite string_app_nil_l|].
  rewrite string_app_cons. cbn [Text.all]. by rewrite IH, andb_assoc.
Qed.

Lemma text_all_rev (p : ascii → bool) (s : string) :
  Text.all p (String.rev s) = Text.all p s.
Proof.
  induction s as [|c s IH]; [done|].
  rewrite string_rev_cons, text_all_app, IH. cbn [Text.all].
  by rewrite andb_true_r, andb_comm.
Qed.

(** [strip] removes a run of white space at either end, and all of it. *)
Lemma strip_split (s : string) :
  ∃ p q, s = p +:+ Text.strip s +:+ q
         ∧ Text.all Text.is_space p = true
         ∧ Text.all Text.is_space q = true
         ∧ head_in Text.is_space (Text.strip s) = false
         ∧ head_in Text.is_space (String.rev (Text.strip s)) = false.
Proof.
  unfold Text.strip.
  destruct (lstrip_split s) as [p [Hs Hp]].
  destruct (lstrip_split (String.rev (Text.lstrip s))) as [q [Hr Hq]].
  set (y := Text.lstrip (String.rev (Text.lstrip s))) in *.
  assert (Hl : Text.lstrip s = String.rev y +:+ String.rev q).
  { by rewrite <- string_rev_app, <- Hr, string_rev_involutive. }
  exists p, (String.rev q). split; [by rewrite <- Hl|].
  split; [done|]. split; [by rewrite text_all_rev|].
  split.
  - pose proof (lstrip_head s) as Hh. rewrite Hl in Hh.
    destruct (String.rev y) as [|c r]; [done|].
    by rewrite string_app_cons in Hh.
  - rewrite string_rev_involutive. apply lstrip_head.
Qed.

Lemma strip_fixed (s : string) :
  head_in Text.is_space s = false →
  head_in Text.is_space (String.rev s) = false →
  Text.strip s = s.
Proof.
  intros H1 H2. unfold Text.strip.
  by rewrite (lstrip_fixed s H1), (lstrip_fixed _ H2), string_rev_involutive.
Qed.

Lemma single_spaced_weaken (prev : bool) (s : string) :
  single_spaced prev s = true → single_spaced false s = true.
Proof.
  destruct s as [|c s]; [done|]. cbn [single_spaced].
  destruct (Text.is_space c); [|done].
  destruct prev; [|done]. by rewrite andb_false_r.
Qed.

Lemma single_spaced_suffix (prev : bool) (p s : string) :
  single_spaced prev (p +:+ s) = true → single_spaced false s = true.
Proof.
  revert prev. induction p as [|c p IH]; intros prev.
  - rewrite string_app_nil_l. apply single_spaced_weaken.
  - rewrite string_app_cons. cbn [single_spaced].
    destruct (Text.is_space c).
    + intros [_ Hs]%andb_prop. by eapply IH.
    + apply IH.
Qed.

Lemma single_spaced_prefix (prev : bool) (s q : string) :
  single_spaced prev (s +:+ q) = true → single_spaced prev s = true.
Proof.
  revert prev. induction s as [|c s IH]; intros prev; [done|].
  rewrite string_app_cons. cbn [single_spaced].
  destruct (Text.is_space c).
  - intros [-> Hs]%andb_prop. by rewrite (IH _ Hs).
  - apply IH.
Qed.

Lemma collapse_spaces_single_spaced (in_run : bool) (s : string) :
  single_spaced in_run (Text.collapse_spaces in_run s) = true.
Proof.
  revert in_run. induction s as [|c s IH]; intros in_run; [done|].
  cbn [Text.collapse_spaces]. destruct (Text.is_space c) eqn:Hc.
  - destruct in_run; [apply IH|].
    cbn [single_spaced]. by rewrite IH.
  - cbn [single_spaced]. by rewrite Hc, IH.
Qed.

Lemma collapse_spaces_fixed (prev : bool) (s : string) :
  single_spaced prev s = true → Text.collapse_spaces prev s = s.
Proof.
  revert prev. induction s as [|c s IH]; intros prev; [done|].
  cbn [single_spaced Text.collapse_spaces].
  destruct (Text.is_space c).
  - intros [[Hc Hp]%andb_prop Hs]%andb_prop.
    apply negb_true_iff in Hp as ->. apply Ascii.eqb_eq in Hc as ->.
    by rewrite (IH _ Hs).
  - intros Hs. by rewrite (IH _ Hs).
Qed.

Lemma text_filter_app (p : ascii → bool) (a b : string) :
  Text.filter p (a +:+ b) = Text.filter p a +:+ Text.filter p b.
Proof.
  induction a as [|c a IH]; [by rewrite !string_app_nil_l|].
  rewrite string_app_cons. cbn [Text.filter].
  destruct (p c); [|done]. by rewrite string_app_cons, IH.
Qed.

Lemma filter_not_space_spaces (s : string) :
  Text.all Text.is_space s = true → Text.filter not_space s = "".
Proof.
  induction s as [|c s IH]; [done|]. cbn [Text.all Text.filter].
  intros [Hc Hs]%andb_prop. unfold not_space at 1. by rewrite Hc, IH.
Qed.

Lemma collapse_spaces_keeps_text (in_run : bool) (s : string) :
  Text.filter not_space (Text.collapse_spaces in_run s) = Text.filter not_space s.
Proof.
  revert in_run. induction s as [|c s IH]; intros in_run; [done|].
  cbn [Text.collapse_spaces Text.filter]. unfold not_space at 2.
  destruct (Text.is_space c) eqn:Hc; cbn [negb].
  - destruct in_run; [apply IH|]. cbn [Text.filter]. apply IH.
  - cbn [Text.filter]. unfold not_space at 1. by rewrite Hc, IH.
Qed.

Lemma lstrip_spaces (p z : string) :
  Text.all Text.is_space p = true → Text.lstrip (p +:+ z) = Text.lstrip z.
Proof.
  induction p as [|c p IH]; [by rewrite string_app_nil_l|].
  cbn [Text.all]. intros [Hc Hp]%andb_prop.
  rewrite string_app_cons. cbn [Text.lstrip]. rewrite Hc. by apply IH.
Qed.

Lemma head_in_app (cls : ascii → bool) (x z : string) :
  x ≠ "" → head_in cls (x +:+ z) = head_in cls x.
Proof. destruct x as [|c x]; [done|]. intros _. by rewrite string_app_cons. Qed.

Lemma string_rev_nonempty (x : string) : x ≠ "" → String.rev x ≠ "".
Proof. intros Hx Hr. apply Hx. by rewrite <- (string_rev_involutive x), Hr. Qed.

(** [strip] gives back a text without white space at its ends from
    between two runs of white space. *)
Lemma strip_unique (p y q : string) :
  Text.all Text.is_space p = true →
  Text.all Text.is_space q = true →
  head_in Text.is_space y = false →
  head_in Text.is_space (String.rev y) = false →
  Text.strip (p +:+ y +:+ q) = y.
Proof.
  intros Hp Hq Hhead Hlast. unfold Text.strip. rewrite (lstrip_spaces p _ Hp).
  destruct (decide (y = "")) as [->|Hy].
  - change ("" +:+ q) with q.
    rewrite <- (string_app_nil_r q), (lstrip_spaces q "" Hq). done.
  - rewrite (lstrip_fixed (y +:+ q)) by (by rewrite head_in_app).
    rewrite string_rev_app, lstrip_spaces by (by rewrite text_all_rev).
    by rewrite (lstrip_fixed _ Hlast), string_rev_involutive.
Qed.

Lemma words_head (s : string) :
  head_in not_space s = true → ∃ w ws, words s = w :: ws.
Proof.
  destruct s as [|c s]; [done|]. cbn [head_in words]. unfold not_space at 1.
  destruct (Text.is_space c); [done|]. intros _.
  destruct (head_in not_space s); [|by eexists _, _].
  destruct (words s); by eexists _, _.
Qed.

Lemma words_nil_head (s : string) :
  head_in not_space s = false → words s ≠ [] → head_in Text.is_space s = true.
Proof.
  destruct s as [|c s]; [done|]. cbn [head_in]. unfold not_space.
  by destruct (Text.is_space c).
Qed.

Lemma concat_extend (sep : string) (c : ascii) (w : string) (ws : list string) :
  String.concat sep (String c w :: ws) = String c (String.concat sep (w :: ws)).
Proof. destruct ws; [done|]. cbn [String.concat]. by rewrite string_app_cons. Qed.

Lemma words_ok (s : string) :
  Forall (λ w, w ≠ "" ∧ Text.all not_space w = true) (words s).
Proof.
  induction s as [|c s IH]; [constructor|]. cbn [words].
  destruct (Text.is_space c) eqn:Hc; [done|].
  assert (Hnot : not_space c = true) by (unfold not_space; by rewrite Hc).
  destruct (head_in not_space s).
  - destruct (words s) as [|w ws].
    + apply Forall_singleton. split; [done|]. cbn [Text.all]. by rewrite Hnot.
    + apply Forall_cons in IH as [[_ Hw] Hws]. apply Forall_cons. split; [|done].
      split; [done|]. cbn [Text.all]. by rewrite Hnot, Hw.
  - apply Forall_cons. split; [|done].
    split; [done|]. cbn [Text.all]. by rewrite Hnot.
Qed.

(** The words hold the characters of the text that are not white space,
    and nothing else. *)
Lemma words_concat (s : string) :
  String.concat "" (words s) = Text.filter not_space s.
Proof.
  induction s as [|c s IH]; [done|]. cbn [words Text.filter]. unfold not_space at 2.
  destruct (Text.is_space c) eqn:Hc; cbn [negb]; [done|].
  destruct (head_in not_space s) eqn:Hhead.
  - destruct (words_head s Hhead) as (w & ws & Hw). rewrite Hw in *.
    by rewrite concat_extend, IH.
  - rewrite <- IH. destruct (words s); [done|]. cbn [String.concat].
    by rewrite string_app_cons, !string_app_nil_l.
Qed.

Lemma not_space_head (y : string) :
  Text.all not_space y = true → head_in Text.is_space y = false.
Proof.
  destruct y as [|c y]; [done|]. cbn [Text.all head_in]. unfold not_space at 1.
  by destruct (Text.is_space c).
Qed.

Lemma concat_words_nonempty (x : string) (l : list string) :
  x ≠ "" → String.concat " " (x :: l) ≠ "".
Proof.
  intros Hx. destruct l; [done|]. cbn [String.concat].
  destruct x; [done|]. by rewrite string_app_cons.
Qed.

Lemma concat_words_trimmed (l : list string) :
  Forall (λ w, w ≠ "" ∧ Text.all not_space w = true) l →
  head_in Text.is_space (String.concat " " l) = false
  ∧ head_in Text.is_space (String.rev (String.concat " " l)) = false.
Proof.
  induction l as [|x l IH]; [done|].
  intros [[Hx Hall] Hl]%Forall_cons. destruct l as [|y l].
  - cbn [String.concat]. split; [by apply not_space_head|].
    apply not_space_head. by rewrite text_all_rev.
  - change (String.concat " " (x :: y :: l))
      with (x +:+ " " +:+ String.concat " " (y :: l)).
    destruct (IH Hl) as [_ IHlast]. split.
    + rewrite head_in_app by done. by apply not_space_head.
    + rewrite !string_rev_app, string_app_assoc. rewrite head_in_app; [done|].
      apply string_rev_nonempty, concat_words_nonempty.
      by apply Forall_cons in Hl as [[? _] _].
Qed.

(** [re.sub(r"\s+", " ", s)] keeps the words of [s], puts one space
    between two of them, one in front when [s] starts with white space
    (none when the run has begun before [s]), and at most one behind. *)
Lemma collapse_spaces_words (in_run : bool) (s : string) :
  ∃ q, Text.collapse_spaces in_run s
       = (if head_in Text.is_space s && negb in_run then " " else "")
           +:+ String.concat " " (words s) +:+ q
       ∧ Text.all Text.is_space q = true.
Proof.
  revert in_run. induction s as [|c s IH]; intros in_run.
  { by exists "". }
  cbn [Text.collapse_spaces words head_in]. destruct (Text.is_space c) eqn:Hc.
  - destruct (IH true) as (q & Hq & Hspace). exists q. split; [|done].
    rewrite andb_false_r, string_app_nil_l in Hq. cbn [andb].
    destruct in_run; cbn [negb]; rewrite Hq; [by rewrite string_app_nil_l|].
    by rewrite string_app_cons, string_app_nil_l.
  - cbn [andb].
    destruct (IH false) as (q & Hq & Hspace). rewrite andb_true_r in Hq.
    destruct (head_in not_space s) eqn:Hhead.
    + destruct (words_head s Hhead) as (w & ws & Hw). rewrite Hw in *.
      assert (Hnot : head_in Text.is_space s = false).
      { destruct s as [|c' s']; [done|]. cbn [head_in] in *. unfold not_space in Hhead.
        by destruct (Text.is_space c'). }
      exists q. split; [|done].
      rewrite Hq, Hnot, !string_app_nil_l, concat_extend.
      by rewrite string_app_cons.
    + destruct (words s) as [|x xs] eqn:Hw.
      * exists ((if head_in Text.is_space s then " " else "") +:+ q). split.
        -- rewrite Hq. cbn [String.concat].
           by rewrite !string_app_nil_l, string_app_cons, string_app_nil_l.
        -- rewrite text_all_app, Hspace. by destruct (head_in Text.is_space s).
      * exists q. split; [|done].
        rewrite Hq, (words_nil_head s Hhead) by (by rewrite Hw).
        change (String.concat " " (String c "" :: x :: xs))
          with (String c "" +:+ " " +:+ String.concat " " (x :: xs)).
        by rewrite !string_app_cons, !string_app_nil_l.
Qed.

(** X1.  [clean_text] returns the words of its text (the maximal runs of
    characters that are not white space) in their order, with one space
    between two of them and nothing else: every run of white space
    inside the text is replaced by one space, and the white space at
    either end is removed.  So the only white-space character of the
    result is the space, no two spaces are adjacent, the result neither
    starts nor ends with one, the other characters are those of the
    argument in their order, and cleaning a cleaned text changes
    nothing. *)
Theorem clean_text_normal_form (text : string) :
  let cleaned := clean_text text in
  cleaned = Text.join " " (words text)
  ∧ Forall (λ w, w ≠ "" ∧ Text.all not_space w = true) (words text)
  ∧ String.concat "" (words text) = Text.filter not_space text
  ∧ single_spaced false cleaned = true
  ∧ head_in Text.is_space cleaned = false
  ∧ head_in Text.is_space (String.rev cleaned) = false
  ∧ Text.filter not_space cleaned = Text.filter not_space text
  ∧ clean_text cleaned = cleaned.
Proof.
  assert (Hform : ∀ s, single_spaced false s = true →
                       head_in Text.is_space s = false →
                       head_in Text.is_space (String.rev s) = false →
                       clean_text s = s).
  { intros s H1 H2 H3. unfold clean_text.
    destruct (String.eqb_spec s "") as [->|_]; [done|].
    by rewrite (collapse_spaces_fixed _ _ H1), (strip_fixed _ H2 H3). }
  split; [|split; [apply words_ok|split; [apply words_concat|]]].
  { unfold clean_text, Text.join.
    destruct (String.eqb_spec text "") as [->|_]; [done|].
    destruct (collapse_spaces_words false text) as (q & -> & Hq).
    destruct (concat_words_trimmed (words text) (words_ok text)) as [Hhead Hlast].
    apply strip_unique; [by destruct (_ && _)|done..]. }
  unfold clean_text. destruct (String.eqb_spec text "") as [->|_]; [done|].
  cbv zeta.
  set (c := Text.collapse_spaces false text).
  destruct (strip_split c) as [p [q (Hc & Hp & Hq & Hhead & Hlast)]].
  assert (Hss : single_spaced false (Text.strip c) = true).
  { pose proof (collapse_spaces_single_spaced false text) as Hs.
    fold c in Hs. rewrite Hc in Hs.
    apply single_spaced_suffix in Hs. by apply single_spaced_prefix in Hs. }
  do 3 (split; [done|]). split.
  - rewrite <- (collapse_spaces_keeps_text false text). fold c.
    rewrite Hc at 2. rewrite !text_filter_app.
    rewrite (filter_not_space_spaces _ Hp), (filter_not_space_spaces _ Hq).
    by rewrite string_app_nil_l, string_app_nil_r.
  - by apply Hform.
Qed.

(** ** The normalisers *)

(** X2.  An identifier [extract_job_id_from_url] returns is a non-empty
    run of digits that stands in the URL. *)
Theorem extracted_job_id_is_a_digit_run_of_the_url (url : option string) (g : string) :
  extract_job_id_from_url url = Some g →
  g ≠ "" ∧ Text.all Text.is_digit g = true
  ∧ ∃ u pre post, url = Some u ∧ u = pre +:+ g +:+ post.
Proof.
  destruct url as [u|]; [|done].
  assert (Hmatch : ∀ prefix m, 0 < m → leftmost_match prefix m u g →
            g ≠ "" ∧ Text.all Text.is_digit g = true
            ∧ ∃ u' pre post, Some u = Some u' ∧ u' = pre +:+ g +:+ post).
  { intros prefix m Hm (pre & (post & Hu & Hdigits & Hlen & _) & _).
    split; [by destruct g; [simpl in Hlen; lia|]|]. split; [done|].
    exists u, (pre +:+ prefix), post. split; [done|].
    by rewrite string_app_assoc. }
  rewrite extract_job_id_from_url_order.
  destruct (Re.search [Re.Lit "/"; _] u) as [g1|] eqn:H1.
  { intros [= ->]. apply (Hmatch "/" 4); [lia|].
    by apply search_prefix_digits_Some. }
  destruct (Re.search [Re.Lit "jobId="; _] u) as [g2|] eqn:H2.
  { intros [= ->]. apply (Hmatch "jobId=" 1); [lia|].
    by apply search_prefix_digits_Some. }
  intros H3. apply (Hmatch "id=" 1); [lia|].
  by apply search_prefix_digits_Some.
Qed.

Lemma extracted_job_id_is_a_digit_run_of_the_url_instance :
  "98765" ≠ "" ∧ Text.all Text.is_digit "98765" = true
  ∧ ∃ u pre post,
      Some "https://acme.avature.net/careers/JobDetail/Welder/98765?jobId=3" = Some u
      ∧ u = pre +:+ "98765" +:+ post.
Proof.
  apply (extracted_job_id_is_a_digit_run_of_the_url
           (Some "https://acme.avature.net/careers/JobDetail/Welder/98765?jobId=3")).
  vm_compute. reflexivity.
Defined.

Section Normalisers.
Context `{PyLib}.

Lemma parse_job_from_listing_titled
    (job_elem : Tag) (base_url tenant : string) (r : JobRecord) :
  parse_job_from_listing job_elem base_url tenant = Some r →
  Job.tenant r = tenant ∧ truthy (Job.job_title r) = true
  ∧ (∃ title, Job.job_title r = VStr title)
  ∧ is_Some (Job.job_url r).
Proof.
  unfold parse_job_from_listing.
  destruct (tag_link job_elem) as [[link_text href]|]; [|done].
  destruct (urljoin base_url href) as [job_url|]; [|done].
  destruct (truthy (VStr (clean_text link_text))) eqn:Htitle; [|done].
  intros [= <-]. cbn. split; [done|]. split; [done|]. split; by eexists.
Qed.

Lemma parse_job_from_json_titled
    (job_obj : value) (tenant base_url : string) (r : JobRecord) :
  parse_job_from_json job_obj tenant base_url = Some r →
  Job.tenant r = tenant ∧ truthy (Job.job_title r) = true.
Proof.
  destruct job_obj as [| | | | | |d]; try done.
  unfold parse_job_from_json.
  set (job_title := dict_get d "title" <or> dict_get d "jobTitle"
                      <or> dict_get d "positionTitle" <or> dict_get d "name").
  destruct (if truthy _ then _ else Some None) as [job_url|]; [|done].
  destruct (truthy job_title) eqn:Htitle; [|done].
  by intros [= <-].
Qed.

(** X3.  [parse_job_from_listing] makes a record of a listing element
    exactly when the element has a link whose target can be joined to
    the base URL and whose cleaned text is not empty.  The record carries
    the tenant it was given, that cleaned text as its title and the
    joined target as its URL; it never has a posting date or a
    description. *)
Theorem listing_record_needs_a_titled_link
    (job_elem : Tag) (base_url tenant : string) :
  match parse_job_from_listing job_elem base_url tenant with
  | Some r =>
      ∃ link_text href job_url,
        tag_link job_elem = Some (link_text, href)
        ∧ urljoin base_url href = Some job_url
        ∧ clean_text link_text ≠ ""
        ∧ Job.job_title r = VStr (clean_text link_text)
        ∧ Job.job_url r = Some job_url
        ∧ Job.tenant r = tenant
        ∧ Job.date_posted r = None
        ∧ Job.job_description r = VNone
  | None =>
      match tag_link job_elem with
      | Some (link_text, href) =>
          urljoin base_url href = None ∨ clean_text link_text = ""
      | None => True
      end
  end.
Proof.
  unfold parse_job_from_listing.
  destruct (tag_link job_elem) as [[link_text href]|]; [|done].
  destruct (urljoin base_url href) as [job_url|] eqn:Hjoin; [|by left].
  cbn [truthy]. destruct (String.eqb_spec (clean_text link_text) "") as [Hc|Hc].
  - by right.
  - cbn [negb]. by exists link_text, href, job_url.
Qed.

(** X4.  A record [parse_job_from_json] makes comes from a dict and
    carries the tenant it was given.  Its title is the first true value
    among [title], [jobTitle], [positionTitle] and [name]; its identifier
    and posting date are the texts of the first true value among their
    aliases.  It has a job URL exactly when it has an identifier, and a
    record with an identifier has a text as its title. *)
Theorem json_record_fields
    (job_obj : value) (tenant base_url : string) (r : JobRecord) :
  parse_job_from_json job_obj tenant base_url = Some r →
  ∃ d, job_obj = VDict d
    ∧ Job.tenant r = tenant
    ∧ List.find truthy (dict_get d <$> ["title"; "jobTitle"; "positionTitle"; "name"])
      = Some (Job.job_title r)
    ∧ Job.job_id r
      = py_str <$> List.find truthy
          (dict_get d <$> ["id"; "jobId"; "Id"; "requisitionId"; "positionId"])
    ∧ Job.date_posted r
      = py_str <$> List.find truthy
          (dict_get d <$> ["postedDate"; "datePosted"; "createdDate"])
    ∧ (is_Some (Job.job_url r) ↔ is_Some (Job.job_id r))
    ∧ (is_Some (Job.job_id r) → ∃ title, Job.job_title r = VStr title).
Proof.
  destruct job_obj as [| | | | | |d]; try done.
  intros Hparse. exists d. split; [done|]. revert Hparse.
  unfold parse_job_from_json.
  change (fmap (dict_get d) ["title"; "jobTitle"; "positionTitle"; "name"])
    with (dict_get d "title"
            :: [dict_get d "jobTitle"; dict_get d "positionTitle"; dict_get d "name"]).
  change (fmap (dict_get d) ["id"; "jobId"; "Id"; "requisitionId"; "positionId"])
    with (dict_get d "id"
            :: [dict_get d "jobId"; dict_get d "Id"; dict_get d "requisitionId";
                dict_get d "positionId"]).
  change (fmap (dict_get d) ["postedDate"; "datePosted"; "createdDate"])
    with (dict_get d "postedDate" :: [dict_get d "datePosted"; dict_get d "createdDate"]).
  rewrite !py_or_chain_find. cbn [foldl].
  set (job_id := dict_get d "id" <or> dict_get d "jobId" <or> dict_get d "Id"
                   <or> dict_get d "requisitionId" <or> dict_get d "positionId").
  set (job_title := dict_get d "title" <or> dict_get d "jobTitle"
                      <or> dict_get d "positionTitle" <or> dict_get d "name").
  set (date_posted := dict_get d "postedDate" <or> dict_get d "datePosted"
                        <or> dict_get d "createdDate").
  destruct (truthy job_id) eqn:Hid.
  - destruct (title_slug job_title) as [slug|] eqn:Hslug; [|done].
    rewrite resolve_url_find. cbn [List.find].
    assert (Hsynth : truthy (VStr (base_url +:+ "/JobDetail/" +:+ slug +:+ "/"
                                     +:+ py_str job_id)) = true).
    { simpl. apply negb_true_iff, String.eqb_neq. by apply string_app_nonempty. }
    rewrite Hsynth.
    set (synth := base_url +:+ "/JobDetail/" +:+ slug +:+ "/" +:+ py_str job_id).
    assert (Hresolved : ∀ u rest,
      match Some <$> stored_url base_url u with
      | Some job_url =>
          if truthy job_title
          then Some (Job.make tenant job_title job_url (Some (py_str job_id))
                              rest.1
                              (if truthy date_posted
                               then Some (py_str date_posted) else None)
                              rest.2)
          else None
      | None => None
      end = Some r →
      Job.tenant r = tenant
      ∧ (if truthy job_title then Some job_title else None) = Some (Job.job_title r)
      ∧ Job.job_id r = py_str <$> Some job_id
      ∧ Job.date_posted r
        = py_str <$> (if truthy date_posted then Some date_posted else None)
      ∧ (is_Some (Job.job_url r) ↔ is_Some (Job.job_id r))
      ∧ (is_Some (Job.job_id r) → ∃ title, Job.job_title r = VStr title)).
    { intros u rest. destruct (stored_url base_url u) as [job_url|]; [|done].
      cbn [fmap option_fmap option_map].
      destruct (truthy job_title) eqn:Htitle; [|done].
      destruct (title_slug_Some _ _ Htitle Hslug) as (title & Ht & _).
      intros [= <-]. cbn. do 3 (split; [done|]).
      split; [by destruct (truthy date_posted)|].
      split; [by split; eauto|]. intros _. by exists title. }
    destruct (truthy (dict_get d "url"));
      [|destruct (truthy (dict_get d "jobUrl"));
        [|destruct (truthy (dict_get d "applyUrl"))]].
    + destruct (dict_get d "url") as [| | | |u| |];
        try (by destruct (truthy job_title)).
      apply (Hresolved u (_, _)).
    + destruct (dict_get d "jobUrl") as [| | | |u| |];
        try (by destruct (truthy job_title)).
      apply (Hresolved u (_, _)).
    + destruct (dict_get d "applyUrl") as [| | | |u| |];
        try (by destruct (truthy job_title)).
      apply (Hresolved u (_, _)).
    + apply (Hresolved synth (_, _)).
  - destruct (truthy job_title) eqn:Htitle; [|done].
    intros [= <-]. cbn. split; [done|]. split; [done|]. split; [done|].
    split; [by destruct (truthy date_posted)|].
    split; [|by intros [? [=]]].
    split; by intros [? [=]].
Qed.


End Normalisers.

Lemma json_record_fields_instance :
  ∃ d, Demo.site_engineer = VDict d
    ∧ Job.tenant Demo.site_engineer_record = "acme.avature.net"
    ∧ List.find truthy (dict_get d <$> ["title"; "jobTitle"; "positionTitle"; "name"])
      = Some (Job.job_title Demo.site_engineer_record)
    ∧ Job.job_id Demo.site_engineer_record
      = py_str (H := Demo.lib) <$> List.find truthy
          (dict_get d <$> ["id"; "jobId"; "Id"; "requisitionId"; "positionId"])
    ∧ Job.date_posted Demo.site_engineer_record
      = py_str (H := Demo.lib) <$> List.find truthy
          (dict_get d <$> ["postedDate"; "datePosted"; "createdDate"])
    ∧ (is_Some (Job.job_url Demo.site_engineer_record)
       ↔ is_Some (Job.job_id Demo.site_engineer_record))
    ∧ (is_Some (Job.job_id Demo.site_engineer_record)
       → ∃ title, Job.job_title Demo.site_engineer_record = VStr title).
Proof.
  exact (@json_record_fields Demo.lib Demo.site_engineer "acme.avature.net"
           "https://acme.avature.net/careers" Demo.site_engineer_record eq_refl).
Defined.


(** ** [find_job_elements] *)

Lemma collect_link_parents_spec (links : list (Tag * option Tag)) (acc : list Tag) :
  NoDup acc →
  ∃ added,
    collect_link_parents links acc = acc ++ added
    ∧ NoDup (acc ++ added)
    ∧ length added ≤ length links
    ∧ (∀ e, e ∈ added →
         ∃ link parent, (link, parent) ∈ links ∧ (parent = Some e ∨ e = link))
    ∧ (∀ link parent, (link, parent) ∈ links →
         link ∈ acc ++ added ∨ ∃ p, parent = Some p ∧ p ∈ acc ++ added)
    ∧ (links ≠ [] → acc ++ added ≠ []).
Proof.
  revert acc. induction links as [|[link parent] links IH]; intros acc Hacc.
  { exists []. rewrite app_nil_r. cbn [collect_link_parents].
    repeat split; try done.
    - intros e He. by apply elem_of_nil in He.
    - intros l p Hl. by apply elem_of_nil in Hl. }
  cbn [collect_link_parents].
  set (acc' := match parent with
               | Some p =>
                   if bool_decide (p ∉ acc) then acc ++ [p]
                   else if bool_decide (link ∉ acc) then acc ++ [link] else acc
               | None => if bool_decide (link ∉ acc) then acc ++ [link] else acc
               end).
  assert (Hstep : ∃ new, acc' = acc ++ new ∧ NoDup acc' ∧ length new ≤ 1
                         ∧ (∀ e, e ∈ new → parent = Some e ∨ e = link)
                         ∧ (link ∈ acc' ∨ ∃ p, parent = Some p ∧ p ∈ acc')
                         ∧ acc' ≠ []).
  { assert (Hsnoc : ∀ x, x ∉ acc → NoDup (acc ++ [x])).
    { intros x Hx. apply NoDup_app. split; [done|]. split; [|apply NoDup_singleton].
      intros y Hy ->%list_elem_of_singleton. done. }
    assert (Hne : ∀ x, x ∈ acc → acc ≠ []).
    { intros x Hx ->. by apply elem_of_nil in Hx. }
    subst acc'. destruct parent as [p|].
    - destruct (bool_decide_reflect (p ∉ acc)) as [Hp|Hp].
      + exists [p]. split; [done|]. split; [by apply Hsnoc|]. split; [done|].
        split; [by intros e ->%list_elem_of_singleton; left|].
        split; [right; exists p; split; [done|]; set_solver|].
        by destruct acc.
      + apply dec_stable in Hp.
        destruct (bool_decide_reflect (link ∉ acc)) as [Hl|Hl].
        * exists [link]. split; [done|]. split; [by apply Hsnoc|]. split; [done|].
          split; [by intros e ->%list_elem_of_singleton; right|].
          split; [left; set_solver|]. by destruct acc.
        * exists []. rewrite app_nil_r. split; [done|]. split; [done|].
          split; [simpl; lia|]. split; [by intros e He; apply elem_of_nil in He|].
          split; [right; by exists p|]. by eapply Hne.
    - destruct (bool_decide_reflect (link ∉ acc)) as [Hl|Hl].
      + exists [link]. split; [done|]. split; [by apply Hsnoc|]. split; [done|].
        split; [by intros e ->%list_elem_of_singleton; right|].
        split; [left; set_solver|]. by destruct acc.
      + apply dec_stable in Hl.
        exists []. rewrite app_nil_r. split; [done|]. split; [done|].
        split; [simpl; lia|]. split; [by intros e He; apply elem_of_nil in He|].
        split; [by left|]. by eapply Hne. }
  clearbody acc'.
  destruct Hstep as (new & -> & Hnd & Hlen & Hfrom & Hcover & Hne).
  destruct (IH _ Hnd) as (added & -> & Hnd' & Hlen' & Hfrom' & Hcover' & _).
  exists (new ++ added). rewrite app_assoc.
  split; [done|]. split; [done|].
  split; [rewrite length_app; simpl; lia|].
  split; [|split].
  - intros e [He|He]%elem_of_app.
    + exists link, parent. split; [left|by apply Hfrom].
    + destruct (Hfrom' e He) as (l & p & Hl & Hlp).
      exists l, p. split; [by right|done].
  - intros l p [[= -> ->]|Hl]%elem_of_cons.
    + destruct Hcover as [Hc|(q & -> & Hq)].
      * left. apply elem_of_app. by left.
      * right. exists q. split; [done|]. apply elem_of_app. by left.
    + by apply Hcover'.
  - intros _ Hnil. apply app_eq_nil in Hnil as [Hnil _]. done.
Qed.

(** X6.  When the page has job links, [find_job_elements] returns for
    each link its enclosing element, or the link itself when it has none
    (or when the enclosing element is already taken and the link is
    not): the result is not empty, holds no element twice, has at most
    as many elements as there are links, holds nothing but links and
    enclosing elements, and covers every link.  Only when the page has no
    job link are the class-based searches used, and then the result is
    the first of them that finds anything. *)
Theorem find_job_elements_methods (soup : Soup) :
  let found := find_job_elements soup in
  match job_links soup with
  | _ :: _ =>
      found ≠ [] ∧ NoDup found ∧ length found ≤ length (job_links soup)
      ∧ (∀ e, e ∈ found →
           ∃ link parent, (link, parent) ∈ job_links soup
                          ∧ (parent = Some e ∨ e = link))
      ∧ (∀ link parent, (link, parent) ∈ job_links soup →
           link ∈ found ∨ ∃ p, parent = Some p ∧ p ∈ found)
  | [] =>
      found = match li_items soup, div_items soup, articles soup with
              | _ :: _, _, _ => li_items soup
              | [], _ :: _, _ => div_items soup
              | [], [], _ :: _ => articles soup
              | [], [], [] => tr_items soup
              end
  end.
Proof.
  unfold find_job_elements.
  destruct (job_links soup) as [|l links] eqn:Hlinks.
  - cbn [collect_link_parents Re.first_success].
    destruct (li_items soup); [|done]. destruct (div_items soup); [|done].
    destruct (articles soup); [|done]. by destruct (tr_items soup).
  - destruct (collect_link_parents_spec (l :: links) [] (NoDup_nil_2))
      as (added & Heq & Hnd & Hlen & Hfrom & Hcover & Hne).
    rewrite Heq. rewrite app_nil_l in *.
    destruct added as [|e added]; [by destruct Hne|].
    cbv zeta. split; [done|]. done.
Qed.

(** ** The JSON probe *)

Section Probe.
Context `{PyLib} (server : Server).

Lemma try_urls_spec (urls : list string) (w : trace) :
  ∃ k, k ≤ length urls
    ∧ (try_urls server urls w).2 = w ++ (Request ∘ GET <$> take k urls)
    ∧ (∀ i api_url, i < k - 1 → urls !! i = Some api_url →
         probe_accepts (server (requests_in w + i) (GET api_url)) = None)
    ∧ match (try_urls server urls w).1 with
      | Some (api_url, data) =>
          0 < k ∧ urls !! (k - 1) = Some api_url
          ∧ probe_accepts (server (requests_in w + (k - 1)) (GET api_url)) = Some data
      | None =>
          k = length urls
          ∧ ∀ i api_url, i < k → urls !! i = Some api_url →
              probe_accepts (server (requests_in w + i) (GET api_url)) = None
      end.
Proof.
  revert w. induction urls as [|u urls IH]; intros w.
  { exists 0. simpl. rewrite app_nil_r. split; [done|]. split; [done|].
    split; [intros; lia|]. split; [done|]. intros; lia. }
  cbn [try_urls]. run_unfold.
  destruct (probe_accepts (server (requests_in w) (GET u))) as [data|] eqn:Hprobe.
  - exists 1. cbn. split; [lia|]. split; [done|]. split; [intros; lia|].
    split; [lia|]. split; [done|]. by rewrite Nat.add_0_r.
  - destruct (IH (w ++ [Request (GET u)])) as (k & Hk & Htrace & Hbefore & Hres).
    assert (Hn : requests_in (w ++ [Request (GET u)]) = requests_in w + 1).
    { rewrite requests_in_app. by cbn. }
    rewrite Hn in Hbefore, Hres.
    exists (S k). cbn [length take fmap list_fmap]. split; [lia|].
    split; [by rewrite Htrace, <- app_assoc|].
    split.
    { intros [|i] api_url Hi Hlook.
      - injection Hlook as <-. by rewrite Nat.add_0_r.
      - replace (requests_in w + S i) with (requests_in w + 1 + i) by lia.
        apply Hbefore; [lia|done]. }
    destruct (try_urls server urls _).1 as [[api_url data]|].
    + destruct Hres as (Hpos & Hlook & Hacc). split; [lia|].
      replace (S k - 1) with (S (k - 1)) by lia. cbn [lookup list_lookup].
      split; [done|].
      by replace (requests_in w + S (k - 1)) with (requests_in w + 1 + (k - 1)) by lia.
    + destruct Hres as [-> Hall]. split; [done|].
      intros [|i] api_url Hi Hlook.
      * injection Hlook as <-. by rewrite Nat.add_0_r.
      * replace (requests_in w + S i) with (requests_in w + 1 + i) by lia.
        apply Hall; [cbn [length] in Hi; lia|done].
Qed.

(** X7.  [try_json_api] asks its three URLs in order, one request each,
    without a pause and without the rate limiter, and stops at the first
    answer it accepts: every answer before the last request was refused,
    and no request follows an accepted answer.  The URL it returns is
    the last one asked, and the data returned with it came with status
    200 as the JSON of that answer and is a dict with a [jobs], [items]
    or [results] key or a non-empty list.  It returns nothing exactly
    when all three were asked and all three answers refused.  The tenant
    plays no part. *)
Theorem try_json_api_probes_in_order
    (tenant endpoint : string) (offset limit : Z) (w : trace) :
  let urls := api_urls endpoint offset limit in
  let probe := try_json_api server tenant endpoint offset limit w in
  let answer i api_url := probe_accepts (server (requests_in w + i) (GET api_url)) in
  ∃ k, 1 ≤ k ≤ 3
    ∧ probe.2 = w ++ (Request ∘ GET <$> take k urls)
    ∧ (∀ i api_url, i < k - 1 → urls !! i = Some api_url → answer i api_url = None)
    ∧ match probe.1 with
      | Some (api_url, data) =>
          urls !! (k - 1) = Some api_url
          ∧ answer (k - 1) api_url = Some data
          ∧ looks_like_jobs data = true
          ∧ ∃ response,
              server (requests_in w + (k - 1)) (GET api_url) = Responded response
              ∧ Response.status_code response = 200%Z
              ∧ as_json (Response.body response) = Some data
      | None =>
          k = 3 ∧ ∀ i api_url, urls !! i = Some api_url → answer i api_url = None
      end.
Proof.
  intros urls probe answer. unfold probe, try_json_api. fold urls.
  destruct (try_urls_spec urls w) as (k & Hk & Htrace & Hbefore & Hres).
  exists k. change (length urls) with 3 in *.
  destruct (try_urls server urls w).1 as [[api_url data]|].
  - destruct Hres as (Hpos & Hlook & Hacc). split; [lia|]. split; [done|].
    split; [done|]. split; [done|]. split; [done|].
    unfold probe_accepts in Hacc.
    destruct (server _ _) as [response| |]; [|done..].
    destruct (Z.eqb_spec (Response.status_code response) 200); [|done].
    destruct (as_json _) as [data'|] eqn:Hjson; [|done].
    destruct (looks_like_jobs data') eqn:Hlooks; [|done].
    injection Hacc as <-. split; [done|]. by exists response.
  - destruct Hres as [-> Hall]. split; [lia|]. split; [done|]. split; [done|].
    split; [done|]. intros i api_url Hlook. apply Hall; [|done].
    apply lookup_lt_Some in Hlook. by change (length urls) with 3 in Hlook.
Qed.
End Probe.

(** ** The paginated drivers *)

Lemma tally_fold_Forall {A} (P : JobRecord → Prop) (parse : A → option JobRecord)
    (items : list A) (t : Tally) :
  (∀ item r, parse item = Some r → P r) →
  Forall P (page_jobs t) →
  Forall P (page_jobs (foldl (λ t item, tally_item t (parse item)) t items)).
Proof.
  intros Hparse. revert t. induction items as [|item items IH]; intros t Ht; [done|].
  cbn [foldl]. apply IH. unfold tally_item.
  destruct (parse item) as [r|] eqn:Hr; [|done].
  destruct (_ && _); [done|]. cbn [page_jobs].
  apply Forall_app. split; [done|]. apply Forall_singleton. by eapply Hparse.
Qed.

Lemma tally_page_Forall {A} (P : JobRecord → Prop) (parse : A → option JobRecord)
    (seen : gset string) (items : list A) :
  (∀ item r, parse item = Some r → P r) →
  Forall P (page_jobs (tally_page parse seen items)).
Proof. intros Hparse. by apply tally_fold_Forall. Qed.

Section DriverRules.
Context `{PyLib} (server : Server).

(** A property of the collected records that every turn keeps holds of
    what the loop returns. *)
Lemma json_pages_rule (I : list JobRecord → Prop)
    tenant template pagination_param page_size_param page_size :
  (∀ page consecutive_empty seen jobs w consecutive_empty' seen' jobs' w',
     json_turn server tenant template pagination_param page_size_param page_size
               page consecutive_empty seen jobs w
       = (Next consecutive_empty' seen' jobs', w') →
     I jobs → I jobs') →
  ∀ page consecutive_empty seen jobs w,
    I jobs →
    match (json_pages server tenant template pagination_param page_size_param
                      page_size page consecutive_empty seen jobs w).1 with
    | Returned jobs' => I jobs'
    | Raised => True
    end.
Proof.
  intros Hturn page consecutive_empty seen jobs w.
  funelim (json_pages server tenant template pagination_param page_size_param
                      page_size page consecutive_empty seen jobs w);
    intros Hinv; simpl; try done.
  match goal with IH : ∀ _ : list JobRecord → Prop, _ |- _ => apply IH; [done|] end.
  eapply Hturn; eauto.
Qed.

Lemma html_pages_rule (I : list JobRecord → Prop)
    tenant endpoint pagination_param page_size_param page_size :
  (∀ page consecutive_empty seen jobs w consecutive_empty' seen' jobs' w',
     html_turn server tenant endpoint pagination_param page_size_param page_size
               page consecutive_empty seen jobs w
       = (Next consecutive_empty' seen' jobs', w') →
     I jobs → I jobs') →
  ∀ page consecutive_empty seen jobs w,
    I jobs →
    I (html_pages server tenant endpoint pagination_param page_size_param
                  page_size page consecutive_empty seen jobs w).1.
Proof.
  intros Hturn page consecutive_empty seen jobs w.
  funelim (html_pages server tenant endpoint pagination_param page_size_param
                      page_size page consecutive_empty seen jobs w);
    intros Hinv; simpl; try done.
  match goal with IH : ∀ _ : list JobRecord → Prop, _ |- _ => apply IH; [done|] end.
  eapply Hturn; eauto.
Qed.

Lemma json_turn_Forall (P : JobRecord → Prop)
    tenant template pagination_param page_size_param page_size
    page consecutive_empty seen jobs w consecutive_empty' seen' jobs' w' :
  (∀ job_obj base_url r, parse_job_from_json job_obj tenant base_url = Some r → P r) →
  json_turn server tenant template pagination_param page_size_param page_size
            page consecutive_empty seen jobs w
    = (Next consecutive_empty' seen' jobs', w') →
  Forall P jobs → Forall P jobs'.
Proof.
  unfold json_turn. intros Hparse Hturn Hinv.
  destruct (json_page_url _ _ _ _ _) as [api_url|]; [|done].
  run_unfold. destruct (server _ _) as [response| |]; [|done..].
  destruct (negb _); [done|].
  destruct (as_json _) as [data|]; [|done].
  destruct (iterate _) as [jobs_list|]; [|done].
  destruct (duplicate_flood _ _); [done|].
  assert (Hpage : Forall P (jobs ++ page_jobs (tally_page
            (λ job_obj, parse_job_from_json job_obj tenant (json_base_url api_url))
            seen jobs_list))).
  { apply Forall_app. split; [done|]. apply tally_page_Forall. eauto. }
  destruct (_ =? 0).
  - destruct (2 <=? _); [done|]. by injection Hturn as <- <- <- <-.
  - by injection Hturn as <- <- <- <-.
Qed.

Lemma html_turn_Forall (P : JobRecord → Prop)
    tenant endpoint pagination_param page_size_param page_size
    page consecutive_empty seen jobs w consecutive_empty' seen' jobs' w' :
  (∀ job_elem r, parse_job_from_listing job_elem endpoint tenant = Some r → P r) →
  html_turn server tenant endpoint pagination_param page_size_param page_size
            page consecutive_empty seen jobs w
    = (Next consecutive_empty' seen' jobs', w') →
  Forall P jobs → Forall P jobs'.
Proof.
  unfold html_turn. intros Hparse Hturn Hinv.
  run_unfold. destruct (server _ _) as [response| |]; [|done..].
  destruct (find_job_elements _) as [|job_elem job_elements] eqn:Helems.
  - destruct (2 <=? _); [done|]. by injection Hturn as <- <- <- <-.
  - destruct (duplicate_flood _ _); [done|].
    assert (Hpage : Forall P (jobs ++ page_jobs (tally_page
              (λ job_elem, parse_job_from_listing job_elem endpoint tenant)
              seen (job_elem :: job_elements)))).
    { apply Forall_app. split; [done|]. apply tally_page_Forall. eauto. }
    destruct (page_jobs _) eqn:Hjobs.
    + destruct (2 <=? _); [done|]. by injection Hturn as <- <- <- <-.
    + by injection Hturn as <- <- <- <-.
Qed.

(** X8.  Every record a paginated driver returns carries the tenant the
    driver was called with and a true title: an item without a title is
    never emitted.  A record of the HTML driver has, besides, a text as
    its title and a job URL. *)
Theorem driver_records_are_titled
    (tenant api_url_template endpoint pagination_param page_size_param : string)
    (page_size : Z) (w : trace) :
  match (scrape_via_json_api server tenant api_url_template pagination_param
                             page_size_param page_size w).1 with
  | Returned jobs =>
      Forall (λ r, Job.tenant r = tenant ∧ truthy (Job.job_title r) = true) jobs
  | Raised => True
  end
  ∧ Forall (λ r, Job.tenant r = tenant ∧ truthy (Job.job_title r) = true
                 ∧ (∃ title, Job.job_title r = VStr title)
                 ∧ is_Some (Job.job_url r))
           (scrape_via_html_parsing server tenant endpoint pagination_param
                                    page_size_param page_size w).1.
Proof.
  split.
  - unfold scrape_via_json_api.
    apply (json_pages_rule
             (Forall (λ r, Job.tenant r = tenant ∧ truthy (Job.job_title r) = true)));
      [|done].
    intros *. apply json_turn_Forall. intros job_obj base_url r Hr.
    by eapply parse_job_from_json_titled.
  - unfold scrape_via_html_parsing.
    apply (html_pages_rule
             (Forall (λ r, Job.tenant r = tenant ∧ truthy (Job.job_title r) = true
                           ∧ (∃ title, Job.job_title r = VStr title)
                           ∧ is_Some (Job.job_url r))));
      [|done].
    intros *. apply html_turn_Forall. intros job_elem r Hr.
    by eapply parse_job_from_listing_titled.
Qed.
End DriverRules.

Section DriverRuns.
Context `{PyLib} (server : Server).

Lemma json_pages_paced tenant template pagination_param page_size_param page_size
    page consecutive_empty seen jobs w :
  ∃ es, (json_pages server tenant template pagination_param page_size_param
                    page_size page consecutive_empty seen jobs w).2 = w ++ es
        ∧ paced es = true.
Proof.
  funelim (json_pages server tenant template pagination_param page_size_param
                      page_size page consecutive_empty seen jobs w); simpl.
  - exists []. by rewrite app_nil_r.
  - match goal with Ht : json_turn _ _ _ _ _ _ _ _ _ _ _ = _ |- _ =>
      apply json_turn_trace in Ht as [[_ ->]|[(u & ? & ->)|(u & ? & ? & ? & ? & _)]];
        [|done..] end.
    exists []. by rewrite app_nil_r.
  - match goal with Ht : json_turn _ _ _ _ _ _ _ _ _ _ _ = _ |- _ =>
      apply json_turn_trace in Ht as [[? _]|[(u & _ & ->)|(u & ? & ? & ? & ? & _)]];
        [done| |done] end.
    by exists [Request (GET u)].
  - match goal with Ht : json_turn _ _ _ _ _ _ _ _ _ _ _ = _ |- _ =>
      apply json_turn_trace in Ht as [[? _]|[(u & ? & _)|(u & ? & ? & ? & _ & ->)]];
        [done..|] end.
    match goal with IH : ∃ _, _ |- _ => destruct IH as (es & -> & Hpaced) end.
    exists (Request (GET u) :: Sleep :: es). by rewrite <- app_assoc.
Qed.

Lemma html_pages_paced tenant endpoint pagination_param page_size_param page_size
    page consecutive_empty seen jobs w :
  ∃ es, (html_pages server tenant endpoint pagination_param page_size_param
                    page_size page consecutive_empty seen jobs w).2 = w ++ es
        ∧ paced es = true.
Proof.
  funelim (html_pages server tenant endpoint pagination_param page_size_param
                      page_size page consecutive_empty seen jobs w); simpl.
  - exists []. by rewrite app_nil_r.
  - match goal with Ht : html_turn _ _ _ _ _ _ _ _ _ _ _ = _ |- _ =>
      apply html_turn_trace in Ht as [(u & ? & _)|(u & ? & ? & ? & ? & _)];
        done end.
  - match goal with Ht : html_turn _ _ _ _ _ _ _ _ _ _ _ = _ |- _ =>
      apply html_turn_trace in Ht as [(u & _ & ->)|(u & ? & ? & ? & ? & _)];
        [|done] end.
    by exists [Request (GET u)].
  - match goal with Ht : html_turn _ _ _ _ _ _ _ _ _ _ _ = _ |- _ =>
      apply html_turn_trace in Ht as [(u & ? & _)|(u & ? & ? & ? & _ & ->)];
        [done|] end.
    match goal with IH : ∃ _, _ |- _ => destruct IH as (es & -> & Hpaced) end.
    exists (Request (GET u) :: Sleep :: es). by rewrite <- app_assoc.
Qed.

(** X9.  Inside a paginated driver every page request but the last is
    followed by a pause before the next request: the events a driver
    adds to the run are page requests, each followed by one [sleep],
    except that the request on which the loop stops has none. *)
Theorem page_requests_are_paced
    (tenant api_url_template endpoint pagination_param page_size_param : string)
    (page_size : Z) (w : trace) :
  (∃ es, (scrape_via_json_api server tenant api_url_template pagination_param
                              page_size_param page_size w).2 = w ++ es
         ∧ paced es = true)
  ∧ (∃ es, (scrape_via_html_parsing server tenant endpoint pagination_param
                                    page_size_param page_size w).2 = w ++ es
           ∧ paced es = true).
Proof. split; [apply json_pages_paced|apply html_pages_paced]. Qed.

(** X10.  The JSON loop stops at the first page it cannot read (a
    transport error, a status other than 200, a body that is not JSON, a
    jobs entry that cannot be iterated) and returns the records collected
    on the pages before it, without a pause after the failed request. *)
Theorem json_loop_stops_at_an_unreadable_page
    (tenant api_url_template pagination_param page_size_param : string)
    (page_size : Z) (page consecutive_empty : nat) (seen : gset string)
    (jobs : list JobRecord) (w : trace) (api_url : string) :
  page < MAX_PAGES_PER_SITE →
  json_page_url api_url_template pagination_param page_size_param
                (Z.of_nat page * page_size)%Z page_size = Some api_url →
  json_items (server (requests_in w) (GET api_url)) = None →
  json_pages server tenant api_url_template pagination_param page_size_param
             page_size page consecutive_empty seen jobs w
  = (Returned jobs, w ++ [Request (GET api_url)]).
Proof.
  intros Hpage Hurl Hitems. rewrite json_pages_unroll.
  destruct (decide (page < MAX_PAGES_PER_SITE)); [|done].
  by rewrite (json_turn_on_failure server _ _ _ _ _ _ _ _ _ _ _ Hurl Hitems).
Qed.

Lemma html_turn_with_status_codes (f : Z → Z)
    tenant endpoint pagination_param page_size_param page_size
    page consecutive_empty seen jobs w :
  html_turn (with_status_codes f server) tenant endpoint pagination_param
            page_size_param page_size page consecutive_empty seen jobs w
  = html_turn server tenant endpoint pagination_param page_size_param page_size
              page consecutive_empty seen jobs w.
Proof.
  unfold html_turn. run_unfold. unfold with_status_codes.
  by destruct (server _ _) as [response| |].
Qed.

Lemma html_pages_with_status_codes (f : Z → Z)
    tenant endpoint pagination_param page_size_param page_size
    page consecutive_empty seen jobs w :
  html_pages (with_status_codes f server) tenant endpoint pagination_param
             page_size_param page_size page consecutive_empty seen jobs w
  = html_pages server tenant endpoint pagination_param page_size_param page_size
               page consecutive_empty seen jobs w.
Proof.
  funelim (html_pages server tenant endpoint pagination_param page_size_param
                      page_size page consecutive_empty seen jobs w);
    rewrite html_pages_unroll, html_turn_with_status_codes;
    (destruct (decide (page < MAX_PAGES_PER_SITE)); [|done]);
    try done;
    match goal with Ht : html_turn _ _ _ _ _ _ _ _ _ _ _ = _ |- _ =>
      rewrite Ht end; done.
Qed.

(** X11.  The HTML driver never looks at a status code: whatever codes
    the server gives its answers, the driver sends the same requests and
    returns the same records. *)
Theorem html_driver_ignores_status_codes (f : Z → Z)
    (tenant endpoint pagination_param page_size_param : string)
    (page_size : Z) (w : trace) :
  scrape_via_html_parsing (with_status_codes f server) tenant endpoint
                          pagination_param page_size_param page_size w
  = scrape_via_html_parsing server tenant endpoint pagination_param
                            page_size_param page_size w.
Proof. apply html_pages_with_status_codes. Qed.

Lemma json_turn_Raise tenant template pagination_param page_size_param page_size
    page consecutive_empty seen jobs w w' :
  json_turn server tenant template pagination_param page_size_param page_size
            page consecutive_empty seen jobs w = (Raise, w') →
  json_page_url template pagination_param page_size_param
                (Z.of_nat page * page_size)%Z page_size = None.
Proof.
  unfold json_turn.
  destruct (json_page_url _ _ _ _ _) as [api_url|]; [|done].
  run_unfold. destruct (server _ _) as [response| |]; [|done..].
  destruct (negb _); [done|].
  destruct (as_json _) as [data|]; [|done].
  destruct (iterate _) as [jobs_list|]; [|done].
  destruct (duplicate_flood _ _); [done|].
  destruct (_ =? 0); [destruct (2 <=? _)|]; done.
Qed.

Lemma json_pages_returns tenant template pagination_param page_size_param page_size
    page consecutive_empty seen jobs w :
  (∀ page, page < MAX_PAGES_PER_SITE →
     is_Some (json_page_url template pagination_param page_size_param
                            (Z.of_nat page * page_size)%Z page_size)) →
  ∃ jobs', (json_pages server tenant template pagination_param page_size_param
                       page_size page consecutive_empty seen jobs w).1
           = Returned jobs'.
Proof.
  funelim (json_pages server tenant template pagination_param page_size_param
                      page_size page consecutive_empty seen jobs w);
    intros Hurls; simpl; eauto.
  match goal with Ht : json_turn _ _ _ _ _ _ _ _ _ _ _ = _ |- _ =>
    apply json_turn_Raise in Ht as Hnone end.
  destruct (Hurls page Hpage) as [u Hu]. congruence.
Qed.

(** X12.  The JSON driver raises only when the URL of a page cannot be
    built: when it can be built for every page index below the cap, the
    driver returns a list of records. *)
Theorem json_driver_returns_when_urls_can_be_built
    (tenant api_url_template pagination_param page_size_param : string)
    (page_size : Z) (w : trace) :
  (∀ page, page < MAX_PAGES_PER_SITE →
     is_Some (json_page_url api_url_template pagination_param page_size_param
                            (Z.of_nat page * page_size)%Z page_size)) →
  ∃ jobs, (scrape_via_json_api server tenant api_url_template pagination_param
                               page_size_param page_size w).1 = Returned jobs.
Proof. apply json_pages_returns. Qed.
End DriverRuns.

Lemma json_loop_stops_at_an_unreadable_page_instance :
  json_pages (H := Demo.lib) (λ _ _, Demo.not_found) "acme.avature.net"
             Demo.api_template "offset" "limit" 10 3 0 {["7"]}
             [Demo.site_engineer_record] []
  = (Returned [Demo.site_engineer_record],
     [] ++ [Request (GET "https://acme.avature.net/api/jobs?offset=30&limit=10")]).
Proof.
  apply (@json_loop_stops_at_an_unreadable_page Demo.lib (λ _ _, Demo.not_found)
           "acme.avature.net" Demo.api_template "offset" "limit" 10 3 0 {["7"]}
           [Demo.site_engineer_record] []
           "https://acme.avature.net/api/jobs?offset=30&limit=10").
  - unfold MAX_PAGES_PER_SITE. lia.
  - vm_compute. reflexivity.
  - reflexivity.
Defined.

Lemma json_driver_returns_when_urls_can_be_built_instance :
  ∃ jobs, (scrape_via_json_api (H := Demo.lib) Demo.five_then_empty_json
             "acme.avature.net" Demo.api_template "offset" "limit" 10 []).1
          = Returned jobs.
Proof.
  apply (@json_driver_returns_when_urls_can_be_built Demo.lib
           Demo.five_then_empty_json "acme.avature.net" Demo.api_template
           "offset" "limit" 10 []).
  intros page _. by eexists.
Defined.

(** ** The detail-page driver and [scrape_single_config] *)

Lemma requests_in_get (urls : list string) :
  requests_in (Request ∘ GET <$> urls) = length urls.
Proof.
  unfold requests_in. induction urls as [|u urls IH]; [done|].
  cbn. by rewrite IH.
Qed.

Section Extraction.
Context `{PyLib} (server : Server).

Lemma detail_pages_spec (tenant career_url : string)
    (sample_job_ids : list string) (jobs : list JobRecord) (w : trace) :
  ∃ es new,
    detail_pages server tenant career_url sample_job_ids jobs w = (jobs ++ new, w ++ es)
    ∧ List.filter is_request es
      = (λ job_id, Request (GET (detail_url career_url job_id))) <$> sample_job_ids
    ∧ sublist (Job.job_id <$> new) (Some <$> sample_job_ids)
    ∧ Forall (λ r, ∃ n job_id response,
                server n (GET (detail_url career_url job_id)) = Responded response
                ∧ Response.status_code response = 200%Z
                ∧ asks_to_log_in response = false
                ∧ r = Job.make tenant
                        (text_field (detail_title (as_soup (Response.body response))))
                        (Some (detail_url career_url job_id)) (Some job_id)
                        (clean_text <$> detail_location (as_soup (Response.body response)))
                        None
                        (text_field (detail_description (as_soup (Response.body response))))
                ∧ truthy (Job.job_title r) = true)
             new.
Proof.
  revert jobs w. induction sample_job_ids as [|job_id rest IH]; intros jobs w.
  { exists [], []. by rewrite !app_nil_r. }
  cbn [detail_pages]. run_unfold. fold (detail_url career_url job_id).
  set (job_url := detail_url career_url job_id).
  assert (Hskip : ∃ es new,
    detail_pages server tenant career_url rest jobs (w ++ [Request (GET job_url)])
      = (jobs ++ new, w ++ es)
    ∧ List.filter is_request es
      = (λ job_id, Request (GET (detail_url career_url job_id))) <$> job_id :: rest
    ∧ sublist (Job.job_id <$> new) (Some <$> job_id :: rest)
    ∧ Forall (λ r, ∃ n job_id response,
                server n (GET (detail_url career_url job_id)) = Responded response
                ∧ Response.status_code response = 200%Z
                ∧ asks_to_log_in response = false
                ∧ r = Job.make tenant
                        (text_field (detail_title (as_soup (Response.body response))))
                        (Some (detail_url career_url job_id)) (Some job_id)
                        (clean_text <$> detail_location (as_soup (Response.body response)))
                        None
                        (text_field (detail_description (as_soup (Response.body response))))
                ∧ truthy (Job.job_title r) = true)
             new).
  { destruct (IH jobs (w ++ [Request (GET job_url)])) as (es & new & -> & Hreq & Hsub & Hall).
    exists (Request (GET job_url) :: es), new. rewrite <- app_assoc.
    split; [done|]. split; [by cbn; rewrite Hreq|].
    split; [by apply sublist_cons|done]. }
  destruct (server (requests_in w) (GET job_url)) as [response| |] eqn:Hserver;
    [|apply Hskip..].
  fold (asks_to_log_in response).
  destruct (asks_to_log_in response) eqn:Hlogin; [apply Hskip|].
  destruct (Z.eqb_spec (Response.status_code response) 200) as [Hstatus|_];
    [|apply Hskip].
  cbn [negb Job.job_title].
  destruct (truthy (text_field (detail_title (as_soup (Response.body response)))))
    eqn:Htitle.
  - match goal with |- context [detail_pages _ _ _ _ (jobs ++ [?r]) ?w'] =>
      destruct (IH (jobs ++ [r]) w') as (es & new & -> & Hreq & Hsub & Hall);
      exists (Request (GET job_url) :: Sleep :: es), (r :: new) end.
    rewrite <- !app_assoc. split; [done|]. split; [by cbn; rewrite Hreq|].
    split; [by apply sublist_skip|].
    apply Forall_cons. split; [|done].
    by exists (requests_in w), job_id, response.
  - destruct (IH jobs ((w ++ [Request (GET job_url)]) ++ [Sleep]))
      as (es & new & -> & Hreq & Hsub & Hall).
    exists (Request (GET job_url) :: Sleep :: es), new.
    rewrite <- !app_assoc. split; [done|]. split; [by cbn; rewrite Hreq|].
    split; [by apply sublist_cons|done].
Qed.

(** X13.  [scrape_partial_endpoint] asks for the detail page of every
    sample identifier of the config, once and in their order, at
    [<career_url>/JobDetail/<id>].  It returns at most one record per
    identifier, in the same order; a record carries the config's tenant,
    the identifier it was asked for, the URL that was asked, and a title
    that is true. *)
Theorem partial_driver_visits_each_sample_once (config : Config) (w : trace) :
  let career_url := Config.career_url config in
  let sample_job_ids := default [] (Config.sample_job_ids config) in
  let run := scrape_partial_endpoint server config w in
  (∃ es, run.2 = w ++ es
         ∧ List.filter is_request es
           = (λ job_id, Request (GET (detail_url career_url job_id))) <$> sample_job_ids)
  ∧ sublist (Job.job_id <$> run.1) (Some <$> sample_job_ids)
  ∧ length run.1 ≤ length sample_job_ids
  ∧ Forall (λ r, Job.tenant r = Config.tenant config
                 ∧ truthy (Job.job_title r) = true
                 ∧ ∃ job_id, Job.job_id r = Some job_id
                             ∧ Job.job_url r = Some (detail_url career_url job_id))
           run.1.
Proof.
  intros career_url sample_job_ids run. unfold run, scrape_partial_endpoint.
  fold career_url sample_job_ids.
  destruct (detail_pages_spec (Config.tenant config) career_url sample_job_ids [] w)
    as (es & new & -> & Hreq & Hsub & Hall).
  cbn [fst snd app]. split; [by exists es|]. split; [done|]. split.
  - apply sublist_length in Hsub. by rewrite !length_fmap in Hsub.
  - eapply Forall_impl; [exact Hall|].
    intros r (n & job_id & response & _ & _ & _ & -> & Htitle).
    split; [done|]. split; [done|]. by exists job_id.
Qed.

(** X14.  Every record of [scrape_partial_endpoint] was read from an
    answer with status 200 whose final URL shows no [login] or [signin]:
    a detail page that redirects to a login page, or answers with
    another status, gives no record.  The record's title, location and
    description are the cleaned texts found on that page. *)
Theorem partial_driver_records_come_from_open_pages (config : Config) (w : trace) :
  Forall (λ r, ∃ n job_id response,
            server n (GET (detail_url (Config.career_url config) job_id))
              = Responded response
            ∧ Response.status_code response = 200%Z
            ∧ asks_to_log_in response = false
            ∧ Job.job_id r = Some job_id
            ∧ Job.job_title r
              = text_field (detail_title (as_soup (Response.body response)))
            ∧ Job.location r
              = clean_text <$> detail_location (as_soup (Response.body response))
            ∧ Job.job_description r
              = text_field (detail_description (as_soup (Response.body response))))
         (scrape_partial_endpoint server config w).1.
Proof.
  unfold scrape_partial_endpoint.
  destruct (detail_pages_spec (Config.tenant config) (Config.career_url config)
              (default [] (Config.sample_job_ids config)) [] w)
    as (es & new & -> & _ & _ & Hall).
  cbn [fst app]. eapply Forall_impl; [exact Hall|].
  intros r (n & job_id & response & Hserver & Hstatus & Hlogin & -> & _).
  by exists n, job_id, response.
Qed.

Lemma scrape_paginated_endpoint_run (config : Config) (endpoint : string) (w : trace) :
  Config.endpoint config = Some endpoint →
  ∃ k es,
    1 ≤ k ≤ 3
    ∧ (scrape_paginated_endpoint server config w).2
      = w ++ (Request ∘ GET
                <$> take k (api_urls endpoint 0
                              (default 50%Z (Config.default_page_size config))))
          ++ es
    ∧ requests_in es ≤ MAX_PAGES_PER_SITE
    ∧ paced es = true.
Proof.
  intros Hendpoint. unfold scrape_paginated_endpoint. rewrite Hendpoint.
  unfold try_json_api. unfold mbind at 1. unfold Run_bind at 1.
  set (urls := api_urls endpoint 0 (default 50%Z (Config.default_page_size config))).
  destruct (try_urls_spec server urls w) as (k & Hk & Htrace & _ & Hres).
  change (length urls) with 3 in *.
  destruct (try_urls server urls w) as [found w1]. cbn [fst snd] in *. subst w1.
  exists k. destruct found as [[api_url sample_data]|].
  - destruct Hres as (Hpos & _ & _). unfold scrape_via_json_api.
    match goal with |- context [json_pages _ ?a ?b ?c ?d ?e 0 0 ∅ [] ?w'] =>
      destruct (json_pages_trace server a b c d e 0 0 ∅ [] w')
        as (es & Hes & Hreq & _ & _);
      destruct (json_pages_paced server a b c d e 0 0 ∅ [] w')
        as (es' & Hes' & Hpaced) end.
    rewrite Hes in Hes'. apply app_inv_head in Hes'. subst es'.
    exists es. rewrite Hes, <- app_assoc. split; [lia|]. split; [done|].
    split; [by rewrite Nat.sub_0_r in Hreq|done].
  - destruct Hres as [-> _]. unfold scrape_via_html_parsing. run_unfold.
    match goal with |- context [html_pages _ ?a ?b ?c ?d ?e 0 0 ∅ [] ?w'] =>
      destruct (html_pages_trace server a b c d e 0 0 ∅ [] w')
        as (es & Hes & Hreq & _ & _);
      destruct (html_pages_paced server a b c d e 0 0 ∅ [] w')
        as (es' & Hes' & Hpaced);
      destruct (html_pages server a b c d e 0 0 ∅ [] w') as [r w2] end.
    cbn [snd] in *. rewrite Hes in Hes'. apply app_inv_head in Hes'. subst es' w2.
    exists es. rewrite <- app_assoc. split; [lia|]. split; [done|].
    split; [by rewrite Nat.sub_0_r in Hreq|done].
Qed.

(** X15.  [scrape_single_config] returns no record and touches nothing
    for a failed detection, for a partial one without sample identifiers
    and for a successful one without an endpoint (where the driver
    raises before its first request).  For every other config it sends
    at least one request. *)
Theorem scrape_single_config_without_work (config : Config) (w : trace) :
  if nothing_to_scrape config
  then scrape_single_config server config w = ([], w)
  else requests_in w < requests_in (scrape_single_config server config w).2.
Proof.
  unfold nothing_to_scrape, scrape_single_config.
  destruct (Config.status config).
  - destruct (Config.endpoint config) as [endpoint|] eqn:Hendpoint.
    + destruct (scrape_paginated_endpoint_run config endpoint w Hendpoint)
        as (k & es & Hk & Htrace & _).
      run_unfold. destruct (scrape_paginated_endpoint server config w) as [r w'].
      cbn [snd] in *. subst w'.
      rewrite !requests_in_app, requests_in_get, length_take.
      change (length (api_urls _ _ _)) with 3. lia.
    + unfold scrape_paginated_endpoint. by rewrite Hendpoint.
  - unfold scrape_partial_endpoint.
    destruct (Config.sample_job_ids config) as [[|job_id rest]|]; [done| |done].
    cbn [default from_option id].
    destruct (detail_pages_spec (Config.tenant config) (Config.career_url config)
                (job_id :: rest) [] w) as (es & new & -> & Hreq & _).
    cbn [snd]. rewrite requests_in_app. unfold requests_in at 3. rewrite Hreq.
    cbn. lia.
  - done.
Qed.

Lemma scrape_single_config_cost (config : Config) (w : trace) :
  ∃ es, (scrape_single_config server config w).2 = w ++ es
        ∧ requests_in es
          ≤ match Config.status config with
            | success => 3 + MAX_PAGES_PER_SITE
            | partial => length (default [] (Config.sample_job_ids config))
            | failed => 0
            end.
Proof.
  unfold scrape_single_config. destruct (Config.status config).
  - destruct (Config.endpoint config) as [endpoint|] eqn:Hendpoint.
    + destruct (scrape_paginated_endpoint_run config endpoint w Hendpoint)
        as (k & es & Hk & Htrace & Hreq & _).
      run_unfold. destruct (scrape_paginated_endpoint server config w) as [r w'].
      cbn [snd] in *. subst w'. eexists. split; [done|].
      rewrite requests_in_app, requests_in_get, length_take.
      change (length (api_urls _ _ _)) with 3. lia.
    + unfold scrape_paginated_endpoint. rewrite Hendpoint.
      exists []. rewrite app_nil_r. split; [done|]. cbn. lia.
  - unfold scrape_partial_endpoint.
    destruct (detail_pages_spec (Config.tenant config) (Config.career_url config)
                (default [] (Config.sample_job_ids config)) [] w)
      as (es & new & -> & Hreq & _).
    exists es. split; [done|]. unfold requests_in. by rewrite Hreq, length_fmap.
  - exists []. by rewrite app_nil_r.
Qed.

(** X16.  The requests of an extraction are bounded by the config: at
    most three probe requests and one request per page below the cap for
    a successful detection, one request per sample identifier for a
    partial one, none for a failed one. *)
Theorem extraction_request_budget (config : Config) (w : trace) :
  ∃ es, (scrape_single_config server config w).2 = w ++ es
        ∧ requests_in es
          ≤ match Config.status config with
            | success => 3 + MAX_PAGES_PER_SITE
            | partial => length (default [] (Config.sample_job_ids config))
            | failed => 0
            end.
Proof. apply scrape_single_config_cost. Qed.
End Extraction.

(** ** Groups of digits *)

Lemma runs_all (cls : ascii → bool) (s : string) (tr : string * string) :
  tr ∈ Re.runs cls s → Text.all cls tr.1 = true.
Proof.
  revert tr. induction s as [|c s IH]; intros tr; cbn [Re.runs].
  - by intros ->%list_elem_of_singleton.
  - destruct (cls c) eqn:Hc.
    + intros [Hin| ->%list_elem_of_singleton]%elem_of_app; [|done].
      apply list_elem_of_fmap in Hin as (tr' & -> & Hin'). cbn [fst Text.all].
      by rewrite Hc, (IH _ Hin').
    + by intros ->%list_elem_of_singleton.
Qed.

Lemma first_success_elem {A B} (k : A → option B) (l : list A) (r : B) :
  Re.first_success k l = Some r → ∃ x, x ∈ l ∧ k x = Some r.
Proof.
  induction l as [|x l IH]; [done|]. cbn [Re.first_success].
  destruct (k x) as [r'|] eqn:Hk.
  - intros [= ->]. exists x. split; [left|done].
  - intros (y & Hy & Hky)%IH. exists y. split; [by right|done].
Qed.

Lemma match_here_digit_run (p : Re.pattern) (s cap g rest : string) :
  Forall (λ a, match a with
               | Re.Cap cls min => ∀ g, Text.all cls g = true →
                                        min ≤ String.length g → digit_run g
               | _ => True
               end) p →
  digit_run cap ∨ Exists (λ a, match a with Re.Cap _ _ => True | _ => False end) p →
  Re.match_here p s cap = Some (g, rest) → digit_run g.
Proof.
  revert s cap. induction p as [|a p IH]; intros s cap Hall Hcap.
  { cbn [Re.match_here]. intros [= <- _].
    destruct Hcap as [Hcap|Hcap]; [done|by apply Exists_nil in Hcap]. }
  apply Forall_cons in Hall as [Ha Hall].
  assert (Hrest : (∀ cls min, a ≠ Re.Cap cls min) →
            digit_run cap ∨
            Exists (λ a, match a with Re.Cap _ _ => True | _ => False end) p).
  { intros Hne. destruct Hcap as [Hcap|Hcap]; [by left|].
    apply Exists_cons in Hcap as [Hcap|Hcap]; [|by right].
    destruct a; try done. by destruct (Hne cls min). }
  destruct a as [l|ci alts|cls min|cls min]; cbn [Re.match_here].
  - destruct (Text.startswith l s); [|done]. apply IH; [done|].
    by apply Hrest.
  - intros (l & _ & Hl)%first_success_elem.
    destruct (if ci then _ else _); [|done]. revert Hl. apply IH; [done|].
    by apply Hrest.
  - intros (tr & _ & Htr)%first_success_elem. revert Htr. apply IH; [done|].
    by apply Hrest.
  - intros (tr & Hin & Htr)%first_success_elem. revert Htr. apply IH; [done|].
    left. apply list_elem_of_In, filter_In in Hin as [Hin Hlong].
    apply list_elem_of_In in Hin.
    apply Ha; [by eapply runs_all|].
    unfold Re.long_enough in Hlong. by apply Nat.leb_le.
Qed.

Lemma findall_digit_runs (p : Re.pattern) (s g : string) :
  captures_digits p → g ∈ Re.findall p s → digit_run g.
Proof.
  intros [Hall Hcap]. unfold Re.findall. generalize (String.length s) as fuel.
  intros fuel. revert s. induction fuel as [|fuel IH]; intros s; cbn [Re.findall_from].
  { by intros ?%elem_of_nil. }
  destruct (Re.search_rest p s) as [[g' rest]|] eqn:Hsearch;
    [|by intros ?%elem_of_nil].
  intros [->|Hin]%elem_of_cons; [|by eapply IH].
  destruct (search_rest_Some _ _ _ _ Hsearch) as (pre & s' & _ & Hmatch & _).
  eapply match_here_digit_run; [done|by right|done].
Qed.

Lemma html_job_id_patterns_capture_digits (p : Re.pattern) :
  p ∈ html_job_id_patterns → captures_digits p.
Proof.
  assert (Hdigits : ∀ g, Text.all Text.is_digit g = true → 1 ≤ String.length g →
                         digit_run g) by done.
  unfold html_job_id_patterns.
  intros [->|[->|[->|Hp%elem_of_nil]%elem_of_cons]%elem_of_cons]%elem_of_cons;
    [| | |done]; (split; [repeat constructor; done|]).
  - do 2 apply Exists_cons_tl. by apply Exists_cons_hd.
  - do 4 apply Exists_cons_tl. by apply Exists_cons_hd.
  - do 3 apply Exists_cons_tl. by apply Exists_cons_hd.
Qed.

Lemma report_pattern_captures_digits : captures_digits report_pattern.
Proof.
  split; [repeat constructor; done|].
  apply Exists_cons_tl. by apply Exists_cons_hd.
Qed.

(** ** The probes of [helpers.py] *)

Lemma detect_job_ids_in_html_spec (html : Body) (soup : Soup) (url : string) :
  match detect_job_ids_in_html html soup url with
  | Some config =>
      found_type config = html_scrape
      ∧ found_endpoint config = url
      ∧ found_confidence config = low
      ∧ ∃ (all_job_ids : gset string) (sample : list string),
          (∀ id, id ∈ all_job_ids
                 ↔ ∃ p, p ∈ html_job_id_patterns ∧ id ∈ Re.findall p (text html))
          ∧ found_job_count_estimate config = Some (size all_job_ids)
          ∧ found_sample_job_ids config = Some sample
          ∧ length sample = size all_job_ids `min` 5
          ∧ 1 ≤ length sample
          ∧ NoDup sample
          ∧ Forall (λ id, id ∈ all_job_ids ∧ digit_run id) sample
  | None =>
      ∀ p, p ∈ html_job_id_patterns → Re.findall p (text html) = []
  end.
Proof.
  unfold detect_job_ids_in_html.
  set (all_job_ids := foldl _ ∅ html_job_id_patterns).
  assert (Hall : ∀ id, id ∈ all_job_ids
                       ↔ ∃ p, p ∈ html_job_id_patterns ∧ id ∈ Re.findall p (text html)).
  { intros id. subst all_job_ids. unfold html_job_id_patterns. cbn [foldl].
    rewrite !elem_of_union, !elem_of_list_to_set. split.
    - intros [[[Hid|Hid]|Hid]|Hid]; [by apply elem_of_empty in Hid| | |];
        eexists; (split; [|exact Hid]).
      + left.
      + right; left.
      + right; right; left.
    - intros (p & Hp & Hid).
      apply elem_of_cons in Hp as [->|Hp]; [by left; left; right|].
      apply elem_of_cons in Hp as [->|Hp]; [by left; right|].
      apply elem_of_cons in Hp as [->|Hp]; [by right|].
      by apply elem_of_nil in Hp. }
  clearbody all_job_ids.
  destruct (bool_decide_reflect (all_job_ids = ∅)) as [->|Hne].
  - intros p Hp. destruct (Re.findall p (text html)) as [|id ids] eqn:Hfind; [done|].
    exfalso. apply (not_elem_of_empty (C := gset string) id), Hall.
    exists p. split; [done|]. rewrite Hfind. left.
  - cbn [found_type found_endpoint found_confidence found_job_count_estimate
         found_sample_job_ids].
    do 3 (split; [done|]).
    exists all_job_ids, (take 5 (elements all_job_ids)).
    split; [done|]. split; [done|]. split; [done|].
    assert (Hsize : size all_job_ids ≠ 0).
    { intros Hz. by apply size_empty_iff, leibniz_equiv in Hz. }
    assert (Hlen : length (elements all_job_ids) = size all_job_ids) by done.
    split; [by rewrite length_take, Hlen, Nat.min_comm|].
    split; [rewrite length_take, Hlen; lia|].
    split; [apply (sublist_NoDup _ (elements all_job_ids));
            [apply NoDup_elements|apply sublist_take]|].
    apply Forall_forall. intros id Hid.
    apply (subseteq_take 5), elem_of_elements in Hid. split; [done|].
    apply Hall in Hid as (p & Hp & Hid).
    eapply findall_digit_runs; [|done]. by apply html_job_id_patterns_capture_digits.
Qed.

(** X17.  [detect_job_ids_in_html] finds nothing exactly when none of
    its three patterns matches in the page.  Otherwise its estimate is
    the number of distinct identifiers the patterns match, and the
    sample is made of at least one and at most five of them, all
    different, each a non-empty run of digits: all of them when there
    are five or fewer. *)
Theorem job_id_samples_are_distinct_digit_runs
    (html : Body) (soup : Soup) (url : string) :
  match detect_job_ids_in_html html soup url with
  | Some config =>
      found_type config = html_scrape
      ∧ found_endpoint config = url
      ∧ found_confidence config = low
      ∧ ∃ (all_job_ids : gset string) (sample : list string),
          (∀ id, id ∈ all_job_ids
                 ↔ ∃ p, p ∈ html_job_id_patterns ∧ id ∈ Re.findall p (text html))
          ∧ found_job_count_estimate config = Some (size all_job_ids)
          ∧ found_sample_job_ids config = Some sample
          ∧ length sample = size all_job_ids `min` 5
          ∧ 1 ≤ length sample
          ∧ NoDup sample
          ∧ Forall (λ id, id ∈ all_job_ids ∧ digit_run id) sample
  | None =>
      ∀ p, p ∈ html_job_id_patterns → Re.findall p (text html) = []
  end.
Proof. apply detect_job_ids_in_html_spec. Qed.

Section Probes.
Context `{PyLib} (server : Server).

Lemma fetch_page_cost (url : string) (max_retries : Z) (w : trace) :
  ∃ k, k ≤ Z.to_nat max_retries
       ∧ (fetch_page server url max_retries w).2
         = w ++ Acquire :: replicate k (Request (GET url)).
Proof.
  unfold fetch_page. run_unfold.
  destruct (fetch_attempts_spec server (Z.to_nat max_retries) url (w ++ [Acquire]))
    as (k & Hk & Htrace & _).
  exists k. split; [done|]. by rewrite Htrace, <- app_assoc.
Qed.

Lemma head_checks_counts (tenant : string) (paths : list string) :
  requests_in (head_checks tenant paths) = length paths
  ∧ acquires_in (head_checks tenant paths) = length paths.
Proof.
  unfold requests_in, acquires_in, head_checks.
  induction paths as [|path paths [IH1 IH2]]; [done|].
  cbn. by rewrite IH1, IH2.
Qed.

Lemma guess_paths_spec (tenant : string) (paths : list string) (w : trace) :
  ∃ k, k ≤ length paths
    ∧ (guess_paths server tenant paths w).2 = w ++ head_checks tenant (take k paths)
    ∧ (∀ i path, i < k - 1 → paths !! i = Some path →
         answers_200 (server (requests_in w + i)
                             (HEAD ("https://" +:+ tenant +:+ path))) = false)
    ∧ match (guess_paths server tenant paths w).1 with
      | Some found =>
          ∃ path,
            0 < k ∧ paths !! (k - 1) = Some path
            ∧ found = search_jobs_config ("https://" +:+ tenant +:+ path) "path_guessing"
            ∧ answers_200 (server (requests_in w + (k - 1))
                                  (HEAD ("https://" +:+ tenant +:+ path))) = true
      | None =>
          k = length paths
          ∧ ∀ i path, i < k → paths !! i = Some path →
              answers_200 (server (requests_in w + i)
                                  (HEAD ("https://" +:+ tenant +:+ path))) = false
      end.
Proof.
  revert w. induction paths as [|path rest IH]; intros w.
  { exists 0. cbn. rewrite app_nil_r. split; [done|]. split; [done|].
    split; [intros; lia|]. split; [done|]. intros; lia. }
  cbn [guess_paths]. run_unfold.
  set (test_url := "https://" +:+ tenant +:+ path).
  set (w1 := (w ++ [Acquire]) ++ [Request (HEAD test_url)]).
  assert (Hn : requests_in (w ++ [Acquire]) = requests_in w).
  { rewrite requests_in_app. cbn. lia. }
  assert (Hn1 : requests_in w1 = requests_in w + 1).
  { unfold w1. rewrite requests_in_app, Hn. by cbn. }
  rewrite Hn.
  assert (Hgo : answers_200 (server (requests_in w) (HEAD test_url)) = false →
    ∃ k, k ≤ length (path :: rest)
      ∧ (guess_paths server tenant rest w1).2
        = w ++ head_checks tenant (take k (path :: rest))
      ∧ (∀ i path', i < k - 1 → (path :: rest) !! i = Some path' →
           answers_200 (server (requests_in w + i)
                               (HEAD ("https://" +:+ tenant +:+ path'))) = false)
      ∧ match (guess_paths server tenant rest w1).1 with
        | Some found =>
            ∃ path',
              0 < k ∧ (path :: rest) !! (k - 1) = Some path'
              ∧ found = search_jobs_config ("https://" +:+ tenant +:+ path')
                                           "path_guessing"
              ∧ answers_200 (server (requests_in w + (k - 1))
                                    (HEAD ("https://" +:+ tenant +:+ path'))) = true
        | None =>
            k = length (path :: rest)
            ∧ ∀ i path', i < k → (path :: rest) !! i = Some path' →
                answers_200 (server (requests_in w + i)
                                    (HEAD ("https://" +:+ tenant +:+ path'))) = false
        end).
  { intros Hfirst.
    destruct (IH w1) as (k & Hk & Htrace & Hbefore & Hres).
    rewrite Hn1 in Hbefore, Hres.
    exists (S k). cbn [length take]. split; [lia|].
    split; [by rewrite Htrace; unfold w1, head_checks; cbn; rewrite <- !app_assoc|].
    split.
    { intros [|i] path' Hi Hlook.
      - injection Hlook as <-. by rewrite Nat.add_0_r.
      - replace (requests_in w + S i) with (requests_in w + 1 + i) by lia.
        apply Hbefore; [lia|done]. }
    destruct (guess_paths server tenant rest w1).1 as [found|].
    + destruct Hres as (path' & Hpos & Hlook & -> & Hlast).
      exists path'. split; [lia|].
      replace (S k - 1) with (S (k - 1)) by lia. cbn [lookup list_lookup].
      split; [done|]. split; [done|].
      by replace (requests_in w + S (k - 1)) with (requests_in w + 1 + (k - 1)) by lia.
    + destruct Hres as [-> Hall]. split; [done|].
      intros [|i] path' Hi Hlook.
      * injection Hlook as <-. by rewrite Nat.add_0_r.
      * replace (requests_in w + S i) with (requests_in w + 1 + i) by lia.
        apply Hall; [cbn [length] in Hi; lia|done]. }
  destruct (server (requests_in w) (HEAD test_url)) as [test_resp| |] eqn:Hserver;
    [|by apply Hgo..].
  destruct (Z.eqb_spec (Response.status_code test_resp) 200) as [Hstatus|Hstatus];
    [|by apply Hgo, Z.eqb_neq].
  exists 1. cbn [fst snd length take]. split; [lia|].
  split; [by unfold w1, head_checks; cbn; rewrite <- !app_assoc|].
  split; [intros; lia|].
  exists path. split; [lia|]. split; [done|]. split; [done|].
  rewrite Nat.add_0_r. fold test_url. rewrite Hserver. by apply Z.eqb_eq.
Qed.

(** X18.  [detect_search_jobs_endpoint] sends nothing when the page has
    a [SearchJobs] form: the endpoint is the action of its first form
    joined to the tenant's origin, and the function raises when that
    join does.  It sends nothing either when the page has neither a form
    nor the word [SearchJobs].  Otherwise it checks the three common
    paths in order, each with one [HEAD] request behind an [acquire()],
    and stops at the first that answers 200, which becomes the endpoint:
    no path before it answered 200.  When none of the three does,
    nothing is found. *)
Theorem search_probe_guesses_paths_in_order
    (html : Body) (soup : Soup) (tenant : string) (w : trace) :
  let run := detect_search_jobs_endpoint server html soup tenant w in
  let check i path :=
    answers_200 (server (requests_in w + i) (HEAD ("https://" +:+ tenant +:+ path))) in
  match search_forms soup with
  | action :: _ =>
      run = (match urljoin ("https://" +:+ tenant) action with
             | Some endpoint =>
                 Returned (Some (search_jobs_config endpoint "form_detection"))
             | None => Raised
             end, w)
  | [] =>
      if Text.contains "SearchJobs" (text html)
      then ∃ k, 1 ≤ k ≤ 3
             ∧ run.2 = w ++ head_checks tenant (take k common_paths)
             ∧ (∀ i path, i < k - 1 → common_paths !! i = Some path →
                  check i path = false)
             ∧ match run.1 with
               | Returned (Some found) =>
                   ∃ path,
                     common_paths !! (k - 1) = Some path
                     ∧ found = search_jobs_config ("https://" +:+ tenant +:+ path)
                                                  "path_guessing"
                     ∧ check (k - 1) path = true
               | Returned None =>
                   k = 3
                   ∧ ∀ i path, common_paths !! i = Some path → check i path = false
               | Raised => False
               end
      else run = (Returned None, w)
  end.
Proof.
  unfold detect_search_jobs_endpoint. fold common_paths.
  destruct (search_forms soup) as [|action forms];
    [|by destruct (urljoin _ action)].
  destruct (Text.contains "SearchJobs" (text html)); [|done].
  destruct (guess_paths_spec tenant common_paths w)
    as (k & Hk & Htrace & Hbefore & Hres).
  cbv zeta. unfold mbind, Run_bind.
  destruct (guess_paths server tenant common_paths w) as [config w'].
  cbn [fst snd] in *. exists k. change (length common_paths) with 3 in *.
  destruct config as [found|].
  - destruct Hres as (path & Hpos & Hlook & -> & Hlast).
    split; [lia|]. split; [done|]. split; [done|]. by exists path.
  - destruct Hres as [-> Hall]. split; [lia|]. split; [done|]. split; [done|].
    split; [done|]. intros i path Hlook. apply Hall; [|done].
    apply lookup_lt_Some in Hlook. by cbn in Hlook.
Qed.

Lemma detect_search_jobs_endpoint_cost (html : Body) (soup : Soup)
    (tenant : string) (w : trace) :
  ∃ es, (detect_search_jobs_endpoint server html soup tenant w).2 = w ++ es
        ∧ requests_in es ≤ 3 ∧ acquires_in es = requests_in es.
Proof.
  unfold detect_search_jobs_endpoint.
  assert (Hnone : ∃ es, w = w ++ es ∧ requests_in es ≤ 3
                        ∧ acquires_in es = requests_in es).
  { exists []. rewrite app_nil_r. cbn. split; [done|]. split; [lia|done]. }
  destruct (search_forms soup) as [|action forms];
    [|by destruct (urljoin _ action)].
  destruct (Text.contains "SearchJobs" (text html)); [|done].
  unfold mbind, Run_bind.
  match goal with |- context [guess_paths _ _ ?paths _] =>
    destruct (guess_paths_spec tenant paths w) as (k & Hk & Htrace & _);
    destruct (guess_paths server tenant paths w) as [config w'] end.
  cbn [snd] in *. eexists. split; [exact Htrace|].
  destruct (head_checks_counts tenant
              (take k ["/careers/SearchJobs/"; "/careers/SearchJobs"; "/SearchJobs/"]))
    as [-> ->].
  rewrite length_take. cbn in *. lia.
Qed.

(** What the test request of the report probe must answer. *)
Lemma report_test_passes_inv (o : outcome) :
  report_test_passes o = true →
  ∃ response data,
    o = Responded response
    ∧ Response.status_code response = 200%Z
    ∧ as_json (Response.body response) = Some data
    ∧ (py_in "rows" data = Some true ∨ py_in "data" data = Some true).
Proof.
  unfold report_test_passes. destruct o as [response| |]; [|done..].
  destruct (Z.eqb_spec (Response.status_code response) 200) as [Hstatus|]; [|done].
  destruct (as_json _) as [data|] eqn:Hjson; [|done].
  destruct (py_in "rows" data) as [[|]|] eqn:Hrows; [| |done].
  - intros _. exists response, data. by eauto.
  - destruct (py_in "data" data) as [[|]|] eqn:Hdata; [|done..].
    intros _. exists response, data. by eauto.
Qed.

(** X19.  [detect_public_reports_endpoint] sends nothing when the page
    shows no [/PublicReports/<digits>/json].  Otherwise it sends exactly
    one test request, behind an [acquire()], to the endpoint built from
    the first report identifier on the page, which is a non-empty run of
    digits.  It reports that endpoint only when the test answered 200
    with JSON that holds [rows] or [data]. *)
Theorem report_probe_tests_the_first_report_id
    (html : Body) (tenant : string) (w : trace) :
  let run := detect_public_reports_endpoint server html tenant w in
  match Re.findall report_pattern (text html) with
  | [] => run = (None, w)
  | report_id :: _ =>
      let endpoint_url :=
        "https://" +:+ tenant +:+ "/PublicReports/" +:+ report_id +:+ "/json" in
      let test := GET (endpoint_url +:+ "?offset=0&recordsPerPage=1") in
      digit_run report_id
      ∧ run.2 = w ++ [Acquire; Request test]
      ∧ match run.1 with
        | Some found =>
            found = public_report_config endpoint_url
            ∧ ∃ response data,
                server (requests_in w) test = Responded response
                ∧ Response.status_code response = 200%Z
                ∧ as_json (Response.body response) = Some data
                ∧ (py_in "rows" data = Some true ∨ py_in "data" data = Some true)
        | None => report_test_passes (server (requests_in w) test) = false
        end
  end.
Proof.
  cbv zeta. rewrite (surjective_pairing (detect_public_reports_endpoint _ _ _ _)).
  rewrite detect_public_reports_endpoint_result.
  unfold detect_public_reports_endpoint.
  destruct (Re.findall report_pattern (text html)) as [|report_id ids] eqn:Hfind;
    [done|].
  cbn [fst snd]. split.
  { apply (findall_digit_runs report_pattern (text html));
      [apply report_pattern_captures_digits|]. rewrite Hfind. left. }
  run_unfold. cbn [snd]. split; [by rewrite <- app_assoc|].
  destruct (report_test_passes _) eqn:Hpass; [|done].
  split; [done|]. apply report_test_passes_inv in Hpass as (response & data & Hp).
  by exists response, data.
Qed.

Lemma detect_public_reports_endpoint_cost (html : Body) (tenant : string)
    (w : trace) :
  ∃ es, (detect_public_reports_endpoint server html tenant w).2 = w ++ es
        ∧ requests_in es ≤ 1 ∧ acquires_in es = requests_in es.
Proof.
  unfold detect_public_reports_endpoint.
  destruct (Re.findall _ _) as [|report_id ?].
  - exists []. rewrite app_nil_r. cbn. split; [done|]. split; [lia|done].
  - run_unfold. eexists [Acquire; Request (GET _)].
    rewrite <- app_assoc. split; [done|]. cbn. split; [lia|done].
Qed.

Lemma detect_endpoint_for_url_cost (tenant url : string) (is_career_page : bool)
    (w : trace) :
  ∃ es, (detect_endpoint_for_url server tenant url is_career_page w).2 = w ++ es
        ∧ requests_in es ≤ 6
        ∧ 1 ≤ acquires_in es ≤ 5
        ∧ requests_in es ≤ S (acquires_in es).
Proof.
  unfold detect_endpoint_for_url.
  unfold mbind at 1. unfold Run_bind at 1.
  destruct (fetch_page_cost url 2 w) as (k & Hk & Hfetch).
  destruct (fetch_page server url 2 w) as [page_data w1]. cbn [snd] in Hfetch. subst w1.
  change (Z.to_nat 2) with 2 in Hk.
  assert (Hcount : requests_in (Acquire :: replicate k (Request (GET url))) = k
                   ∧ acquires_in (Acquire :: replicate k (Request (GET url))) = 1).
  { split.
    - change (Acquire :: ?l) with ([Acquire] ++ l).
      by rewrite requests_in_app, requests_in_replicate_request.
    - unfold acquires_in. cbn. f_equal. clear. induction k as [|k IH]; [done|]. by cbn. }
  destruct Hcount as [Hreq Hacq].
  assert (Hstop : ∃ es, w ++ Acquire :: replicate k (Request (GET url)) = w ++ es
                        ∧ requests_in es ≤ 6 ∧ 1 ≤ acquires_in es ≤ 5
                        ∧ requests_in es ≤ S (acquires_in es)).
  { eexists. split; [done|]. rewrite Hreq, Hacq. lia. }
  destruct page_data as [[[status_code html] final_url]|]; [|done].
  destruct (negb _); [done|].
  unfold mbind at 1. unfold Run_bind at 1.
  destruct (detect_public_reports_endpoint_cost html tenant
              (w ++ Acquire :: replicate k (Request (GET url))))
    as (es1 & Hes1 & Hreq1 & Hacq1).
  destruct (detect_public_reports_endpoint _ _ _ _) as [config w2].
  cbn [snd] in Hes1. subst w2.
  destruct config as [config|].
  { eexists. rewrite <- app_assoc. split; [done|].
    rewrite requests_in_app, acquires_in_app, Hreq, Hacq. lia. }
  unfold mbind at 1. unfold Run_bind at 1.
  destruct (detect_search_jobs_endpoint_cost html (as_soup html) tenant
              ((w ++ Acquire :: replicate k (Request (GET url))) ++ es1))
    as (es2 & Hes2 & Hreq2 & Hacq2).
  destruct (detect_search_jobs_endpoint _ _ _ _ _) as [config w3].
  cbn [snd] in Hes2. subst w3.
  exists (((Acquire :: replicate k (Request (GET url))) ++ es1) ++ es2).
  split.
  - rewrite <- !app_assoc. destruct config as [[config|]|]; [done| |done].
    by destruct (detect_job_ids_in_html _ _ _).
  - rewrite !requests_in_app, !acquires_in_app, Hreq, Hacq. lia.
Qed.

(** X20.  Detecting one tenant costs at most six requests (two attempts
    at the career page, one test of the report endpoint, three path
    checks) and between one and five [acquire()] calls.  The requests
    outnumber the [acquire()] calls by at most one: the second attempt at
    the career page is the only request that can go without an
    [acquire()] of its own. *)
Theorem detection_request_budget (tenant url : string) (is_career_page : bool)
    (w : trace) :
  ∃ es, (detect_endpoint_for_url server tenant url is_career_page w).2 = w ++ es
        ∧ requests_in es ≤ 6
        ∧ 1 ≤ acquires_in es ≤ 5
        ∧ requests_in es ≤ S (acquires_in es).
Proof. apply detect_endpoint_for_url_cost. Qed.
End Probes.

(** ** Detection results *)

Section Detection.
Context `{PyLib} (server : Server).

Lemma detect_public_reports_endpoint_found (html : Body) (tenant : string)
    (w : trace) (config : Found) :
  (detect_public_reports_endpoint server html tenant w).1 = Some config →
  ∃ endpoint_url, config = public_report_config endpoint_url.
Proof.
  rewrite detect_public_reports_endpoint_result.
  destruct (Re.findall _ _) as [|report_id ?]; [done|].
  cbv zeta. destruct (report_test_passes _); [|done].
  intros [= <-]. by eexists.
Qed.

Lemma detect_search_jobs_endpoint_found (html : Body) (soup : Soup)
    (tenant : string) (w : trace) (config : Found) :
  (detect_search_jobs_endpoint server html soup tenant w).1 = Returned (Some config) →
  ∃ endpoint method, config = search_jobs_config endpoint method.
Proof.
  unfold detect_search_jobs_endpoint.
  destruct (search_forms soup) as [|action forms].
  - destruct (Text.contains _ _); [|done].
    unfold mbind, Run_bind.
    match goal with |- context [guess_paths _ _ ?paths _] =>
      destruct (guess_paths_spec server tenant paths w) as (k & _ & _ & _ & Hres);
      destruct (guess_paths server tenant paths w) as [found w'] end.
    cbn [fst] in *. intros [= ->].
    destruct Hres as (path & _ & _ & -> & _). by eexists _, _.
  - destruct (urljoin _ action); [|done]. intros [= <-]. by eexists _, _.
Qed.

Lemma detect_endpoint_for_url_shape (tenant url : string) (is_career_page : bool)
    (w : trace) :
  match (detect_endpoint_for_url server tenant url is_career_page w).1 with
  | Raised => True
  | Returned result =>
      Config.tenant result = tenant
      ∧ Config.career_url result = url
      ∧ Config.is_career_page result = is_career_page
      ∧ match Config.status result with
        | success =>
            Config.error result = None
            ∧ is_Some (Config.endpoint result)
            ∧ Config.sample_job_ids result = None
            ∧ ((Config.type result = Some public_report_json
                ∧ Config.confidence result = Some high
                ∧ Config.pagination_param result = Some "offset"
                ∧ Config.page_size_param result = Some "recordsPerPage"
                ∧ Config.default_page_size result = Some 1000%Z)
               ∨ (Config.type result = Some search_jobs_html
                  ∧ Config.confidence result = Some medium
                  ∧ Config.pagination_param result = Some "jobOffset"
                  ∧ Config.page_size_param result = Some "jobRecords"
                  ∧ Config.default_page_size result = Some 50%Z))
        | partial =>
            Config.error result = None
            ∧ Config.type result = Some html_scrape
            ∧ Config.confidence result = Some low
            ∧ Config.endpoint result = Some url
            ∧ ∃ sample, Config.sample_job_ids result = Some sample
                        ∧ 1 ≤ length sample ≤ 5
                        ∧ NoDup sample
                        ∧ Forall digit_run sample
        | failed =>
            Config.type result = None
            ∧ Config.endpoint result = None
            ∧ Config.confidence result = None
            ∧ Config.sample_job_ids result = None
            ∧ is_Some (Config.error result)
        end
  end.
Proof.
  set (run := detect_endpoint_for_url server tenant url is_career_page w).
  assert (Hrun : run = detect_endpoint_for_url server tenant url is_career_page w)
    by done.
  clearbody run. unfold detect_endpoint_for_url in Hrun.
  unfold mbind at 1 in Hrun. unfold Run_bind at 1 in Hrun.
  destruct (fetch_page server url 2 w) as [page_data w1].
  destruct page_data as [[[status_code html] final_url]|];
    [|by subst run; cbn; repeat split; try done; eexists].
  destruct (negb _); [by subst run; cbn; repeat split; try done; eexists|].
  unfold mbind at 1 in Hrun. unfold Run_bind at 1 in Hrun.
  pose proof (detect_public_reports_endpoint_found html tenant w1) as Hreport.
  destruct (detect_public_reports_endpoint _ _ _ _) as [config w2].
  destruct config as [config|].
  { destruct (Hreport config eq_refl) as (endpoint_url & ->). subst run.
    cbn. do 3 (split; [done|]). split; [done|]. split; [by eexists|].
    split; [done|]. by left. }
  unfold mbind at 1 in Hrun. unfold Run_bind at 1 in Hrun.
  pose proof (detect_search_jobs_endpoint_found html (as_soup html) tenant w2)
    as Hsearch.
  destruct (detect_search_jobs_endpoint _ _ _ _ _) as [config w3].
  destruct config as [[config|]|]; [| |by subst run].
  { destruct (Hsearch config eq_refl) as (endpoint & method & ->). subst run.
    cbn. do 3 (split; [done|]). split; [done|]. split; [by eexists|].
    split; [done|]. by right. }
  pose proof (detect_job_ids_in_html_spec html (as_soup html) url) as Hids.
  destruct (detect_job_ids_in_html html (as_soup html) url) as [config|];
    [|by subst run; cbn; repeat split; try done; eexists].
  destruct Hids as (Htype & Hendpoint & Hconf & all_job_ids & sample & _ & _
                    & Hsample & Hlen & Hpos & Hnd & Hall).
  subst run. cbn. do 3 (split; [done|]). split; [done|].
  rewrite Htype, Hendpoint, Hconf, Hsample. do 3 (split; [done|]).
  exists sample. split; [done|]. split; [lia|]. split; [done|].
  eapply Forall_impl; [exact Hall|]. by intros id [_ ?].
Qed.


End Detection.

(** ** Detection followed by extraction *)

Section Pipeline.
Context `{PyLib} (server : Server).

Lemma scrape_single_config_distinct (config : Config) (w : trace) :
  (Config.status config = partial →
   NoDup (default [] (Config.sample_job_ids config))) →
  distinct_job_ids (scrape_single_config server config w).1.
Proof.
  intros Hsample.
  assert (Hnil : distinct_job_ids []).
  { intros i j ri rj Hi. by rewrite lookup_nil in Hi. }
  assert (Hids : ∀ jobs, NoDup (emitted_ids jobs) → distinct_job_ids jobs).
  { intros jobs Hnd i j ri rj. by apply NoDup_emitted_ids_distinct. }
  unfold scrape_single_config. destruct (Config.status config).
  - unfold scrape_paginated_endpoint.
    destruct (Config.endpoint config) as [endpoint|]; [|done].
    unfold try_json_api. run_unfold.
    destruct (try_urls server _ w) as [found w1].
    destruct found as [[api_url sample_data]|].
    + unfold scrape_via_json_api.
      match goal with |- context [json_pages _ ?a ?b ?c ?d ?e 0 0 ∅ [] ?w'] =>
        pose proof (json_pages_inv server a b c d e 0 0 ∅ [] w' dedup_inv_empty)
          as Hinv;
        destruct (json_pages server a b c d e 0 0 ∅ [] w') as [[jobs|] w2] end;
        cbn [fst] in *; [by apply Hids|done].
    + unfold scrape_via_html_parsing.
      match goal with |- context [html_pages _ ?a ?b ?c ?d ?e 0 0 ∅ [] ?w'] =>
        pose proof (html_pages_inv server a b c d e 0 0 ∅ [] w' dedup_inv_empty)
          as Hinv;
        destruct (html_pages server a b c d e 0 0 ∅ [] w') as [jobs w2] end.
      cbn [fst] in *. by apply Hids.
  - unfold scrape_partial_endpoint.
    destruct (detail_pages_spec server (Config.tenant config)
                (Config.career_url config)
                (default [] (Config.sample_job_ids config)) [] w)
      as (es & new & -> & _ & Hsub & _).
    cbn [fst app].
    assert (Hnd : NoDup (Job.job_id <$> new)).
    { eapply sublist_NoDup; [|exact Hsub].
      apply (NoDup_fmap_2 Some). by apply Hsample. }
    intros i j ri rj Hi Hj Hij _ Heq. apply Hij.
    eapply NoDup_lookup; [exact Hnd| |].
    + by rewrite list_lookup_fmap, Hi.
    + by rewrite list_lookup_fmap, Hj, Heq.
  - done.
Qed.

(** X23.  Whatever detection returned for a tenant, extracting with it
    gives records no two of which share a non-empty identifier: the
    paginated drivers skip what they have seen, and the sample
    identifiers of a partial detection are all different. *)
Theorem detected_configs_yield_distinct_job_ids
    (site : Server) (tenant url : string) (is_career_page : bool) (w w' : trace) :
  match (detect_endpoint_for_url site tenant url is_career_page w).1 with
  | Returned config => distinct_job_ids (scrape_single_config server config w').1
  | Raised => True
  end.
Proof.
  pose proof (detect_endpoint_for_url_shape site tenant url is_career_page w)
    as Hshape.
  destruct (detect_endpoint_for_url site tenant url is_career_page w).1
    as [config|]; [|done].
  destruct Hshape as (_ & _ & _ & Hshape).
  apply scrape_single_config_distinct. intros Hstatus.
  rewrite Hstatus in Hshape.
  destruct Hshape as (_ & _ & _ & _ & sample & -> & _ & Hnd & _). done.
Qed.

(** X24.  Detection and extraction for one tenant, run one after the
    other, send at most 29 requests and call [acquire()] at most five
    times: six requests for detection, then three probes and twenty
    pages, or at most five detail pages.  A detection that raises has
    sent at most six requests. *)
Theorem pipeline_request_budget
    (tenant url : string) (is_career_page : bool) (w : trace) :
  let detection := detect_endpoint_for_url server tenant url is_career_page w in
  match detection.1 with
  | Returned config =>
      let extraction := scrape_single_config server config detection.2 in
      ∃ es, extraction.2 = w ++ es
            ∧ requests_in es ≤ 29
            ∧ acquires_in es ≤ 5
  | Raised =>
      ∃ es, detection.2 = w ++ es
            ∧ requests_in es ≤ 6
            ∧ acquires_in es ≤ 5
  end.
Proof.
  cbv zeta.
  destruct (detect_endpoint_for_url_cost server tenant url is_career_page w)
    as (es1 & Hes1 & Hreq1 & Hacq1 & _).
  pose proof (detect_endpoint_for_url_shape server tenant url is_career_page w)
    as Hshape.
  destruct (detect_endpoint_for_url server tenant url is_career_page w)
    as [[config|] w1];
    cbn [fst snd] in *; subst w1; [|exists es1; split; [done|lia]].
  destruct Hshape as (_ & _ & _ & Hshape).
  destruct (scrape_single_config_cost server config (w ++ es1)) as (es2 & Hes2 & Hreq2).
  destruct (scrape_single_config_no_acquire server config (w ++ es1))
    as (es2' & Hes2' & Hacq2).
  rewrite Hes2 in Hes2'. apply app_inv_head in Hes2'. subst es2'.
  exists (es1 ++ es2). rewrite app_assoc. split; [done|].
  rewrite requests_in_app, acquires_in_app.
  assert (requests_in es2 ≤ 23); [|lia].
  destruct (Config.status config).
  - unfold MAX_PAGES_PER_SITE in Hreq2. lia.
  - destruct Hshape as (_ & _ & _ & _ & sample & Hsample & Hlen & _).
    rewrite Hsample in Hreq2. cbn in Hreq2. lia.
  - lia.
Qed.
End Pipeline.

(** ** The accounting of a page *)

Lemma tally_item_accounting (t : Tally) (job_data : option JobRecord) :
  let t' := tally_item t job_data in
  ∃ added,
    page_jobs t' = page_jobs t ++ added
    ∧ seen_job_ids t' = seen_job_ids t ∪ list_to_set (emitted_ids added)
    ∧ page_new_jobs t' = page_new_jobs t + length added
    ∧ page_duplicates t' + page_new_jobs t'
      = page_duplicates t + page_new_jobs t + length (option_list job_data)
    ∧ sublist added (option_list job_data).
Proof.
  assert (Hnone : seen_job_ids t = seen_job_ids t ∪ list_to_set (emitted_ids [])).
  { unfold emitted_ids. cbn. by rewrite (right_id_L ∅ (∪)). }
  destruct job_data as [r|]; cbn [tally_item option_list option_rect].
  2:{ exists []. rewrite app_nil_r. cbn [length]. split; [done|].
      split; [done|]. split; [lia|]. split; [lia|constructor]. }
  destruct (nonempty (Job.job_id r) && _) eqn:Hdup;
    cbn [page_jobs seen_job_ids page_new_jobs page_duplicates].
  - exists []. rewrite app_nil_r. cbn [length]. split; [done|].
    split; [done|]. split; [lia|]. split; [lia|]. apply sublist_cons. constructor.
  - exists [r]. cbn [length]. split; [done|]. split.
    + unfold emitted_ids. cbn [omap list_omap].
      destruct (nonempty (Job.job_id r)) eqn:Hne; [|exact Hnone].
      destruct (nonempty_Some _ Hne) as (s & -> & _).
      cbn. by rewrite (right_id_L ∅ (∪)), (comm_L (∪)).
    + split; [lia|]. split; [lia|]. apply sublist_skip. constructor.
Qed.

Lemma tally_fold_accounting {A} (parse : A → option JobRecord) (items : list A)
    (t : Tally) :
  let t' := foldl (λ t item, tally_item t (parse item)) t items in
  ∃ added,
    page_jobs t' = page_jobs t ++ added
    ∧ seen_job_ids t' = seen_job_ids t ∪ list_to_set (emitted_ids added)
    ∧ page_new_jobs t' = page_new_jobs t + length added
    ∧ page_duplicates t' + page_new_jobs t'
      = page_duplicates t + page_new_jobs t + length (omap parse items)
    ∧ sublist added (omap parse items).
Proof.
  revert t. induction items as [|item items IH]; intros t.
  { exists []. cbn. rewrite app_nil_r. split; [done|].
    split; [by rewrite (right_id_L ∅ (∪))|]. split; [lia|]. split; [lia|constructor]. }
  cbn [foldl].
  destruct (IH (tally_item t (parse item)))
    as (added2 & Hjobs2 & Hseen2 & Hnew2 & Hcount2 & Hsub2).
  destruct (tally_item_accounting t (parse item))
    as (added1 & Hjobs1 & Hseen1 & Hnew1 & Hcount1 & Hsub1).
  cbv zeta in *. exists (added1 ++ added2).
  assert (Homap : omap parse (item :: items)
                  = option_list (parse item) ++ omap parse items).
  { cbn. by destruct (parse item). }
  rewrite Homap, Hjobs2, Hjobs1, Hseen2, Hseen1, Hnew2, Hnew1.
  rewrite emitted_ids_app, list_to_set_app_L, !length_app, <- app_assoc.
  split; [done|]. split; [by rewrite (assoc_L (∪))|]. split; [lia|].
  split; [lia|]. by apply sublist_app.
Qed.

(** X25.  The accounting of a page.  The records kept are parsed items
    of the page, in their order; the new-jobs counter is their number;
    every parsed item is counted exactly once, as kept or as a
    duplicate; and the seen set after the page is the seen set before it
    together with the non-empty identifiers of the records kept. *)
Theorem tally_page_accounting {A} (parse : A → option JobRecord)
    (seen : gset string) (items : list A) :
  let t := tally_page parse seen items in
  sublist (page_jobs t) (omap parse items)
  ∧ page_new_jobs t = length (page_jobs t)
  ∧ page_duplicates t + page_new_jobs t = length (omap parse items)
  ∧ seen_job_ids t = seen ∪ list_to_set (emitted_ids (page_jobs t)).
Proof.
  cbv zeta. unfold tally_page.
  destruct (tally_fold_accounting parse items
              {| seen_job_ids := seen; page_jobs := []; page_duplicates := 0;
                 page_new_jobs := 0 |})
    as (added & Hjobs & Hseen & Hnew & Hcount & Hsub).
  cbn [page_jobs seen_job_ids page_new_jobs page_duplicates app] in *.
  rewrite Hjobs, Hnew, Hseen. split; [done|]. split; [done|]. split; [lia|done].
Qed.

(** ** [fetch_page] without attempts *)

(** X26.  With no attempt allowed, [fetch_page] still waits for the rate
    limiter, sends nothing and returns nothing. *)
Theorem fetch_page_without_attempts `{PyLib} (server : Server)
    (url : string) (max_retries : Z) (w : trace) :
  (max_retries ≤ 0)%Z →
  fetch_page server url max_retries w = (None, w ++ [Acquire]).
Proof.
  intros Hle. unfold fetch_page. run_unfold.
  by replace (Z.to_nat max_retries) with 0 by lia.
Qed.

Lemma fetch_page_without_attempts_instance :
  fetch_page (λ _ _, Demo.not_found) "https://acme.avature.net/careers" 0 []
  = (None, [] ++ [Acquire]).
Proof.
  apply (@fetch_page_without_attempts Demo.lib (λ _ _, Demo.not_found)
           "https://acme.avature.net/careers" 0 []).
  lia.
Defined.
